(** * Prompt Collection Manager: record model, persistence layer and tree builder

    A shallow embedding of the [Prompt] and [StorageManager] classes and of
    [TreeView.buildTreeStructure] / [TreeView.deletePrompt], followed by the
    properties of the specification that are stated about them. Part III
    goes on to the rest of these classes and to the parts of [TreeView],
    [PromptEditor], [SearchController], [AppController] and [ThemeUtils]
    that work on data, with properties read off the code.

    Conventions of the embedding.
    - A JavaScript string is a [string]; each character stands for one UTF-16
      code unit below 256 (the Latin-1 range), so [String.length] is [.length].
    - A JavaScript number that the code uses as a count, an index or a score
      is a [Z].
    - A [Map] is an association list in insertion order with distinct keys, a
      [Set] a duplicate-free list in insertion order.
    - A plain object used as a dictionary keeps its own properties in an
      association list, in the order of their creation. [JSObject] gives what
      a lookup finds when there is no own property (the members of
      [Object.prototype]) and the order in which the own keys are enumerated
      (array indices first, in ascending order). The settings object is read
      key by key and never enumerated.
    - Fields carry the types the constructor gives them (strings, a list of
      strings for [tags], a boolean for [isFavorite]); a property that a
      plain object does not have is [None]. An object that gives one of
      these properties a value of another kind (a number, [null], an
      explicit [undefined]) is outside the embedding.
    - A method that can throw returns a [Completion]; a method that mutates
      its receiver returns the receiver's new state. *)

From Stdlib Require Import String Ascii List ZArith NArith Lia Bool Arith.
From Stdlib Require Import DecimalString Permutation.
Import ListNotations.
Local Open Scope string_scope.
Local Open Scope list_scope.

(* ================================================================== *)
(** * Part I. The embedding *)
(* ================================================================== *)

(** ** Completions: normal return or thrown [Error] *)

Inductive Completion (A : Type) : Type :=
| Return (value : A)
| Throw (message : string).
Arguments Return {A} value.
Arguments Throw {A} message.

Definition bindC {A B} (c : Completion A) (k : A -> Completion B) : Completion B :=
  match c with
  | Return a => k a
  | Throw m => Throw m
  end.

(** [array.some(f)] for a callback that can throw: the first element on
    which [f] returns true or throws ends the search. *)
Fixpoint some {A} (f : A -> Completion bool) (l : list A) : Completion bool :=
  match l with
  | [] => Return false
  | x :: r =>
      match f x with
      | Return true => Return true
      | Return false => some f r
      | Throw message => Throw message
      end
  end.

(** [array.forEach(body)] for a body that works on a state and can throw:
    the first throw ends the loop. *)
Fixpoint forEach {S A : Type} (body : S -> A -> Completion S) (l : list A) (state : S)
  : Completion S :=
  match l with
  | [] => Return state
  | x :: r => bindC (body state x) (forEach body r)
  end.

(** ** JavaScript string primitives *)

Module JSString.

Definition code (c : ascii) : nat := nat_of_ascii c.

(** WhiteSpace and LineTerminator code units below 256: TAB, LF, VT, FF,
    CR, SP and NBSP. These are what [String.prototype.trim] strips. *)
Definition isWhiteSpace (c : ascii) : bool :=
  let n := code c in
  ((n =? 9) || (n =? 10) || (n =? 11) || (n =? 12) || (n =? 13)
   || (n =? 32) || (n =? 160))%nat.

Fixpoint trimStart (s : string) : string :=
  match s with
  | EmptyString => EmptyString
  | String c r => if isWhiteSpace c then trimStart r else s
  end.

Fixpoint trimEnd (s : string) : string :=
  match s with
  | EmptyString => EmptyString
  | String c r =>
      match trimEnd r with
      | EmptyString => if isWhiteSpace c then EmptyString else String c EmptyString
      | r' => String c r'
      end
  end.

Definition trim (s : string) : string := trimEnd (trimStart s).

(** [toLowerCase] on code units below 256: A-Z and the Latin-1 capitals
    (U+00C0..U+00DE except the multiplication sign U+00D7) move up by 32. *)
Definition toLowerChar (c : ascii) : ascii :=
  let n := code c in
  if (((65 <=? n) && (n <=? 90))
      || ((192 <=? n) && (n <=? 222) && negb (n =? 215)))%nat
  then ascii_of_nat (n + 32)
  else c.

Fixpoint toLowerCase (s : string) : string :=
  match s with
  | EmptyString => EmptyString
  | String c r => String (toLowerChar c) (toLowerCase r)
  end.

(** [s.startsWith(q)] *)
Fixpoint startsWith (s q : string) : bool :=
  match q, s with
  | EmptyString, _ => true
  | String _ _, EmptyString => false
  | String b q', String a s' => Ascii.eqb a b && startsWith s' q'
  end.

(** [s.includes(q)] *)
Fixpoint includes (s q : string) : bool :=
  startsWith s q
  || match s with
     | EmptyString => false
     | String _ r => includes r q
     end.

(** [l.join(sep)] *)
Definition join (sep : string) (l : list string) : string := String.concat sep l.

(** [s.lastIndexOf(c)] for a one-character needle; [None] is -1. *)
Fixpoint lastIndexOf (c : ascii) (s : string) : option nat :=
  match s with
  | EmptyString => None
  | String a r =>
      match lastIndexOf c r with
      | Some i => Some (S i)
      | None => if Ascii.eqb a c then Some 0 else None
      end
  end.

Definition length (s : string) : Z := Z.of_nat (String.length s).

(** A string is falsy exactly when it is empty. *)
Definition truthy (s : string) : bool := negb (s =? "").

(** [x || d] where [x] is a possibly absent string property. *)
Definition orElse (x : option string) (d : string) : string :=
  match x with
  | Some s => if truthy s then s else d
  | None => d
  end.

Definition isDigit (c : ascii) : bool :=
  let n := code c in ((48 <=? n) && (n <=? 57))%nat.

(** [\d*]: drops the leading digits. *)
Fixpoint skipDigits (s : string) : string :=
  match s with
  | EmptyString => EmptyString
  | String c r => if isDigit c then skipDigits r else s
  end.

(** [\d+]: one digit or more, then the rest; [None] when there is none. *)
Definition digits1 (s : string) : option string :=
  match s with
  | EmptyString => None
  | String c r => if isDigit c then Some (skipDigits r) else None
  end.

(** [s.split(c)] for a one-character separator: never empty. *)
Fixpoint split (c : ascii) (s : string) : list string :=
  match s with
  | EmptyString => [EmptyString]
  | String a r =>
      if Ascii.eqb a c then EmptyString :: split c r
      else
        match split c r with
        | w :: ws => String a w :: ws
        | [] => [String a EmptyString]
        end
  end.

(** [s.split(/P+/)] for a class [P] of characters: a run of them separates. *)
Fixpoint splitRuns (P : ascii -> bool) (s : string) : list string :=
  match s with
  | EmptyString => [EmptyString]
  | String a r =>
      if P a then
        match r with
        | EmptyString => [EmptyString; EmptyString]
        | String b _ => if P b then splitRuns P r else EmptyString :: splitRuns P r
        end
      else
        match splitRuns P r with
        | w :: ws => String a w :: ws
        | [] => [String a EmptyString]
        end
  end.

(** [s.replace(/P+/g, '-')] *)
Fixpoint replaceRuns (P : ascii -> bool) (s : string) : string :=
  match s with
  | EmptyString => EmptyString
  | String a r =>
      if P a then
        match r with
        | EmptyString => "-"
        | String b _ => if P b then replaceRuns P r else String "-" (replaceRuns P r)
        end
      else String a (replaceRuns P r)
  end.

(** [s.replace(/[^K]/g, '')] for a class [K] of characters to keep. *)
Fixpoint keepChars (K : ascii -> bool) (s : string) : string :=
  match s with
  | EmptyString => EmptyString
  | String a r => if K a then String a (keepChars K r) else keepChars K r
  end.

Definition isLowerAlnum (c : ascii) : bool :=
  let n := code c in
  (((97 <=? n) && (n <=? 122)) || ((48 <=? n) && (n <=? 57)))%nat.

Definition isHyphen (c : ascii) : bool := Ascii.eqb c "-".

(** [s.substring(0, n)] for a number [n]: a negative one counts as 0. *)
Definition substringTo (n : Z) (s : string) : string :=
  String.substring 0 (Z.to_nat n) s.

End JSString.

(** ** [Map], [Set] and dictionary objects *)

Module JSMap.
Section Ops.
Context {V : Type}.

Definition t := list (string * V).

Definition keys (m : t) : list string := map fst m.
Definition values (m : t) : list V := map snd m.
Definition size (m : t) : Z := Z.of_nat (List.length m).

Fixpoint get (k : string) (m : t) : option V :=
  match m with
  | [] => None
  | (k', v) :: r => if k =? k' then Some v else get k r
  end.

Definition has (k : string) (m : t) : bool :=
  match get k m with Some _ => true | None => false end.

(** [m.set(k, v)]: an existing key keeps its position. *)
Fixpoint set (k : string) (v : V) (m : t) : t :=
  match m with
  | [] => [(k, v)]
  | (k', v') :: r => if k =? k' then (k, v) :: r else (k', v') :: set k v r
  end.

(** [m.delete(k)] *)
Fixpoint delete (k : string) (m : t) : t :=
  match m with
  | [] => []
  | (k', v') :: r => if k =? k' then r else (k', v') :: delete k r
  end.

Definition clear (m : t) : t := [].

(** [{...a, ...b}] and [Object.entries(b).forEach(([k, v]) => a.set(k, v))] *)
Definition assign (a b : t) : t :=
  fold_left (fun acc kv => set (fst kv) (snd kv) acc) b a.

(** The keys of a [Map] are distinct. *)
Definition wf (m : t) : Prop := NoDup (keys m).
End Ops.
Arguments t : clear implicits.
End JSMap.

Module JSSet.
Definition t := list string.

Definition has (x : string) (s : t) : bool := existsb (String.eqb x) s.

Definition add (x : string) (s : t) : t := if has x s then s else s ++ [x].

Fixpoint delete (x : string) (s : t) : t :=
  match s with
  | [] => []
  | y :: r => if x =? y then r else y :: delete x r
  end.

Definition size (s : t) : Z := Z.of_nat (List.length s).

(** [new Set(array)] *)
Definition ofList (l : list string) : t := fold_left (fun s x => add x s) l [].

Definition wf (s : t) : Prop := NoDup s.
End JSSet.

(** ** Plain objects used as dictionaries

    An object written as a literal has [Object.prototype] as its prototype:
    a lookup that finds no own property goes on to the members of the
    prototype. Its own keys are enumerated with the array indices first, in
    ascending order, and the other keys after them in the order of their
    creation. *)
Module JSObject.

(** The property names of [Object.prototype]. Each holds a function,
    except [__proto__], an accessor that yields the prototype: all of them
    are truthy and none is a string. *)
Definition prototypeNames : list string :=
  ["constructor"; "__defineGetter__"; "__defineSetter__"; "hasOwnProperty";
   "__lookupGetter__"; "__lookupSetter__"; "isPrototypeOf"; "propertyIsEnumerable";
   "toString"; "valueOf"; "__proto__"; "toLocaleString"].

Definition inherits (key : string) : bool := existsb (String.eqb key) prototypeNames.

(** An array index is the canonical decimal text of an integer from 0 to
    2^32 - 2: ["10"] and ["2024"] are, ["007"] and ["1.5"] are not. *)
Definition arrayIndex (key : string) : option N :=
  match NilZero.uint_of_string key with
  | Some d =>
      let n := N.of_uint d in
      if (NilZero.string_of_uint (N.to_uint n) =? key) && (n <? 4294967295)%N
      then Some n
      else None
  | None => None
  end.

(** What [object[key]] finds: an own property, a member of
    [Object.prototype], or nothing. *)
Inductive Found (V : Type) : Type :=
| Own (value : V)
| Inherited
| Undefined.
Arguments Own {V} value.
Arguments Inherited {V}.
Arguments Undefined {V}.

Section Ops.
Context {V : Type}.

(** [object[key]] on the object whose own properties are [own]. *)
Definition get (key : string) (own : JSMap.t V) : Found V :=
  match JSMap.get key own with
  | Some value => Own value
  | None => if inherits key then Inherited else Undefined
  end.

Definition isIndexed (kv : string * V) : bool :=
  match arrayIndex (fst kv) with Some _ => true | None => false end.

(** The property [kv], whose key is the array index [n], put in its place
    among properties in ascending order of their indices. *)
Fixpoint insertIndexed (n : N) (kv : string * V) (l : list (string * V))
  : list (string * V) :=
  match l with
  | [] => [kv]
  | kv' :: r =>
      match arrayIndex (fst kv') with
      | Some n' => if (n <=? n')%N then kv :: l else kv' :: insertIndexed n kv r
      | None => kv :: l
      end
  end.

Definition sortIndexed (own : JSMap.t V) : list (string * V) :=
  fold_right
    (fun kv sorted =>
       match arrayIndex (fst kv) with
       | Some n => insertIndexed n kv sorted
       | None => sorted
       end)
    [] own.

(** [Object.entries(object)] and [Object.keys(object)], for own properties
    [own] listed in the order of their creation. [JSON.stringify] writes the
    properties in this order, [JSON.parse] creates them in the order of the
    text, and [Object.fromEntries(map)] creates them in the order of the
    [Map]. *)
Definition entries (own : JSMap.t V) : JSMap.t V :=
  sortIndexed own ++ filter (fun kv => negb (isIndexed kv)) own.

Definition keys (own : JSMap.t V) : list string := map fst (entries own).

End Ops.
End JSObject.

(** ** The browser's built-ins the record model calls *)

(** [new Date(s)] parses by rules that the engine chooses for anything
    but ISO text; [parsesAsDate s] says that the result is not [Invalid Date]. *)
Class DateParser := { parsesAsDate : string -> bool }.

(** ** Plain objects carrying prompt properties

    The argument of the [Prompt] constructor, the result of [toObject], the
    argument of [update], and the mapping that [toYAML] hands to js-yaml. *)

Inductive Value : Type :=
| VString (s : string)
| VStrings (l : list string)
| VBool (b : bool).

Module Data.
Record t : Type := mk {
  id : option string;
  title : option string;
  type : option string;
  prompt : option string;
  negative_prompt : option string;
  model : option string;
  author : option string;
  tags : option (list string);
  notes : option string;
  version : option string;
  created : option string;
  modified : option string;
  category : option string;
  isFavorite : option bool;
  (** properties under any other name *)
  others : JSMap.t Value
}.

Definition empty : t :=
  mk None None None None None None None None None None None None None None [].

(** [data[field]]; [None] when [data] has no such own property. *)
Definition getProp (field : string) (data : t) : option Value :=
  if field =? "id" then option_map VString (id data)
  else if field =? "title" then option_map VString (title data)
  else if field =? "type" then option_map VString (type data)
  else if field =? "prompt" then option_map VString (prompt data)
  else if field =? "negative_prompt" then option_map VString (negative_prompt data)
  else if field =? "model" then option_map VString (model data)
  else if field =? "author" then option_map VString (author data)
  else if field =? "tags" then option_map VStrings (tags data)
  else if field =? "notes" then option_map VString (notes data)
  else if field =? "version" then option_map VString (version data)
  else if field =? "created" then option_map VString (created data)
  else if field =? "modified" then option_map VString (modified data)
  else if field =? "category" then option_map VString (category data)
  else if field =? "isFavorite" then option_map VBool (isFavorite data)
  else JSMap.get field (others data).

Definition hasOwnProperty (field : string) (data : t) : bool :=
  match getProp field data with Some _ => true | None => false end.

Definition over {A} (b a : option A) : option A :=
  match b with Some _ => b | None => a end.

(** The value of a property when there is one, [d] otherwise. *)
Definition orKeep {A} (o : option A) (d : A) : A :=
  match o with Some v => v | None => d end.

(** [{...a, ...b}] *)
Definition spread (a b : t) : t :=
  mk (over (id b) (id a)) (over (title b) (title a)) (over (type b) (type a))
     (over (prompt b) (prompt a)) (over (negative_prompt b) (negative_prompt a))
     (over (model b) (model a)) (over (author b) (author a))
     (over (tags b) (tags a)) (over (notes b) (notes a))
     (over (version b) (version a)) (over (created b) (created a))
     (over (modified b) (modified a)) (over (category b) (category a))
     (over (isFavorite b) (isFavorite a))
     (JSMap.assign (others a) (others b)).
End Data.

(** js-yaml, as the record model uses it: [dump] prints a mapping, [load]
    parses a document or throws, and a document printed by [dump] loads back
    to the mapping it was printed from. *)
Class JsYaml := {
  YamlText : Type;
  dump : Data.t -> YamlText;
  load : YamlText -> Completion Data.t;
  load_dump : forall d, load (dump d) = Return d
}.

(** [JSON.stringify] and [JSON.parse] on the property-carrying objects.
    They work on the same texts as js-yaml, JavaScript strings, which is
    what [YamlText] stands for; a text printed by [stringify] parses back to
    the object it was printed from. *)
Class Json {yaml : JsYaml} := {
  stringify : Data.t -> YamlText;
  parse : YamlText -> Completion Data.t;
  parse_stringify : forall d, parse (stringify d) = Return d
}.

(** ** The [Prompt] class *)

Module Prompt.

Definition TEXT_GENERATION : string := "text_generation".
Definition IMAGE_GENERATION : string := "image_generation".
Definition CODE : string := "code".
Definition OTHER : string := "other".

(** [Object.values(Prompt.TYPES)] *)
Definition TYPES : list string := [TEXT_GENERATION; IMAGE_GENERATION; CODE; OTHER].

Definition REQUIRED_FIELDS : list string := ["title"; "type"; "prompt"].

Record t : Type := mk {
  id : string;
  title : string;
  type : string;
  prompt : string;
  negative_prompt : string;
  model : string;
  author : string;
  tags : list string;
  notes : string;
  version : string;
  created : string;
  modified : string;
  category : string;
  isFavorite : bool
}.

(** [this[field]] *)
Definition getProp (field : string) (this : t) : option Value :=
  if field =? "id" then Some (VString (id this))
  else if field =? "title" then Some (VString (title this))
  else if field =? "type" then Some (VString (type this))
  else if field =? "prompt" then Some (VString (prompt this))
  else if field =? "negative_prompt" then Some (VString (negative_prompt this))
  else if field =? "model" then Some (VString (model this))
  else if field =? "author" then Some (VString (author this))
  else if field =? "tags" then Some (VStrings (tags this))
  else if field =? "notes" then Some (VString (notes this))
  else if field =? "version" then Some (VString (version this))
  else if field =? "created" then Some (VString (created this))
  else if field =? "modified" then Some (VString (modified this))
  else if field =? "category" then Some (VString (category this))
  else if field =? "isFavorite" then Some (VBool (isFavorite this))
  else None.

Definition set_id (v : string) (p : t) : t :=
  mk v (title p) (type p) (prompt p) (negative_prompt p) (model p) (author p)
     (tags p) (notes p) (version p) (created p) (modified p) (category p) (isFavorite p).
Definition set_title (v : string) (p : t) : t :=
  mk (id p) v (type p) (prompt p) (negative_prompt p) (model p) (author p)
     (tags p) (notes p) (version p) (created p) (modified p) (category p) (isFavorite p).
Definition set_type (v : string) (p : t) : t :=
  mk (id p) (title p) v (prompt p) (negative_prompt p) (model p) (author p)
     (tags p) (notes p) (version p) (created p) (modified p) (category p) (isFavorite p).
Definition set_prompt (v : string) (p : t) : t :=
  mk (id p) (title p) (type p) v (negative_prompt p) (model p) (author p)
     (tags p) (notes p) (version p) (created p) (modified p) (category p) (isFavorite p).
Definition set_negative_prompt (v : string) (p : t) : t :=
  mk (id p) (title p) (type p) (prompt p) v (model p) (author p)
     (tags p) (notes p) (version p) (created p) (modified p) (category p) (isFavorite p).
Definition set_model (v : string) (p : t) : t :=
  mk (id p) (title p) (type p) (prompt p) (negative_prompt p) v (author p)
     (tags p) (notes p) (version p) (created p) (modified p) (category p) (isFavorite p).
Definition set_author (v : string) (p : t) : t :=
  mk (id p) (title p) (type p) (prompt p) (negative_prompt p) (model p) v
     (tags p) (notes p) (version p) (created p) (modified p) (category p) (isFavorite p).
Definition set_tags (v : list string) (p : t) : t :=
  mk (id p) (title p) (type p) (prompt p) (negative_prompt p) (model p) (author p)
     v (notes p) (version p) (created p) (modified p) (category p) (isFavorite p).
Definition set_notes (v : string) (p : t) : t :=
  mk (id p) (title p) (type p) (prompt p) (negative_prompt p) (model p) (author p)
     (tags p) v (version p) (created p) (modified p) (category p) (isFavorite p).
Definition set_version (v : string) (p : t) : t :=
  mk (id p) (title p) (type p) (prompt p) (negative_prompt p) (model p) (author p)
     (tags p) (notes p) v (created p) (modified p) (category p) (isFavorite p).
Definition set_created (v : string) (p : t) : t :=
  mk (id p) (title p) (type p) (prompt p) (negative_prompt p) (model p) (author p)
     (tags p) (notes p) (version p) v (modified p) (category p) (isFavorite p).
Definition set_modified (v : string) (p : t) : t :=
  mk (id p) (title p) (type p) (prompt p) (negative_prompt p) (model p) (author p)
     (tags p) (notes p) (version p) (created p) v (category p) (isFavorite p).
Definition set_category (v : string) (p : t) : t :=
  mk (id p) (title p) (type p) (prompt p) (negative_prompt p) (model p) (author p)
     (tags p) (notes p) (version p) (created p) (modified p) v (isFavorite p).
Definition set_isFavorite (v : bool) (p : t) : t :=
  mk (id p) (title p) (type p) (prompt p) (negative_prompt p) (model p) (author p)
     (tags p) (notes p) (version p) (created p) (modified p) (category p) v.

(** [this[field] = v], for a value of the field's type. *)
Definition setProp (field : string) (v : Value) (this : t) : t :=
  match v with
  | VString s =>
      if field =? "id" then set_id s this
      else if field =? "title" then set_title s this
      else if field =? "type" then set_type s this
      else if field =? "prompt" then set_prompt s this
      else if field =? "negative_prompt" then set_negative_prompt s this
      else if field =? "model" then set_model s this
      else if field =? "author" then set_author s this
      else if field =? "notes" then set_notes s this
      else if field =? "version" then set_version s this
      else if field =? "created" then set_created s this
      else if field =? "modified" then set_modified s this
      else if field =? "category" then set_category s this
      else this
  | VStrings l => if field =? "tags" then set_tags l this else this
  | VBool b => if field =? "isFavorite" then set_isFavorite b this else this
  end.

(** [!v] *)
Definition falsy (v : option Value) : bool :=
  match v with
  | None => true
  | Some (VString s) => negb (JSString.truthy s)
  | Some (VStrings _) => false
  | Some (VBool b) => negb b
  end.

(** [/^\d+\.\d+(\.\d+)?$/.test(s)] *)
Definition versionPattern (s : string) : bool :=
  match JSString.digits1 s with
  | Some (String "." r) =>
      match JSString.digits1 r with
      | Some EmptyString => true
      | Some (String "." r2) =>
          match JSString.digits1 r2 with
          | Some EmptyString => true
          | _ => false
          end
      | _ => false
      end
  | _ => false
  end.

Section Methods.
Context {dates : DateParser}.

Definition isValidDate (dateString : string) : bool := parsesAsDate dateString.

(** The [errors] array that [validate] collects, in the order of the
    checks. [tags] is an array here, so the check ['Tags must be an array']
    never adds its message and is left out. *)
Definition validationErrors (this : t) : list string :=
  flat_map
    (fun field =>
       let v := getProp field this in
       if falsy v
          || match v with
             | Some (VString s) => JSString.trim s =? ""
             | _ => false
             end
       then ["Field '" ++ field ++ "' is required"]%string
       else [])
    REQUIRED_FIELDS
  ++ (if negb (existsb (String.eqb (type this)) TYPES)
      then [("Invalid type '" ++ type this ++ "'. Must be one of: "
             ++ JSString.join ", " TYPES)%string]
      else [])
  ++ (if JSString.truthy (title this) && (JSString.length (title this) >? 200)%Z
      then ["Title must be 200 characters or less"]
      else [])
  ++ (if JSString.truthy (prompt this) && (JSString.length (prompt this) >? 10000)%Z
      then ["Prompt must be 10000 characters or less"]
      else [])
  ++ (if (Z.of_nat (List.length (tags this)) >? 20)%Z
      then ["Maximum 20 tags allowed"]
      else [])
  ++ (if JSString.truthy (version this) && negb (versionPattern (version this))
      then ["Version must be in format X.Y or X.Y.Z"]
      else [])
  ++ (if JSString.truthy (created this) && negb (isValidDate (created this))
      then ["Invalid created date format"]
      else [])
  ++ (if JSString.truthy (modified this) && negb (isValidDate (modified this))
      then ["Invalid modified date format"]
      else []).

Definition validate (this : t) : Completion unit :=
  match validationErrors this with
  | [] => Return tt
  | errors => Throw ("Validation failed: " ++ JSString.join ", " errors)
  end.

(** The checks of [validate] as one boolean: no check adds an error. *)
Definition requiredOk (s : string) : bool :=
  JSString.truthy s && negb (JSString.trim s =? "").

Definition passes (this : t) : bool :=
  requiredOk (title this) && requiredOk (type this) && requiredOk (prompt this)
  && existsb (String.eqb (type this)) TYPES
  && negb (JSString.truthy (title this) && (JSString.length (title this) >? 200)%Z)
  && negb (JSString.truthy (prompt this) && (JSString.length (prompt this) >? 10000)%Z)
  && negb (Z.of_nat (List.length (tags this)) >? 20)%Z
  && negb (JSString.truthy (version this) && negb (versionPattern (version this)))
  && negb (JSString.truthy (created this) && negb (isValidDate (created this)))
  && negb (JSString.truthy (modified this) && negb (isValidDate (modified this))).

(** [generateId()]: [now] is what [Date.now()] returns, an integer, and
    [random] what [Math.random().toString(36).substr(2, 9)] returns. *)
Definition generateId (now : Z) (random : string) : string :=
  "prompt-" ++ NilZero.string_of_int (Z.to_int now) ++ "-" ++ random.

(** [new Prompt(data)]. [fresh] is what [generateId()] returns and
    [today] what [new Date().toISOString().split('T')[0]] returns at the
    time of the call. *)
Definition new (fresh today : string) (data : Data.t) : Completion t :=
  let this :=
    {| id := JSString.orElse (Data.id data) fresh;
       title := JSString.orElse (Data.title data) "";
       type := JSString.orElse (Data.type data) TEXT_GENERATION;
       prompt := JSString.orElse (Data.prompt data) "";
       negative_prompt := JSString.orElse (Data.negative_prompt data) "";
       model := JSString.orElse (Data.model data) "";
       author := JSString.orElse (Data.author data) "";
       tags := match Data.tags data with Some l => l | None => [] end;
       notes := JSString.orElse (Data.notes data) "";
       version := JSString.orElse (Data.version data) "1.0";
       created := JSString.orElse (Data.created data) today;
       modified := JSString.orElse (Data.modified data) today;
       category := JSString.orElse (Data.category data) "";
       isFavorite := match Data.isFavorite data with Some b => b | None => false end |} in
  bindC (validate this) (fun _ => Return this).

Definition allowedFields : list string :=
  ["title"; "type"; "prompt"; "negative_prompt"; "model";
   "author"; "tags"; "notes"; "version"; "category"; "isFavorite"].

(** The receiver after the assignments of [update], before [validate],
    when [data.hasOwnProperty] is the method that [data] inherits. An
    allowed field that [data] has is assigned, whatever it holds; [Data.t]
    lets it hold a value of the field's type only. *)
Definition updateFields (today : string) (data : Data.t) (this : t) : t :=
  let this :=
    fold_left
      (fun this field =>
         match Data.getProp field data with
         | Some v => setProp field v this
         | None => this
         end)
      allowedFields this in
  set_modified today this.

(** [this.update(data)]: the receiver's new state and how the call
    completes. The loop calls [data.hasOwnProperty], a property that it
    reads from [data]: when [data] has an own property of that name, which
    holds a string, an array or a boolean here, the first call throws a
    [TypeError] (the message is V8's), nothing has been assigned and
    [modified] is not refreshed. *)
Definition update (today : string) (data : Data.t) (this : t) : t * Completion unit :=
  match Data.getProp "hasOwnProperty" data with
  | Some _ => (this, Throw "TypeError: data.hasOwnProperty is not a function")
  | None =>
      let this := updateFields today data this in
      (this, validate this)
  end.

Definition toObject (this : t) : Data.t :=
  {| Data.id := Some (id this);
     Data.title := Some (title this);
     Data.type := Some (type this);
     Data.prompt := Some (prompt this);
     Data.negative_prompt := Some (negative_prompt this);
     Data.model := Some (model this);
     Data.author := Some (author this);
     Data.tags := Some (tags this);
     Data.notes := Some (notes this);
     Data.version := Some (version this);
     Data.created := Some (created this);
     Data.modified := Some (modified this);
     Data.category := Some (category this);
     Data.isFavorite := Some (isFavorite this);
     Data.others := [] |}.

Definition clone (fresh today : string) (this : t) : Completion t :=
  let data := toObject this in
  let data :=
    {| Data.id := None;
       Data.title := option_map (fun s => s ++ " (Copy)")%string (Data.title data);
       Data.type := Data.type data;
       Data.prompt := Data.prompt data;
       Data.negative_prompt := Data.negative_prompt data;
       Data.model := Data.model data;
       Data.author := Data.author data;
       Data.tags := Data.tags data;
       Data.notes := Data.notes data;
       Data.version := Data.version data;
       Data.created := Data.created data;
       Data.modified := Data.modified data;
       Data.category := Data.category data;
       Data.isFavorite := Data.isFavorite data;
       Data.others := Data.others data |} in
  new fresh today data.

(** A key of [yamlData] survives unless its value is [''] or [[]]. *)
Definition keepString (s : string) : option string :=
  if s =? "" then None else Some s.

Definition keepStrings (l : list string) : option (list string) :=
  match l with [] => None | _ => Some l end.

(** The mapping that [toYAML] passes to [jsyaml.dump]. *)
Definition yamlData (this : t) : Data.t :=
  {| Data.id := None;
     Data.title := keepString (title this);
     Data.type := keepString (type this);
     Data.prompt := keepString (prompt this);
     Data.negative_prompt := keepString (negative_prompt this);
     Data.model := keepString (model this);
     Data.author := keepString (author this);
     Data.tags := keepStrings (tags this);
     Data.notes := keepString (notes this);
     Data.version := keepString (version this);
     Data.created := keepString (created this);
     Data.modified := keepString (modified this);
     Data.category := None;
     Data.isFavorite := None;
     Data.others := [] |}.

Context {yaml : JsYaml}.

Definition toYAML (this : t) : YamlText := dump (yamlData this).

Definition fromYAML (fresh today : string) (yamlString : YamlText)
           (metadata : Data.t) : Completion t :=
  match bindC (load yamlString)
              (fun data => new fresh today (Data.spread data metadata)) with
  | Return p => Return p
  | Throw message => Throw ("Failed to parse YAML: " ++ message)
  end.

Definition getTagsString (this : t) : string := JSString.join ", " (tags this).

Definition getSearchRelevance (query : string) (this : t) : Z :=
  if negb (JSString.truthy query) || (JSString.trim query =? "") then 0%Z
  else
    let searchText := JSString.toLowerCase query in
    let score := 0%Z in
    let score :=
      if JSString.includes (JSString.toLowerCase (title this)) searchText
      then
        let score := (score + 50)%Z in
        if JSString.startsWith (JSString.toLowerCase (title this)) searchText
        then (score + 25)%Z
        else score
      else score in
    let score :=
      if JSString.includes (JSString.toLowerCase (prompt this)) searchText
      then (score + 20)%Z else score in
    let score :=
      if JSString.includes (JSString.toLowerCase (getTagsString this)) searchText
      then (score + 15)%Z else score in
    let otherFields := [notes this; author this; model this] in
    let score :=
      fold_left
        (fun score field =>
           if JSString.truthy field
              && JSString.includes (JSString.toLowerCase field) searchText
           then (score + 5)%Z else score)
        otherFields score in
    Z.min score 100.

(** [getFilename()]. The argument of [trim('-')] is ignored by
    [String.prototype.trim], which strips white space only. *)
Definition getFilename (this : t) : string :=
  let s := JSString.toLowerCase (title this) in
  let s := JSString.keepChars
             (fun c => JSString.isLowerAlnum c || JSString.isWhiteSpace c
                       || JSString.isHyphen c) s in
  let s := JSString.replaceRuns JSString.isWhiteSpace s in
  let s := JSString.replaceRuns JSString.isHyphen s in
  let s := JSString.trim s in
  (JSString.substringTo 50 s ++ ".prompt.yaml")%string.

(** A searchable field: a string, or the member of [Object.prototype]
    that [getTypeDisplayName()] returns for a type that names one. Such a
    type does not pass [validate], but a failed [update] leaves it on the
    record. *)
Inductive Field : Type :=
| Text (s : string)
| Member.

(** [typeNames[this.type] || this.type] *)
Definition getTypeDisplayName (this : t) : Field :=
  let typeNames :=
    [(TEXT_GENERATION, "Generazione Testo");
     (IMAGE_GENERATION, "Generazione Immagini");
     (CODE, "Codice");
     (OTHER, "Altro")] in
  match JSObject.get (type this) typeNames with
  | JSObject.Own name => Text (if JSString.truthy name then name else type this)
  | JSObject.Inherited => Member
  | JSObject.Undefined => Text (type this)
  end.

(** [matchesSearch(query)]. A member of [Object.prototype] is truthy and
    has no [toLowerCase]: the callback throws a [TypeError] on it (the
    message is V8's), when no field before it has matched. *)
Definition matchesSearch (query : string) (this : t) : Completion bool :=
  if negb (JSString.truthy query) || (JSString.trim query =? "") then Return true
  else
    let searchText := JSString.toLowerCase query in
    let searchableFields :=
      [Text (title this); Text (prompt this); Text (notes this); Text (author this);
       Text (model this); Text (getTagsString this); getTypeDisplayName this] in
    some
      (fun field =>
         match field with
         | Text s =>
             Return (JSString.truthy s
                     && JSString.includes (JSString.toLowerCase s) searchText)
         | Member => Throw "TypeError: field.toLowerCase is not a function"
         end)
      searchableFields.

Definition getWordCount (this : t) : Z :=
  Z.of_nat
    (List.length
       (filter (fun word => (JSString.length word >? 0)%Z)
               (JSString.splitRuns JSString.isWhiteSpace (JSString.trim (prompt this))))).

Definition getCharacterCount (this : t) : Z := JSString.length (prompt this).

Definition isEmpty (this : t) : bool :=
  negb (JSString.truthy (JSString.trim (title this)))
  && negb (JSString.truthy (JSString.trim (prompt this))).

Definition getSummary (maxLength : Z) (this : t) : string :=
  let text := JSString.trim (prompt this) in
  if (JSString.length text <=? maxLength)%Z then text
  else (JSString.trim (JSString.substringTo maxLength text) ++ "...")%string.

Context {json : Json}.

(** [export(format)] *)
Definition export (format : string) (this : t) : Completion YamlText :=
  let lowered := JSString.toLowerCase format in
  if lowered =? "json" then Return (stringify (toObject this))
  else if lowered =? "yaml" then Return (toYAML this)
  else Throw ("Unsupported export format: " ++ format).

(** [Prompt.import(data, format)] *)
Definition import (fresh today : string) (data : YamlText) (format : string)
  : Completion t :=
  let parsedData :=
    if format =? "auto" then
      match parse data with
      | Return parsedData => Return parsedData
      | Throw _ =>
          match load data with
          | Return parsedData => Return parsedData
          | Throw _ => Throw "Unable to detect data format"
          end
      end
    else if format =? "json" then parse data
    else if format =? "yaml" then load data
    else Throw ("Unsupported import format: " ++ format) in
  match bindC parsedData (fun parsedData => new fresh today parsedData) with
  | Return prompt => Return prompt
  | Throw message => Throw ("Failed to import prompt: " ++ message)
  end.

End Methods.
End Prompt.

(** ** Stored data: categories, settings, snapshots *)

Record CategoryInfo : Type := mkCategoryInfo {
  name : string;
  icon : string;
  color : string
}.

Inductive SettingValue : Type :=
| SVString (s : string)
| SVBool (b : bool)
| SVNumber (n : Z)
| SVStrings (l : list string).

Definition Settings : Type := JSMap.t SettingValue.

(** The four collections as plain data: the [data] of a backup and the
    parsed text of an import. A property that is absent is [None]. *)
Module Snapshot.
Record t : Type := mk {
  prompts : option (list Data.t);
  categories : option (JSMap.t CategoryInfo);
  favorites : option (list string);
  settings : option Settings
}.
End Snapshot.

(** The object that [exportData] serializes: the four collections under a
    [metadata] header. *)
Record ExportMetadata : Type := mkExportMetadata {
  exportDate : string;
  exportVersion : string;
  exportFormat : string
}.

Record Export : Type := mkExport {
  metadata : ExportMetadata;
  content : Snapshot.t
}.

(** [JSON.stringify] and [jsyaml.dump] on an export, and [JSON.parse] and
    [jsyaml.load] on its text, as [importData] reads the result: only the
    four collections count. A text goes back to the collections it was
    printed from. A text that parses to [null] is left out: [importData]
    would fail on it only after [clearAll]. *)
Class ExportCodec := {
  ExportText : Type;
  stringifyExport : Export -> ExportText;
  dumpExport : Export -> ExportText;
  parseExport : ExportText -> Completion Snapshot.t;
  loadExport : ExportText -> Completion Snapshot.t;
  parse_stringifyExport : forall e, parseExport (stringifyExport e) = Return (content e);
  load_dumpExport : forall e, loadExport (dumpExport e) = Return (content e)
}.

Record Backup : Type := mkBackup {
  timestamp : string;
  version : string;
  data : Snapshot.t
}.

(** ** [localStorage]

    Each of the five slots holds the value that [JSON.parse] gives for its
    text, or [None] when [getItem] returns [null] or the text does not parse.
    [faults] scripts the coming [setItem] calls: [None] stores the item,
    [Some name] throws a [DOMException] called [name] and stores nothing;
    once the script is used up every call stores. A script is a finite
    list, so a store of this type refuses a finite number of writes; a
    store that refuses without end is the subject of
    [StorageManager.saveToStorageAt]. *)
Module LocalStorage.

Inductive Item : Type :=
| Prompts (v : list Data.t)
| Categories (v : JSMap.t CategoryInfo)
| Favorites (v : list string)
| SettingsOf (v : Settings)
| Backups (v : list Backup).

Record t : Type := mk {
  PROMPTS : option (list Data.t);
  CATEGORIES : option (JSMap.t CategoryInfo);
  FAVORITES : option (list string);
  SETTINGS : option Settings;
  BACKUP : option (list Backup);
  faults : list (option string)
}.

Definition withFaults (f : list (option string)) (ls : t) : t :=
  mk (PROMPTS ls) (CATEGORIES ls) (FAVORITES ls) (SETTINGS ls) (BACKUP ls) f.

(** The slot of [item] after a [setItem] that succeeds. *)
Definition put (item : Item) (ls : t) : t :=
  match item with
  | Prompts v => mk (Some v) (CATEGORIES ls) (FAVORITES ls) (SETTINGS ls) (BACKUP ls) (faults ls)
  | Categories v => mk (PROMPTS ls) (Some v) (FAVORITES ls) (SETTINGS ls) (BACKUP ls) (faults ls)
  | Favorites v => mk (PROMPTS ls) (CATEGORIES ls) (Some v) (SETTINGS ls) (BACKUP ls) (faults ls)
  | SettingsOf v => mk (PROMPTS ls) (CATEGORIES ls) (FAVORITES ls) (Some v) (BACKUP ls) (faults ls)
  | Backups v => mk (PROMPTS ls) (CATEGORIES ls) (FAVORITES ls) (SETTINGS ls) (Some v) (faults ls)
  end.

(** The next [setItem] stores its item. *)
Definition accepts (ls : t) : bool :=
  match faults ls with
  | Some _ :: _ => false
  | _ => true
  end.

(** [removeItem] on each of the five keys. *)
Definition removeAll (ls : t) : t := mk None None None None None (faults ls).

(** [localStorage.setItem(key, JSON.stringify(data))]: the store afterwards
    and the name of the exception thrown, if any. *)
Definition setItem (item : Item) (ls : t) : t * option string :=
  match faults ls with
  | [] => (put item ls, None)
  | None :: rest => (put item (withFaults rest ls), None)
  | Some name :: rest => (withFaults rest ls, Some name)
  end.

End LocalStorage.

(** ** The [StorageManager] class *)

Module StorageManager.

Definition MAX_BACKUPS : nat := 5.

Record t : Type := mk {
  prompts : JSMap.t Prompt.t;
  categories : JSMap.t CategoryInfo;
  favorites : JSSet.t;
  settings : Settings
}.

Definition getDefaultSettings : Settings :=
  [("theme", SVString "light");
   ("autoSave", SVBool true);
   ("backupEnabled", SVBool true);
   ("searchDebounce", SVNumber 300);
   ("itemsPerPage", SVNumber 50);
   ("defaultCategory", SVString "general");
   ("sortBy", SVString "modified");
   ("sortOrder", SVString "desc")].

(** [this.getFromStorage(STORAGE_KEYS.BACKUP) || []] *)
Definition storedBackups (ls : LocalStorage.t) : list Backup :=
  match LocalStorage.BACKUP ls with
  | Some backups => backups
  | None => []
  end.

(** [saveToStorage] along the script of faults. A [setItem] that throws
    lands in the [catch], which calls [handleStorageError]; for a
    [QuotaExceededError] that is [cleanupOldBackups], which calls
    [saveToStorage] again with the older half of the backups cut off. The
    three methods call each other with no bound of their own; here the
    recursion is on the script, one entry for each call of [setItem], and
    ends because the script does. The script is taken to be short enough
    for the stack of the JavaScript engine, three frames for each
    refusal. *)
Fixpoint saveToStorageFrom (script : list (option string))
         (item : LocalStorage.Item) (ls : LocalStorage.t) : LocalStorage.t :=
  match script with
  | [] => LocalStorage.put item (LocalStorage.withFaults [] ls)
  | None :: rest => LocalStorage.put item (LocalStorage.withFaults rest ls)
  | Some name :: rest =>
      if name =? "QuotaExceededError"
      then saveToStorageFrom rest
             (LocalStorage.Backups (firstn (MAX_BACKUPS / 2) (storedBackups ls))) ls
      else LocalStorage.withFaults rest ls
  end.

Definition saveToStorage (item : LocalStorage.Item) (ls : LocalStorage.t) : LocalStorage.t :=
  saveToStorageFrom (LocalStorage.faults ls) item ls.

Definition cleanupOldBackups (ls : LocalStorage.t) : LocalStorage.t :=
  let backups := storedBackups ls in
  let trimmedBackups := firstn (MAX_BACKUPS / 2) backups in
  saveToStorage (LocalStorage.Backups trimmedBackups) ls.

Definition handleStorageError (name : string) (ls : LocalStorage.t) : LocalStorage.t :=
  if name =? "QuotaExceededError" then cleanupOldBackups ls else ls.

(** The same three methods on a store of any kind. [answers i] is what
    the [i]-th coming call of [setItem] does: [None] stores the item,
    [Some name] throws a [DOMException] called [name]; the [faults] of
    [ls] are not consulted. [calls] bounds the calls of [saveToStorage]
    that may be nested, and [None] is a run that needs more of them. The
    source has no such bound: a run that nests without end is ended by
    the JavaScript engine when its stack is used up, with a [RangeError]
    raised in the innermost frame. *)
Fixpoint saveToStorageAt (calls : nat) (answers : nat -> option string)
         (item : LocalStorage.Item) (ls : LocalStorage.t) : option LocalStorage.t :=
  match calls with
  | O => None
  | S calls =>
      match answers O with
      | None => Some (LocalStorage.put item ls)
      | Some name =>
          (* handleStorageError(error) *)
          if name =? "QuotaExceededError"
          then
            (* cleanupOldBackups() *)
            let backups := storedBackups ls in
            let trimmedBackups := firstn (MAX_BACKUPS / 2) backups in
            saveToStorageAt calls (fun i => answers (S i))
                            (LocalStorage.Backups trimmedBackups) ls
          else Some ls
      end
  end.

(** The answers of a store that follows a script of faults. *)
Definition scripted (script : list (option string)) (i : nat) : option string :=
  nth i script None.

Section Methods.
Context {dates : DateParser}.

Definition savePrompts (this : t) (ls : LocalStorage.t) : LocalStorage.t :=
  saveToStorage (LocalStorage.Prompts (map Prompt.toObject (JSMap.values (prompts this)))) ls.

(** [Object.fromEntries(this.categories)] is written with its array
    indices first: that is the order in which the value read back lists
    its entries. *)
Definition saveCategories (this : t) (ls : LocalStorage.t) : LocalStorage.t :=
  saveToStorage (LocalStorage.Categories (JSObject.entries (categories this))) ls.

Definition saveFavorites (this : t) (ls : LocalStorage.t) : LocalStorage.t :=
  saveToStorage (LocalStorage.Favorites (favorites this)) ls.

Definition saveSettings (this : t) (ls : LocalStorage.t) : LocalStorage.t :=
  saveToStorage (LocalStorage.SettingsOf (settings this)) ls.

Definition saveAll (this : t) (ls : LocalStorage.t) : LocalStorage.t :=
  saveSettings this (saveFavorites this (saveCategories this (savePrompts this ls))).

Definition clearAll (this : t) (ls : LocalStorage.t) : t * LocalStorage.t :=
  (mk [] [] [] getDefaultSettings, LocalStorage.removeAll ls).

(** The snapshot that [createBackup] takes at time [now], as the store
    gives it back. *)
Definition snapshot (now : string) (this : t) : Backup :=
  {| timestamp := now;
     version := "1.0";
     data := {| Snapshot.prompts := Some (map Prompt.toObject (JSMap.values (prompts this)));
                Snapshot.categories := Some (JSObject.entries (categories this));
                Snapshot.favorites := Some (favorites this);
                Snapshot.settings := Some (settings this) |} |}.

Definition createBackup (now : string) (this : t) (ls : LocalStorage.t) : LocalStorage.t :=
  let backup := snapshot now this in
  let backups := storedBackups ls in
  let backups := backup :: backups in
  let trimmedBackups := firstn MAX_BACKUPS backups in
  saveToStorage (LocalStorage.Backups trimmedBackups) ls.

(** [promptsData.forEach(d => { const p = new Prompt(d); map.set(p.id, p) })]
    with no [try] inside: the first record that fails validation ends
    the loop. [ids i] is what [generateId()] returns for record [i]. *)
Fixpoint restorePrompts (ids : nat -> string) (today : string) (i : nat)
         (promptsData : list Data.t) (map : JSMap.t Prompt.t)
  : JSMap.t Prompt.t * Completion unit :=
  match promptsData with
  | [] => (map, Return tt)
  | promptData :: rest =>
      match Prompt.new (ids i) today promptData with
      | Return prompt =>
          restorePrompts ids today (S i) rest (JSMap.set (Prompt.id prompt) prompt map)
      | Throw message => (map, Throw message)
      end
  end.

(** [backups[backupIndex]]; [undefined] off the array. *)
Definition at_index {A} (l : list A) (i : Z) : option A :=
  if (i <? 0)%Z then None else nth_error l (Z.to_nat i).

(** The [try] block of [restoreFromBackup(backupIndex)]: the manager and the
    store it leaves, and how it completes. An index below zero reads
    [undefined], whose destructuring throws a [TypeError]. *)
Definition restoreAttempt (ids : nat -> string) (today : string)
           (backupIndex : Z) (this : t) (ls : LocalStorage.t)
  : t * LocalStorage.t * Completion bool :=
  let backups := storedBackups ls in
  if (backupIndex >=? Z.of_nat (List.length backups))%Z
  then (this, ls, Throw "Backup not found")
  else
    match at_index backups backupIndex with
    | None => (this, ls, Throw "TypeError: backup is undefined")
    | Some backup =>
        let data := data backup in
        let this := mk [] (categories this) (favorites this) (settings this) in
        let '(restored, completion) :=
          match Snapshot.prompts data with
          | Some promptsData => restorePrompts ids today 0 promptsData []
          | None => ([], Return tt)
          end in
        let this := mk restored (categories this) (favorites this) (settings this) in
        match completion with
        | Throw message => (this, ls, Throw message)
        | Return _ =>
            let this :=
              match Snapshot.categories data with
              | Some c => mk (prompts this) c (favorites this) (settings this)
              | None => this
              end in
            let this :=
              match Snapshot.favorites data with
              | Some f => mk (prompts this) (categories this) (JSSet.ofList f) (settings this)
              | None => this
              end in
            let this :=
              match Snapshot.settings data with
              | Some s => mk (prompts this) (categories this) (favorites this)
                             (JSMap.assign getDefaultSettings s)
              | None => this
              end in
            (this, saveAll this ls, Return true)
        end
    end.

(** [restoreFromBackup(backupIndex)]: whatever the [try] block throws is
    caught, logged and answered with [false]. *)
Definition restoreFromBackup (ids : nat -> string) (today : string)
           (backupIndex : Z) (this : t) (ls : LocalStorage.t)
  : t * LocalStorage.t * Completion bool :=
  let '(this, ls, completion) := restoreAttempt ids today backupIndex this ls in
  (this, ls,
   match completion with
   | Return success => Return success
   | Throw _ => Return false
   end).

Record ImportResult : Type := mkResult {
  imported : Z;
  skipped : Z;
  errors : list string
}.

(** The body of the [forEach] over [parsedData.prompts]. *)
Definition importPrompt (merge : bool) (fresh today : string)
           (state : JSMap.t Prompt.t * ImportResult) (promptData : Data.t)
  : JSMap.t Prompt.t * ImportResult :=
  let '(map, result) := state in
  match Prompt.new fresh today promptData with
  | Return prompt =>
      if negb merge || negb (JSMap.has (Prompt.id prompt) map)
      then (JSMap.set (Prompt.id prompt) prompt map,
            mkResult (imported result + 1) (skipped result) (errors result))
      else (map, mkResult (imported result) (skipped result + 1) (errors result))
  | Throw message =>
      (map, mkResult (imported result) (skipped result)
                     (errors result ++ [("Failed to import prompt: " ++ message)%string]))
  end.

Fixpoint importPrompts (merge : bool) (ids : nat -> string) (today : string) (i : nat)
         (promptsData : list Data.t) (state : JSMap.t Prompt.t * ImportResult)
  : JSMap.t Prompt.t * ImportResult :=
  match promptsData with
  | [] => state
  | promptData :: rest =>
      importPrompts merge ids today (S i) rest
                    (importPrompt merge (ids i) today state promptData)
  end.

(** What the constructor completes with for each record of an array, in
    order; the records it returned; the messages it threw. *)
Fixpoint constructAll (ids : nat -> string) (today : string) (i : nat)
         (promptsData : list Data.t) : list (Completion Prompt.t) :=
  match promptsData with
  | [] => []
  | promptData :: rest =>
      Prompt.new (ids i) today promptData :: constructAll ids today (S i) rest
  end.

Definition returned (cs : list (Completion Prompt.t)) : list Prompt.t :=
  flat_map (fun c => match c with Return p => [p] | Throw _ => [] end) cs.

Definition thrown (cs : list (Completion Prompt.t)) : list string :=
  flat_map (fun c => match c with Return _ => [] | Throw m => [m] end) cs.

(** The rest of the loop body once the constructor has completed. *)
Definition absorb (merge : bool) (state : JSMap.t Prompt.t * ImportResult)
           (c : Completion Prompt.t) : JSMap.t Prompt.t * ImportResult :=
  match c with
  | Return prompt =>
      if negb merge || negb (JSMap.has (Prompt.id prompt) (fst state))
      then (JSMap.set (Prompt.id prompt) prompt (fst state),
            mkResult (imported (snd state) + 1) (skipped (snd state)) (errors (snd state)))
      else (fst state,
            mkResult (imported (snd state)) (skipped (snd state) + 1) (errors (snd state)))
  | Throw message =>
      (fst state,
       mkResult (imported (snd state)) (skipped (snd state))
                (errors (snd state) ++ [("Failed to import prompt: " ++ message)%string]))
  end.

(** [parsedData.prompts] when it is an array, no record otherwise. *)
Definition incoming (parsedData : Snapshot.t) : list Data.t :=
  match Snapshot.prompts parsedData with
  | Some promptsData => promptsData
  | None => []
  end.

(** [importData(data, format, merge)]. [parsed] is what the parse of
    [data] in [format] ([JSON.parse] or [jsyaml.load]) completes with. *)
Definition importData (ids : nat -> string) (today : string)
           (parsed : Completion Snapshot.t) (merge : bool)
           (this : t) (ls : LocalStorage.t)
  : t * LocalStorage.t * Completion ImportResult :=
  match parsed with
  | Throw message => (this, ls, Throw ("Failed to import data: " ++ message))
  | Return parsedData =>
      let result := mkResult 0 0 [] in
      let '(this, ls) := if negb merge then clearAll this ls else (this, ls) in
      let '(map, result) :=
        match Snapshot.prompts parsedData with
        | Some promptsData =>
            importPrompts merge ids today 0 promptsData (prompts this, result)
        | None => (prompts this, result)
        end in
      let this := mk map (categories this) (favorites this) (settings this) in
      let this :=
        match Snapshot.categories parsedData with
        | Some c => mk (prompts this) (JSMap.assign (categories this) c)
                       (favorites this) (settings this)
        | None => this
        end in
      let this :=
        match Snapshot.favorites parsedData with
        | Some f => mk (prompts this) (categories this)
                       (fold_left (fun s id => JSSet.add id s) f (favorites this))
                       (settings this)
        | None => this
        end in
      let this :=
        match Snapshot.settings parsedData with
        | Some s => mk (prompts this) (categories this) (favorites this)
                       (JSMap.assign (settings this) s)
        | None => this
        end in
      (this, saveAll this ls, Return result)
  end.

(** The [forEach] of [loadPrompts], with its [try] inside: a record that
    the constructor refuses is logged and the loop goes on. *)
Fixpoint loadEach (ids : nat -> string) (today : string) (i : nat)
         (data : list Data.t) (map : JSMap.t Prompt.t) : JSMap.t Prompt.t :=
  match data with
  | [] => map
  | promptData :: rest =>
      match Prompt.new (ids i) today promptData with
      | Return prompt =>
          loadEach ids today (S i) rest (JSMap.set (Prompt.id prompt) prompt map)
      | Throw _ => loadEach ids today (S i) rest map
      end
  end.

Definition loadPrompts (ids : nat -> string) (today : string)
           (this : t) (ls : LocalStorage.t) : t :=
  match LocalStorage.PROMPTS ls with
  | Some data =>
      mk (loadEach ids today 0 data []) (categories this) (favorites this) (settings this)
  | None => this
  end.

(** The star of the first name lies outside the code units that the string
    primitives above cover; it is written in UTF-8 here, and no string
    operation is applied to a category name. *)
Definition defaultCategories : JSMap.t CategoryInfo :=
  [("favorites", mkCategoryInfo "⭐ Favorites" "star" "#fbbf24");
   ("productivity", mkCategoryInfo "Productivity" "folder" "#3b82f6");
   ("linguaggi", mkCategoryInfo "Linguaggi" "folder" "#10b981");
   ("linguaggi/java", mkCategoryInfo "Java" "file" "#f59e0b");
   ("immagini", mkCategoryInfo "Immagini" "folder" "#8b5cf6");
   ("llm", mkCategoryInfo "LLM" "folder" "#ef4444");
   ("general", mkCategoryInfo "Generale" "folder" "#6b7280")].

Definition initializeDefaultCategories (this : t) (ls : LocalStorage.t)
  : t * LocalStorage.t :=
  let this := mk (prompts this) defaultCategories (favorites this) (settings this) in
  (this, saveCategories this ls).

Definition loadCategories (this : t) (ls : LocalStorage.t) : t * LocalStorage.t :=
  match LocalStorage.CATEGORIES ls with
  | Some data => (mk (prompts this) data (favorites this) (settings this), ls)
  | None => initializeDefaultCategories this ls
  end.

Definition loadFavorites (this : t) (ls : LocalStorage.t) : t :=
  match LocalStorage.FAVORITES ls with
  | Some data => mk (prompts this) (categories this) (JSSet.ofList data) (settings this)
  | None => this
  end.

Definition loadSettings (this : t) (ls : LocalStorage.t) : t :=
  match LocalStorage.SETTINGS ls with
  | Some data =>
      mk (prompts this) (categories this) (favorites this)
         (JSMap.assign getDefaultSettings data)
  | None => mk (prompts this) (categories this) (favorites this) getDefaultSettings
  end.

(** [loadData()]. On a store whose refusals come to an end none of the
    four loaders throws: [getFromStorage] and [saveToStorage] catch what
    the store throws and [loadPrompts] catches what the constructor
    throws, so the [catch] that calls [attemptRecovery] is not entered.
    It is entered when the store refuses the default categories without
    end and the engine ends [saveToStorage]; such a run is not part of
    this definition. *)
Definition loadData (ids : nat -> string) (today : string)
           (this : t) (ls : LocalStorage.t) : t * LocalStorage.t :=
  let this := loadPrompts ids today this ls in
  let '(this, ls) := loadCategories this ls in
  let this := loadFavorites this ls in
  let this := loadSettings this ls in
  (this, ls).

Context {codec : ExportCodec}.

(** [exportData(format)] at time [now]. *)
Definition exportData (now format : string) (this : t) : ExportText :=
  let data :=
    {| metadata := mkExportMetadata now "1.0" format;
       content :=
         {| Snapshot.prompts := Some (map Prompt.toObject (JSMap.values (prompts this)));
            Snapshot.categories := Some (JSObject.entries (categories this));
            Snapshot.favorites := Some (favorites this);
            Snapshot.settings := Some (settings this) |} |} in
  if format =? "yaml" then dumpExport data else stringifyExport data.

(** [importData(data, format, merge)] from the text. With a format other
    than ['auto'], ['json'] and ['yaml'] nothing is parsed: [parsedData] is
    [undefined] when [clearAll] runs, and the first read of a property of
    it throws a [TypeError], whose message [typeError] depends on the
    engine. *)
Definition importDataText (ids : nat -> string) (today typeError : string)
           (data : ExportText) (format : string) (merge : bool)
           (this : t) (ls : LocalStorage.t)
  : t * LocalStorage.t * Completion ImportResult :=
  if format =? "auto" then
    importData ids today
      (match parseExport data with
       | Return parsedData => Return parsedData
       | Throw _ => loadExport data
       end)
      merge this ls
  else if format =? "json" then importData ids today (parseExport data) merge this ls
  else if format =? "yaml" then importData ids today (loadExport data) merge this ls
  else
    let '(this, ls) := if negb merge then clearAll this ls else (this, ls) in
    (this, ls, Throw ("Failed to import data: " ++ typeError)).

End Methods.
End StorageManager.

(** ** The [TreeView] class: tree construction and deletion *)

Module TreeView.

Record Entry : Type := mkEntry {
  info : CategoryInfo;
  items : list Prompt.t;
  parent : option string;
  children : list string
}.

(** [tree.categories], an object written as [{}]. [own] lists its own
    properties in the order of their creation. An assignment under the key
    ['__proto__'] creates no own property: it makes the assigned entry the
    prototype of the object, in place of [Object.prototype], which becomes
    the prototype of that entry. [installed] is the entry so installed. *)
Record Categories : Type := mkCategories {
  own : JSMap.t Entry;
  installed : option Entry
}.

Record Tree : Type := mkTree {
  categories : Categories;
  favorites : list Prompt.t;
  uncategorized : list Prompt.t
}.

(** What [tree.categories[key]] evaluates to: an entry; something truthy
    that is no entry and has neither [items] nor [children]; or something
    falsy ([undefined], [null], the empty string). *)
Inductive Slot : Type :=
| Held (entry : Entry)
| Alien
| Nothing.

(** [tree.categories[key]]. A key that is no own property is looked up in
    the prototype chain: in the installed entry, where [info] finds the
    stored info, [items] and [children] find arrays and [parent] finds the
    parent path, and then in [Object.prototype], whose accessor [__proto__]
    yields the installed entry, or [Object.prototype] itself when there is
    none. *)
Definition lookup (key : string) (cats : Categories) : Slot :=
  match JSMap.get key (own cats) with
  | Some entry => Held entry
  | None =>
      match installed cats with
      | Some entry =>
          if key =? "__proto__" then Held entry
          else if (key =? "info") || (key =? "items") || (key =? "children") then Alien
          else if key =? "parent" then
            match parent entry with
            | Some parentPath => if JSString.truthy parentPath then Alien else Nothing
            | None => Nothing
            end
          else if JSObject.inherits key then Alien else Nothing
      | None => if JSObject.inherits key then Alien else Nothing
      end
  end.

(** [tree.categories[path] = entry] *)
Definition assign (path : string) (entry : Entry) (cats : Categories) : Categories :=
  if path =? "__proto__" then mkCategories (own cats) (Some entry)
  else mkCategories (JSMap.set path entry (own cats)) (installed cats).

(** The table after the entry that [tree.categories[key]] holds has been
    changed in place, by a [push] on its [items] or its [children]. *)
Definition replace (key : string) (entry : Entry) (cats : Categories) : Categories :=
  match JSMap.get key (own cats) with
  | Some _ => mkCategories (JSMap.set key entry (own cats)) (installed cats)
  | None => mkCategories (own cats) (Some entry)
  end.

(** [path.includes('/') ? path.substring(0, path.lastIndexOf('/')) : null] *)
Definition parentOf (path : string) : option string :=
  match JSString.lastIndexOf "/" path with
  | Some i => Some (String.substring 0 i path)
  | None => None
  end.

(** First loop: one entry per stored category other than ['favorites']. *)
Definition initCategories (stored : JSMap.t CategoryInfo) : Categories :=
  fold_left
    (fun cats kv =>
       let '(path, info) := kv in
       if negb (path =? "favorites")
       then assign path (mkEntry info [] (parentOf path) []) cats
       else cats)
    stored (mkCategories [] None).

(** The body of the second loop: the entry of [path] is pushed on the
    [children] of its parent entry, when there is one. A parent path that
    finds something that is no entry makes [.children.includes] throw a
    [TypeError] (the messages are V8's). *)
Definition pushChild (cats : Categories) (path : string) : Completion Categories :=
  match lookup path cats with
  | Held entry =>
      match parent entry with
      | Some parentPath =>
          if JSString.truthy parentPath
          then
            match lookup parentPath cats with
            | Held parentEntry =>
                if negb (existsb (String.eqb path) (children parentEntry))
                then Return (replace parentPath
                               (mkEntry (info parentEntry) (items parentEntry)
                                        (parent parentEntry)
                                        (children parentEntry ++ [path]))
                               cats)
                else Return cats
            | Alien =>
                Throw "TypeError: Cannot read properties of undefined (reading 'includes')"
            | Nothing => Return cats
            end
          else Return cats
      | None => Return cats
      end
  | Alien => Return cats
  | Nothing => Throw "TypeError: Cannot read properties of undefined (reading 'parent')"
  end.

(** Second loop, over [Object.keys(tree.categories)]. *)
Definition populateChildren (cats : Categories) : Completion Categories :=
  forEach pushChild (JSObject.keys (own cats)) cats.

(** [prompt.category || 'uncategorized'] *)
Definition categoryKey (prompt : Prompt.t) : string :=
  JSString.orElse (Some (Prompt.category prompt)) "uncategorized".

(** The body of the [forEach] over the prompts. A category that finds
    something that is no entry makes [.items.push] throw a [TypeError]. *)
Definition place (tree : Tree) (prompt : Prompt.t) : Completion Tree :=
  let tree :=
    if Prompt.isFavorite prompt
    then mkTree (categories tree) (favorites tree ++ [prompt]) (uncategorized tree)
    else tree in
  let category := categoryKey prompt in
  match lookup category (categories tree) with
  | Held entry =>
      Return
        (mkTree (replace category
                   (mkEntry (info entry) (items entry ++ [prompt]) (parent entry)
                            (children entry))
                   (categories tree))
                (favorites tree) (uncategorized tree))
  | Alien => Throw "TypeError: Cannot read properties of undefined (reading 'push')"
  | Nothing =>
      if (category =? "uncategorized") && negb (Prompt.isFavorite prompt)
      then Return (mkTree (categories tree) (favorites tree)
                          (uncategorized tree ++ [prompt]))
      else Return tree
  end.

(** [buildTreeStructure()]: the tree, or the [TypeError] that ends it. *)
Definition buildTreeStructure (storage : StorageManager.t) : Completion Tree :=
  let tree := mkTree (mkCategories [] None) [] [] in
  let tree :=
    mkTree (initCategories (StorageManager.categories storage))
           (favorites tree) (uncategorized tree) in
  bindC (populateChildren (categories tree))
        (fun cats =>
           let tree := mkTree cats (favorites tree) (uncategorized tree) in
           let prompts := JSMap.values (StorageManager.prompts storage) in
           forEach place prompts tree).

(** The node that is selected, by its [dataset]. *)
Inductive Node : Type :=
| PromptNode (id : string)
| CategoryNode (path : string).

Record t : Type := mk {
  storage : StorageManager.t;
  selectedNode : option Node
}.

Section Methods.
Context {dates : DateParser}.

(** [deletePrompt(promptId)]; [confirmed] is the answer to the [confirm]
    dialog. The toast and the dispatched event leave the collections and
    the store alone and are not part of the state; so does [render()],
    which the method calls after the saves: this definition, like the two
    that follow, ends with the saves, and what [render] below throws
    leaves the method with the collections and the store as given here. *)
Definition deletePrompt (confirmed : bool) (promptId : string)
           (this : t) (ls : LocalStorage.t) : t * LocalStorage.t :=
  match JSMap.get promptId (StorageManager.prompts (storage this)) with
  | None => (this, ls)
  | Some prompt =>
      if confirmed then
        let s := storage this in
        let s :=
          StorageManager.mk (JSMap.delete promptId (StorageManager.prompts s))
                            (StorageManager.categories s)
                            (StorageManager.favorites s)
                            (StorageManager.settings s) in
        let s :=
          StorageManager.mk (StorageManager.prompts s)
                            (StorageManager.categories s)
                            (JSSet.delete promptId (StorageManager.favorites s))
                            (StorageManager.settings s) in
        let ls := StorageManager.savePrompts s ls in
        let ls := StorageManager.saveFavorites s ls in
        let selected :=
          match selectedNode this with
          | Some (PromptNode id) => if id =? promptId then None else selectedNode this
          | other => other
          end in
        (mk s selected, ls)
      else (this, ls)
  end.

(** [{ isFavorite: b }] and [{ category: path }] *)
Definition flagData (b : bool) : Data.t :=
  Data.mk None None None None None None None None None None None None None (Some b) [].

Definition categoryData (path : string) : Data.t :=
  Data.mk None None None None None None None None None None None None (Some path) None [].

(** The collection after a method has changed the record that it holds
    under [promptId]: the [Map] holds the object itself, not a copy. *)
Definition mutated (promptId : string) (prompt : Prompt.t) (s : StorageManager.t)
  : StorageManager.t :=
  StorageManager.mk (JSMap.set promptId prompt (StorageManager.prompts s))
                    (StorageManager.categories s)
                    (StorageManager.favorites s)
                    (StorageManager.settings s).

(** [toggleFavorite(promptId)], up to the saves. [update] changes the
    record and then validates it; what it throws leaves the method at
    once. *)
Definition toggleFavorite (today : string) (promptId : string)
           (this : t) (ls : LocalStorage.t) : t * LocalStorage.t * Completion unit :=
  match JSMap.get promptId (StorageManager.prompts (storage this)) with
  | None => (this, ls, Return tt)
  | Some prompt =>
      let '(prompt, completion) :=
        Prompt.update today (flagData (negb (Prompt.isFavorite prompt))) prompt in
      let s := mutated promptId prompt (storage this) in
      match completion with
      | Throw message => (mk s (selectedNode this), ls, Throw message)
      | Return _ =>
          let s :=
            StorageManager.mk (StorageManager.prompts s)
                              (StorageManager.categories s)
                              (if Prompt.isFavorite prompt
                               then JSSet.add promptId (StorageManager.favorites s)
                               else JSSet.delete promptId (StorageManager.favorites s))
                              (StorageManager.settings s) in
          let ls := StorageManager.savePrompts s ls in
          let ls := StorageManager.saveFavorites s ls in
          (mk s (selectedNode this), ls, Return tt)
      end
  end.

(** [duplicatePrompt(promptId)], up to the save; [fresh] is the id
    generated for the copy. *)
Definition duplicatePrompt (fresh today : string) (promptId : string)
           (this : t) (ls : LocalStorage.t) : t * LocalStorage.t * Completion unit :=
  match JSMap.get promptId (StorageManager.prompts (storage this)) with
  | None => (this, ls, Return tt)
  | Some prompt =>
      match Prompt.clone fresh today prompt with
      | Throw message => (this, ls, Throw message)
      | Return duplicated =>
          let s := storage this in
          let s :=
            StorageManager.mk
              (JSMap.set (Prompt.id duplicated) duplicated (StorageManager.prompts s))
              (StorageManager.categories s)
              (StorageManager.favorites s)
              (StorageManager.settings s) in
          (mk s (selectedNode this), StorageManager.savePrompts s ls, Return tt)
      end
  end.

(** [render()], as far as the tree goes: the tree that it builds before it
    draws it. What [buildTreeStructure] throws leaves [render] at once;
    the drawing itself, which works on the page, is not modelled. *)
Definition render (this : t) : Completion Tree :=
  buildTreeStructure (storage this).

(** [handleDrop(e)]: [target] is the tree node closest to the drop point,
    [promptId] the text that the drag carries and [dragging] whether
    [this.draggedNode] is set. The record is updated and saved before the
    tree is rendered again. *)
Definition handleDrop (today : string) (target : option Node) (promptId : string)
           (dragging : bool) (this : t) (ls : LocalStorage.t)
  : t * LocalStorage.t * Completion unit :=
  match target with
  | Some (CategoryNode path) =>
      match JSMap.get promptId (StorageManager.prompts (storage this)) with
      | Some prompt =>
          if dragging then
            let '(prompt, completion) :=
              Prompt.update today (categoryData path) prompt in
            let s := mutated promptId prompt (storage this) in
            let this := mk s (selectedNode this) in
            match completion with
            | Throw message => (this, ls, Throw message)
            | Return _ =>
                (this, StorageManager.savePrompts s ls,
                 bindC (render this) (fun _ => Return tt))
            end
          else (this, ls, Return tt)
      | None => (this, ls, Return tt)
      end
  | _ => (this, ls, Return tt)
  end.

End Methods.
End TreeView.

(** ** The [PromptEditor] class: the form and its way into the collection *)

Module PromptEditor.


Definition parseTags (tagsString : string) : list string :=
  if negb (JSString.truthy tagsString) then []
  else
    firstn 20
      (filter (fun tag => (JSString.length tag >? 0)%Z)
              (map JSString.trim (JSString.split "," tagsString))).



(** [populateForm(prompt)]: the tags input gets [prompt.tags.join(', ')]. *)
Definition tagsValue (prompt : Prompt.t) : string := Prompt.getTagsString prompt.

Section Methods.
Context {dates : DateParser}.


End Methods.
End PromptEditor.

(** ** The [SearchController] class: history and suggestions *)

Module SearchController.

(** [l.slice(0, n)]: a negative [n] counts from the end. *)
Definition slice0 {A : Type} (n : Z) (l : list A) : list A :=
  if (n <? 0)%Z then firstn (Z.to_nat (Z.of_nat (List.length l) + n)) l
  else firstn (Z.to_nat n) l.

(** [addToSearchHistory(query)]: the history afterwards.
    [maxHistoryItems] is 10 unless [importSearchData] has changed it. The
    history is then written to a key of its own in the store, which the
    five slots above do not include. *)
Definition addToSearchHistory (maxHistoryItems : Z) (query : string)
           (searchHistory : list string) : list string :=
  if negb (JSString.truthy query) || existsb (String.eqb query) searchHistory
  then searchHistory
  else
    let searchHistory := query :: searchHistory in
    if (Z.of_nat (List.length searchHistory) >? maxHistoryItems)%Z
    then slice0 maxHistoryItems searchHistory
    else searchHistory.

(** [item.toLowerCase().includes(query.toLowerCase())] *)
Definition mentions (query item : string) : bool :=
  JSString.includes (JSString.toLowerCase item) (JSString.toLowerCase query).

Definition getSearchSuggestions (query : string) (searchHistory : list string)
           (storage : StorageManager.t) : list string :=
  if negb (JSString.truthy query) then slice0 5 searchHistory
  else
    let suggestions := [] in
    let matchingHistory := filter (mentions query) searchHistory in
    let suggestions := suggestions ++ matchingHistory in
    let allTags :=
      fold_left
        (fun allTags prompt =>
           fold_left (fun allTags tag => JSSet.add tag allTags) (Prompt.tags prompt) allTags)
        (JSMap.values (StorageManager.prompts storage)) [] in
    let matchingTags :=
      filter (fun tag => mentions query tag && negb (existsb (String.eqb tag) suggestions))
             allTags in
    let suggestions := suggestions ++ slice0 3 matchingTags in
    let allModels :=
      fold_left
        (fun allModels prompt =>
           if JSString.truthy (Prompt.model prompt)
           then JSSet.add (Prompt.model prompt) allModels
           else allModels)
        (JSMap.values (StorageManager.prompts storage)) [] in
    let matchingModels :=
      filter (fun model => mentions query model
                           && negb (existsb (String.eqb model) suggestions))
             allModels in
    let suggestions := suggestions ++ slice0 2 matchingModels in
    slice0 8 suggestions.

End SearchController.

(** ** The [AppController] class: new folders *)

Module AppController.

(** Which way [createNewFolder] ends: the dialog was dismissed or left
    empty; the name has no usable character; the folder is there already;
    the folder was created. The last three each show a toast. *)
Inductive FolderOutcome : Type :=
| Dismissed
| InvalidName
| AlreadyExists
| Created.

(** [folderName.trim().toLowerCase().replace(/[^a-z0-9\s-]/g, '')
      .replace(/\s+/g, '-')] *)
Definition safeName (folderName : string) : string :=
  JSString.replaceRuns JSString.isWhiteSpace
    (JSString.keepChars
       (fun c => JSString.isLowerAlnum c || JSString.isWhiteSpace c
                 || JSString.isHyphen c)
       (JSString.toLowerCase (JSString.trim folderName))).

(** [createNewFolder()]; [answer] is what the [prompt] dialog returns,
    [None] when it is dismissed. *)
Definition createNewFolder (answer : option string)
           (storage : StorageManager.t) (ls : LocalStorage.t)
  : StorageManager.t * LocalStorage.t * FolderOutcome :=
  match answer with
  | None => (storage, ls, Dismissed)
  | Some folderName =>
      if negb (JSString.truthy folderName) then (storage, ls, Dismissed)
      else
        let safeName := safeName folderName in
        if negb (JSString.truthy safeName) then (storage, ls, InvalidName)
        else if JSMap.has safeName (StorageManager.categories storage)
        then (storage, ls, AlreadyExists)
        else
          let storage :=
            StorageManager.mk
              (StorageManager.prompts storage)
              (JSMap.set safeName (mkCategoryInfo folderName "folder" "#6b7280")
                         (StorageManager.categories storage))
              (StorageManager.favorites storage)
              (StorageManager.settings storage) in
          (storage, StorageManager.saveCategories storage ls, Created)
  end.

End AppController.

(** ** The [ThemeUtils] class: the theme of the page *)

Module ThemeUtils.

Definition LIGHT : string := "light".
Definition DARK : string := "dark".
Definition THEMES : list string := [LIGHT; DARK].

(** The [data-theme] attribute of the root element and the item stored
    under [STORAGE_KEY], each [None] when absent. *)
Record t : Type := mk {
  dataTheme : option string;
  savedTheme : option string
}.

Definition getCurrentTheme (page : t) : string :=
  JSString.orElse (dataTheme page) LIGHT.

(** [saveTheme(theme)]; [accepted] says whether [setItem] stores the item
    or throws, which the [catch] only logs. *)
Definition saveTheme (accepted : bool) (theme : string) (page : t) : t :=
  if accepted then mk (dataTheme page) (Some theme) else page.

Definition setTheme (accepted : bool) (theme : string) (page : t) : t :=
  if negb (existsb (String.eqb theme) THEMES) then page
  else saveTheme accepted theme (mk (Some theme) (savedTheme page)).

Definition toggleTheme (accepted : bool) (page : t) : t :=
  let currentTheme := getCurrentTheme page in
  let newTheme := if currentTheme =? LIGHT then DARK else LIGHT in
  setTheme accepted newTheme page.

(** [getSystemTheme()]; [prefersDark] is what the media query answers. *)
Definition getSystemTheme (prefersDark : bool) : string :=
  if prefersDark then DARK else LIGHT.

(** [loadTheme()]; [readable] says whether [getItem] returns or throws. *)
Definition loadTheme (readable prefersDark accepted : bool) (page : t) : t :=
  if readable then
    match savedTheme page with
    | Some saved =>
        if JSString.truthy saved && existsb (String.eqb saved) THEMES
        then setTheme accepted saved page
        else setTheme accepted (getSystemTheme prefersDark) page
    | None => setTheme accepted (getSystemTheme prefersDark) page
    end
  else setTheme accepted LIGHT page.

End ThemeUtils.

(** ** The specification's reading of the relevance score *)

Module Spec.

(** "contains q (case-insensitive)" *)
Definition contains (field q : string) : bool :=
  JSString.includes (JSString.toLowerCase field) (JSString.toLowerCase q).

Definition startsWith (field q : string) : bool :=
  JSString.startsWith (JSString.toLowerCase field) (JSString.toLowerCase q).

Definition weight (w : Z) (b : bool) : Z := if b then w else 0%Z.

(** The minimum of 100 and the sum of the weights of the fields that
    contain the query. *)
Definition relevanceScore (q : string) (p : Prompt.t) : Z :=
  Z.min 100
    (weight 50 (contains (Prompt.title p) q)
     + weight 25 (contains (Prompt.title p) q && startsWith (Prompt.title p) q)
     + weight 20 (contains (Prompt.prompt p) q)
     + weight 15 (contains (JSString.join ", " (Prompt.tags p)) q)
     + weight 5 (contains (Prompt.notes p) q)
     + weight 5 (contains (Prompt.author p) q)
     + weight 5 (contains (Prompt.model p) q))%Z.

End Spec.

(** ** Concrete environments and data for the examples *)

Module Sample.

(** A date parser that accepts the ISO date-only shape [dddd-dd-dd]. *)
Definition isoDateShape (s : string) : bool :=
  match s with
  | String y1 (String y2 (String y3 (String y4 (String "-"
      (String m1 (String m2 (String "-" (String d1 (String d2 EmptyString))))))))) =>
      forallb JSString.isDigit [y1; y2; y3; y4; m1; m2; d1; d2]
  | _ => false
  end.

Definition isoDates : DateParser := {| parsesAsDate := isoDateShape |}.

(** A js-yaml whose documents are the mappings themselves. *)
Definition structuralYaml : JsYaml :=
  {| YamlText := Data.t;
     dump := fun d => d;
     load := fun d => Return d;
     load_dump := fun d => eq_refl |}.

(** A JSON whose texts are the objects themselves. *)
Definition structuralJson : @Json structuralYaml :=
  @Build_Json structuralYaml (fun d : Data.t => d) (fun d : Data.t => Return d)
              (fun d => eq_refl).

(** An export codec whose texts are the exports themselves. *)
Definition structuralCodec : ExportCodec :=
  @Build_ExportCodec Export (fun e => e) (fun e => e)
    (fun e => Return (content e)) (fun e => Return (content e))
    (fun e => eq_refl) (fun e => eq_refl).

Definition codeReview : Prompt.t :=
  {| Prompt.id := "prompt-1-a";
     Prompt.title := "AI Code Review";
     Prompt.type := "code";
     Prompt.prompt := "Review the following code";
     Prompt.negative_prompt := "";
     Prompt.model := "";
     Prompt.author := "Ada";
     Prompt.tags := ["java"; "review"];
     Prompt.notes := "";
     Prompt.version := "1.0";
     Prompt.created := "2024-01-01";
     Prompt.modified := "2024-01-02";
     Prompt.category := "linguaggi/java";
     Prompt.isFavorite := true |}.

Definition recruiter : Prompt.t :=
  {| Prompt.id := "prompt-2-b";
     Prompt.title := "Recruiter";
     Prompt.type := "text_generation";
     Prompt.prompt := "Write a job post";
     Prompt.negative_prompt := "";
     Prompt.model := "";
     Prompt.author := "";
     Prompt.tags := [];
     Prompt.notes := "";
     Prompt.version := "2.1.0";
     Prompt.created := "2024-02-01";
     Prompt.modified := "2024-02-01";
     Prompt.category := "productivity";
     Prompt.isFavorite := false |}.

Fixpoint repeatChar (c : ascii) (n : nat) : string :=
  match n with
  | O => EmptyString
  | S n' => String c (repeatChar c n')
  end.

(** A valid record whose title has 194 characters. *)
Definition longTitled : Prompt.t := Prompt.set_title (repeatChar "a" 194) recruiter.

(** A record whose identifier [generateId()] has made, at the time
    [1709460000000] and with the random digits [k3x9q2m1z]. *)
Definition generated : Prompt.t :=
  Prompt.set_id (Prompt.generateId 1709460000000 "k3x9q2m1z") recruiter.

(** A record filed under a category that is not stored. *)
Definition orphan : Prompt.t := Prompt.set_category "archive" recruiter.

(** A record dropped on the favorites node, which files it under
    ['favorites'] without flagging it. *)
Definition onFavoritesNode : Prompt.t := Prompt.set_category "favorites" recruiter.

Definition folder (n : string) : CategoryInfo := mkCategoryInfo n "folder" "#6b7280".

Definition manager : StorageManager.t :=
  {| StorageManager.prompts := [("prompt-1-a", codeReview); ("prompt-2-b", recruiter)];
     StorageManager.categories :=
       [("favorites", mkCategoryInfo "Favorites" "star" "#fbbf24");
        ("productivity", folder "Productivity");
        ("linguaggi", folder "Linguaggi");
        ("linguaggi/java", mkCategoryInfo "Java" "file" "#f59e0b")];
     StorageManager.favorites := ["prompt-1-a"];
     StorageManager.settings := StorageManager.getDefaultSettings |}.

Definition emptyStore : LocalStorage.t := LocalStorage.mk None None None None None [].

Definition ids (i : nat) : string :=
  ("prompt-1700000000000-" ++ repeatChar "x" (S i))%string.

(** Two earlier snapshots, the newer first. *)
Definition olderBackups : list Backup :=
  [@StorageManager.snapshot "2024-03-02T10:00:00.000Z" manager;
   @StorageManager.snapshot "2024-03-01T10:00:00.000Z" manager].

(** A store that holds two snapshots and has no room for a third: the
    next [setItem] throws a [QuotaExceededError]. *)
Definition fullStore : LocalStorage.t :=
  LocalStorage.mk None None None None (Some olderBackups) [Some "QuotaExceededError"].

Definition view : TreeView.t := TreeView.mk manager (Some (TreeView.PromptNode "prompt-1-a")).

(** The collection of [manager] with its first record filed under a
    category called ['constructor']. *)
Definition named : StorageManager.t :=
  StorageManager.mk
    [("prompt-1-a", Prompt.set_category "constructor" codeReview);
     ("prompt-2-b", recruiter)]
    (StorageManager.categories manager) ["prompt-1-a"]
    StorageManager.getDefaultSettings.

(** A collection whose folders are named after years and counts: two of
    the stored paths are array indices. *)
Definition dated : StorageManager.t :=
  {| StorageManager.prompts := [("prompt-2-b", Prompt.set_category "2024/q1" recruiter)];
     StorageManager.categories :=
       [("productivity", folder "Productivity");
        ("2024", folder "2024");
        ("2024/q1", folder "First quarter");
        ("10", folder "10");
        ("archive", folder "Archive")];
     StorageManager.favorites := [];
     StorageManager.settings := StorageManager.getDefaultSettings |}.

(** A collection with two stray records: one filed under a category that
    is not stored, one filed under ['favorites'] without being a favorite. *)
Definition strays : StorageManager.t :=
  {| StorageManager.prompts :=
       [("prompt-2-b", orphan);
        ("prompt-5-e",
         Prompt.mk "prompt-5-e" "Dropped" "other" "Dropped on the star" "" "" "" [] ""
                   "1.0" "2024-02-03" "2024-02-03" "favorites" false)];
     StorageManager.categories := StorageManager.categories manager;
     StorageManager.favorites := [];
     StorageManager.settings := StorageManager.getDefaultSettings |}.

(** An export with three records: one that has the identifier of
    [codeReview] and another title, one that is new, one with no title. *)
Definition incomingReview : Data.t :=
  Prompt.toObject (Prompt.set_title "Reviewed elsewhere" codeReview).

Definition translator : Prompt.t :=
  Prompt.set_title "Translator" (Prompt.mk "prompt-3-c" "" "text_generation"
    "Translate the text" "" "" "" [] "" "1.0" "2024-02-10" "2024-02-10" "" false).

Definition untitled : Data.t :=
  Data.mk (Some "prompt-4-d") None None (Some "Body") None None None None None None
          None None None None [].

Definition exported : Snapshot.t :=
  Snapshot.mk (Some [incomingReview; Prompt.toObject translator; untitled]) None None None.

(** A manager that has loaded nothing yet. *)
Definition fresh : StorageManager.t := StorageManager.mk [] [] [] [].

(** A store whose only snapshot has a record with no title between two
    valid ones. *)
Definition damagedStore : LocalStorage.t :=
  LocalStorage.mk None None None None
    (Some [mkBackup "2024-03-02T10:00:00.000Z" "1.0"
             (Snapshot.mk (Some [Prompt.toObject codeReview; untitled;
                                 Prompt.toObject recruiter])
                          None None None)])
    [].




(** [{ type: 'constructor' }] *)
Definition retype : Data.t :=
  Data.mk None None (Some "constructor") None None None None None None None None None None
          None [].

(** [{ title: '' }] *)
Definition blankTitle : Data.t :=
  Data.mk None (Some "") None None None None None None None None None None None None [].

(** [{ id: 'prompt-0-x', created: '1999-12-31', category: 'productivity',
      rating: '5' }] *)
Definition relabel : Data.t :=
  Data.mk (Some "prompt-0-x") None None None None None None None None None
          (Some "1999-12-31") None (Some "productivity") None [("rating", VString "5")].

End Sample.

(** ** Notions and tactics used in the proofs *)

(** The characters of a string. *)
Definition chars (s : string) : list ascii := list_ascii_of_string s.

(** A string of one digit or more. *)
Definition digitString (s : string) : bool :=
  JSString.truthy s && forallb JSString.isDigit (chars s).

(** A stored record has an id, a version and both dates. *)
Definition complete (p : Prompt.t) : bool :=
  JSString.truthy (Prompt.id p) && JSString.truthy (Prompt.version p)
  && JSString.truthy (Prompt.created p) && JSString.truthy (Prompt.modified p).

(** Every record of a collection passes the checks of [validate] and is
    filed under its own id, and no key occurs twice. *)
Definition filed {dates : DateParser} (m : JSMap.t Prompt.t) : Prop :=
  JSMap.wf m
  /\ forall k p, In (k, p) m -> k = Prompt.id p /\ Prompt.validate p = Return tt.

(** The records of [ps] put one after the other under their ids. *)
Definition setAll (ps : list Prompt.t) (m : JSMap.t Prompt.t) : JSMap.t Prompt.t :=
  fold_left (fun m p => JSMap.set (Prompt.id p) p m) ps m.

(** The records that a loop with no [try] inside takes in before the
    constructor first throws, and how that loop completes. *)
Fixpoint upToThrow (cs : list (Completion Prompt.t)) : list Prompt.t * Completion unit :=
  match cs with
  | [] => ([], Return tt)
  | Return p :: r => let '(ps, c) := upToThrow r in (p :: ps, c)
  | Throw message :: _ => ([], Throw message)
  end.

(** The last record of [ps] with id [k]. *)
Definition lastWithId (k : string) (ps : list Prompt.t) : option Prompt.t :=
  find (fun p => Prompt.id p =? k) (rev ps).


(** [path] lies directly under [c]: its parent path is [c]. *)
Definition isChildOf (c path : string) : bool :=
  match TreeView.parentOf path with
  | Some parentPath => parentPath =? c
  | None => false
  end.

(** An entry with another list of children. *)
Definition withChildren (entry : TreeView.Entry) (paths : list string) : TreeView.Entry :=
  TreeView.mkEntry (TreeView.info entry) (TreeView.items entry) (TreeView.parent entry)
                   paths.

(** The children that the second loop of [buildTreeStructure] has pushed on
    the entry of [c] once it has gone through [done]. *)
Definition childrenAmong (c : string) (done : list string) : list string :=
  if JSString.truthy c then filter (isChildOf c) done else [].

(** The paths that get an entry in the tree: all but ['favorites']. *)
Definition isShown (path : string) : bool := negb (path =? "favorites").

(** The paths whose entry is an own property of the tree's table: the
    shown ones but ['__proto__']. *)
Definition isOwn (path : string) : bool := isShown path && negb (path =? "__proto__").

(** The entry that [tree.categories[key]] holds, if it holds one. *)
Definition held (key : string) (cats : TreeView.Categories) : option TreeView.Entry :=
  match TreeView.lookup key cats with
  | TreeView.Held entry => Some entry
  | _ => None
  end.

(** [tree.categories[key]] is truthy and no entry: the prototype chain
    answers for [key], and using the answer as an entry throws. *)
Definition foreign (key : string) (cats : TreeView.Categories) : bool :=
  match TreeView.lookup key cats with
  | TreeView.Alien => true
  | _ => false
  end.

(** The prototype chain of the tree's table answers for [key]: no entry
    is stored under [key], and [key] names a member of [Object.prototype]
    or, when a category ['__proto__'] is stored, one of the properties
    [info], [items] and [children] of its entry. *)
Definition inheritedKey (stored : JSMap.t CategoryInfo) (key : string) : bool :=
  negb (isShown key && JSMap.has key stored)
  && (JSObject.inherits key
      || (JSMap.has "__proto__" stored
          && ((key =? "info") || (key =? "items") || (key =? "children")))).

(** No stored path has a parent path, and no record a category, for which
    the prototype chain of the tree's table answers. *)
Definition buildable (storage : StorageManager.t) : Prop :=
  let stored := StorageManager.categories storage in
  (forall path parentPath,
      In path (JSMap.keys stored) ->
      TreeView.parentOf path = Some parentPath ->
      inheritedKey stored parentPath = false)
  /\ (forall p,
         In p (JSMap.values (StorageManager.prompts storage)) ->
         inheritedKey stored (TreeView.categoryKey p) = false).

(** Two tables answer for the same keys in the same way: they have the
    same own keys in the same order, and installed entries with the same
    parent. *)
Definition sameShape (a b : TreeView.Categories) : Prop :=
  JSMap.keys (TreeView.own a) = JSMap.keys (TreeView.own b)
  /\ option_map TreeView.parent (TreeView.installed a)
     = option_map TreeView.parent (TreeView.installed b).

(** No own property is called ['__proto__']: an assignment cannot make
    one. *)
Definition proper (cats : TreeView.Categories) : Prop :=
  JSMap.get "__proto__" (TreeView.own cats) = None.

(** An entry with more items. *)
Definition addItems (entry : TreeView.Entry) (l : list Prompt.t) : TreeView.Entry :=
  TreeView.mkEntry (TreeView.info entry) (TreeView.items entry ++ l)
                   (TreeView.parent entry) (TreeView.children entry).

(** What the first loop of [buildTreeStructure] puts in an entry besides
    the info, and what the third loop leaves alone. *)
Definition bare (entry : TreeView.Entry) : list Prompt.t * option string * list string :=
  (TreeView.items entry, TreeView.parent entry, TreeView.children entry).

Definition frame (entry : TreeView.Entry) : CategoryInfo * option string * list string :=
  (TreeView.info entry, TreeView.parent entry, TreeView.children entry).

(** The table [cats] is the table [cats0] of the first loop after the
    second loop has gone through [done]. *)
Definition nested (cats0 : TreeView.Categories) (done : list string)
           (cats : TreeView.Categories) : Prop :=
  sameShape cats0 cats
  /\ forall k, held k cats
               = option_map (fun e => withChildren e (childrenAmong k done))
                            (held k cats0).

(** The number of non-empty strings of a list. *)
Definition countWords (l : list string) : nat :=
  List.length (filter (fun word => (JSString.length word >? 0)%Z) l).

(** A conditional assignment through a setter is the setter applied to the
    new value or to the old one. *)
Ltac setter_orKeep := intros o p; destruct o, p; reflexivity.

(** Splits [In field allowedFields] into its eleven cases. *)
Ltac each_allowed H :=
  unfold Prompt.allowedFields in H; simpl In in H;
  repeat (destruct H as [H|H]; [subst|]); [..|contradiction].

(* ================================================================== *)
(** * Part II. Properties *)
(* ================================================================== *)

(** ** Strings *)

Lemma trimStart_blank (s : string) :
  JSString.trimStart s = "" <->
  forallb JSString.isWhiteSpace (list_ascii_of_string s) = true.
Proof.
  induction s as [|c r IH]; simpl.
  - tauto.
  - destruct (JSString.isWhiteSpace c); simpl.
    + exact IH.
    + split; discriminate.
Qed.

Lemma trimEnd_blank (s : string) :
  JSString.trimEnd s = "" <->
  forallb JSString.isWhiteSpace (list_ascii_of_string s) = true.
Proof.
  induction s as [|c r IH]; simpl.
  - tauto.
  - destruct (JSString.trimEnd r) eqn:E.
    + destruct (JSString.isWhiteSpace c); simpl.
      * split; intros _; [apply IH|]; reflexivity.
      * split; discriminate.
    + split; [discriminate|].
      intros H. apply andb_true_iff in H. destruct H as [_ H].
      apply IH in H. discriminate.
Qed.

Lemma trimStart_forallb (s : string) :
  forallb JSString.isWhiteSpace (list_ascii_of_string (JSString.trimStart s))
  = forallb JSString.isWhiteSpace (list_ascii_of_string s).
Proof.
  induction s as [|c r IH]; simpl; [reflexivity|].
  destruct (JSString.isWhiteSpace c) eqn:E; simpl.
  - exact IH.
  - rewrite E. reflexivity.
Qed.

(** [s.trim() === ''] exactly when [s] is made of white space. *)
Lemma trim_blank (s : string) :
  JSString.trim s = "" <->
  forallb JSString.isWhiteSpace (list_ascii_of_string s) = true.
Proof.
  unfold JSString.trim. rewrite trimEnd_blank, trimStart_forallb. tauto.
Qed.

Lemma list_ascii_app (a b : string) :
  list_ascii_of_string (a ++ b) = list_ascii_of_string a ++ list_ascii_of_string b.
Proof.
  induction a as [|c r IH]; simpl; [reflexivity|]. now rewrite IH.
Qed.

Lemma trim_app_not_blank (a b : string) :
  JSString.trim b <> "" -> JSString.trim (a ++ b) <> "".
Proof.
  intros Hb H. apply Hb. apply trim_blank. apply trim_blank in H.
  rewrite list_ascii_app, forallb_app in H.
  apply andb_true_iff in H. tauto.
Qed.

Lemma string_length_app (a b : string) :
  JSString.length (a ++ b) = (JSString.length a + JSString.length b)%Z.
Proof.
  unfold JSString.length.
  induction a as [|c r IH]; simpl String.length.
  - simpl. lia.
  - change ((String c r ++ b)%string) with (String c (r ++ b)%string).
    simpl String.length. lia.
Qed.

Lemma eqb_false_iff_neq (a b : string) : (a =? b) = false <-> a <> b.
Proof. apply String.eqb_neq. Qed.

Lemma truthy_true (s : string) : JSString.truthy s = true <-> s <> "".
Proof.
  unfold JSString.truthy. rewrite negb_true_iff. apply String.eqb_neq.
Qed.

Lemma orElse_Some (s d : string) :
  JSString.orElse (Some s) d = if s =? "" then d else s.
Proof.
  unfold JSString.orElse, JSString.truthy. now destruct (s =? "").
Qed.

Lemma toLowerCase_empty (s : string) : JSString.toLowerCase s = "" <-> s = "".
Proof. destruct s; simpl; split; congruence. Qed.

Lemma includes_empty_hay (q : string) : q <> "" -> JSString.includes "" q = false.
Proof. destruct q; [congruence|reflexivity]. Qed.

(** ** Relevance score *)

Lemma trim_not_blank_nonempty (q : string) : JSString.trim q <> "" -> q <> "".
Proof. intros H E. subst q. apply H. reflexivity. Qed.

(** The guard [field && ...] of the loop over notes, author and model adds
    nothing: an empty field contains no non-empty query. *)
Lemma guarded_contains (field q : string) :
  q <> "" ->
  JSString.truthy field
  && JSString.includes (JSString.toLowerCase field) (JSString.toLowerCase q)
  = Spec.contains field q.
Proof.
  intros Hq. unfold Spec.contains.
  destruct field as [|c r]; [|reflexivity].
  simpl JSString.truthy. simpl andb. simpl JSString.toLowerCase.
  symmetry. apply includes_empty_hay.
  intros E. apply Hq. apply (proj1 (toLowerCase_empty q)). exact E.
Qed.

(** C8 (as amended). For every record and every query that is not blank
    (not empty once trimmed), the relevance score is the minimum of 100 and
    50 for a title that contains the query, 25 more for a title that starts
    with it, 20 for the body, 15 for the comma-joined tags and 5 for each of
    notes, author and model; for a blank query the score is 0; so the score
    never exceeds 100, whatever the query. *)
Theorem getSearchRelevance_weights (q : string) (p : Prompt.t) :
  (JSString.trim q <> "" ->
   Prompt.getSearchRelevance q p = Spec.relevanceScore q p)
  /\ (JSString.trim q = "" -> Prompt.getSearchRelevance q p = 0%Z)
  /\ (Prompt.getSearchRelevance q p <= 100)%Z.
Proof.
  assert (Hblank : JSString.trim q = "" -> Prompt.getSearchRelevance q p = 0%Z).
  { intros Hq. unfold Prompt.getSearchRelevance. rewrite Hq.
    cbn [String.eqb]. now rewrite orb_true_r. }
  assert (Hweights : JSString.trim q <> "" ->
                     Prompt.getSearchRelevance q p = Spec.relevanceScore q p).
  { intros Hq.
    assert (Hne : q <> "") by (apply trim_not_blank_nonempty; exact Hq).
    unfold Prompt.getSearchRelevance, Spec.relevanceScore.
    apply truthy_true in Hne. rewrite Hne.
    apply String.eqb_neq in Hq. rewrite Hq.
    cbn [negb orb fold_left].
    rewrite !(guarded_contains _ q) by (apply truthy_true; exact Hne).
    unfold Prompt.getTagsString, Spec.startsWith, Spec.contains, Spec.weight.
    destruct (JSString.includes (JSString.toLowerCase (Prompt.title p)) _);
      destruct (JSString.startsWith (JSString.toLowerCase (Prompt.title p)) _);
      destruct (JSString.includes (JSString.toLowerCase (Prompt.prompt p)) _);
      destruct (JSString.includes (JSString.toLowerCase (JSString.join _ _)) _);
      destruct (JSString.includes (JSString.toLowerCase (Prompt.notes p)) _);
      destruct (JSString.includes (JSString.toLowerCase (Prompt.author p)) _);
      destruct (JSString.includes (JSString.toLowerCase (Prompt.model p)) _);
      reflexivity. }
  split; [exact Hweights|]. split; [exact Hblank|].
  destruct (string_dec (JSString.trim q) "") as [Hq|Hq].
  - rewrite (Hblank Hq). lia.
  - rewrite (Hweights Hq). unfold Spec.relevanceScore. apply Z.le_min_l.
Qed.

Lemma getSearchRelevance_weights_witness :
  JSString.trim "JAVA" <> ""
  /\ Prompt.getSearchRelevance "JAVA" Sample.codeReview = 15%Z
  /\ Prompt.getSearchRelevance "  " Sample.codeReview = 0%Z.
Proof.
  split; [discriminate|]. split.
  - rewrite (proj1 (getSearchRelevance_weights "JAVA" Sample.codeReview)
                   ltac:(discriminate)).
    reflexivity.
  - apply (proj1 (proj2 (getSearchRelevance_weights "  " Sample.codeReview))).
    reflexivity.
Defined.

(** C8 (as stated) fails on a query of white space: [" "] is not empty and
    the title, the body and the tags of the record contain it, yet the
    score is 0 and not 85. *)
Lemma getSearchRelevance_blank_query :
  " " <> ""
  /\ Spec.contains (Prompt.title Sample.codeReview) " " = true
  /\ Prompt.getSearchRelevance " " Sample.codeReview = 0%Z
  /\ Spec.relevanceScore " " Sample.codeReview = 85%Z.
Proof. repeat split; discriminate || reflexivity. Qed.

(** ** [update]: the assignments written out *)

Lemma assign_string (field : string) (o : option string) (this : Prompt.t) :
  match option_map VString o with
  | Some v => Prompt.setProp field v this
  | None => this
  end
  = match o with
    | Some s => Prompt.setProp field (VString s) this
    | None => this
    end.
Proof. now destruct o. Qed.

Lemma assign_strings (field : string) (o : option (list string)) (this : Prompt.t) :
  match option_map VStrings o with
  | Some v => Prompt.setProp field v this
  | None => this
  end
  = match o with
    | Some l => Prompt.setProp field (VStrings l) this
    | None => this
    end.
Proof. now destruct o. Qed.

Lemma assign_bool (field : string) (o : option bool) (this : Prompt.t) :
  match option_map VBool o with
  | Some v => Prompt.setProp field v this
  | None => this
  end
  = match o with
    | Some b => Prompt.setProp field (VBool b) this
    | None => this
    end.
Proof. now destruct o. Qed.

Lemma orKeep_title : forall o p,
  match o with Some s => Prompt.set_title s p | None => p end
  = Prompt.set_title (Data.orKeep o (Prompt.title p)) p.
Proof. setter_orKeep. Qed.

Lemma orKeep_type : forall o p,
  match o with Some s => Prompt.set_type s p | None => p end
  = Prompt.set_type (Data.orKeep o (Prompt.type p)) p.
Proof. setter_orKeep. Qed.

Lemma orKeep_prompt : forall o p,
  match o with Some s => Prompt.set_prompt s p | None => p end
  = Prompt.set_prompt (Data.orKeep o (Prompt.prompt p)) p.
Proof. setter_orKeep. Qed.

Lemma orKeep_negative_prompt : forall o p,
  match o with Some s => Prompt.set_negative_prompt s p | None => p end
  = Prompt.set_negative_prompt (Data.orKeep o (Prompt.negative_prompt p)) p.
Proof. setter_orKeep. Qed.

Lemma orKeep_model : forall o p,
  match o with Some s => Prompt.set_model s p | None => p end
  = Prompt.set_model (Data.orKeep o (Prompt.model p)) p.
Proof. setter_orKeep. Qed.

Lemma orKeep_author : forall o p,
  match o with Some s => Prompt.set_author s p | None => p end
  = Prompt.set_author (Data.orKeep o (Prompt.author p)) p.
Proof. setter_orKeep. Qed.

Lemma orKeep_tags : forall o p,
  match o with Some s => Prompt.set_tags s p | None => p end
  = Prompt.set_tags (Data.orKeep o (Prompt.tags p)) p.
Proof. setter_orKeep. Qed.

Lemma orKeep_notes : forall o p,
  match o with Some s => Prompt.set_notes s p | None => p end
  = Prompt.set_notes (Data.orKeep o (Prompt.notes p)) p.
Proof. setter_orKeep. Qed.

Lemma orKeep_version : forall o p,
  match o with Some s => Prompt.set_version s p | None => p end
  = Prompt.set_version (Data.orKeep o (Prompt.version p)) p.
Proof. setter_orKeep. Qed.

Lemma orKeep_category : forall o p,
  match o with Some s => Prompt.set_category s p | None => p end
  = Prompt.set_category (Data.orKeep o (Prompt.category p)) p.
Proof. setter_orKeep. Qed.

Lemma orKeep_isFavorite : forall o p,
  match o with Some s => Prompt.set_isFavorite s p | None => p end
  = Prompt.set_isFavorite (Data.orKeep o (Prompt.isFavorite p)) p.
Proof. setter_orKeep. Qed.

(** The loop over [allowedFields] followed by the refresh of [modified], as
    one record. *)
Lemma updateFields_explicit (today : string) (data : Data.t) (p : Prompt.t) :
  Prompt.updateFields today data p =
  Prompt.mk (Prompt.id p)
    (Data.orKeep (Data.title data) (Prompt.title p))
    (Data.orKeep (Data.type data) (Prompt.type p))
    (Data.orKeep (Data.prompt data) (Prompt.prompt p))
    (Data.orKeep (Data.negative_prompt data) (Prompt.negative_prompt p))
    (Data.orKeep (Data.model data) (Prompt.model p))
    (Data.orKeep (Data.author data) (Prompt.author p))
    (Data.orKeep (Data.tags data) (Prompt.tags p))
    (Data.orKeep (Data.notes data) (Prompt.notes p))
    (Data.orKeep (Data.version data) (Prompt.version p))
    (Prompt.created p)
    today
    (Data.orKeep (Data.category data) (Prompt.category p))
    (Data.orKeep (Data.isFavorite data) (Prompt.isFavorite p)).
Proof.
  unfold Prompt.updateFields, Prompt.allowedFields.
  cbn [fold_left].
  unfold Data.getProp. cbn [String.eqb Ascii.eqb Bool.eqb andb].
  rewrite !assign_string, assign_strings, assign_bool.
  cbn [Prompt.setProp String.eqb Ascii.eqb Bool.eqb andb].
  rewrite orKeep_title, orKeep_type, orKeep_prompt, orKeep_negative_prompt,
    orKeep_model, orKeep_author, orKeep_tags, orKeep_notes, orKeep_version,
    orKeep_category, orKeep_isFavorite.
  reflexivity.
Qed.

Lemma option_map_inj {A B} (f : A -> B) (o o' : option A) :
  (forall a a', f a = f a' -> a = a') -> option_map f o = option_map f o' -> o = o'.
Proof.
  intros Hf. destruct o, o'; simpl; intros H; try discriminate; [|reflexivity].
  injection H as H. apply Hf in H. now subst.
Qed.

Lemma VString_inj (a b : string) : VString a = VString b -> a = b.
Proof. congruence. Qed.

Lemma VStrings_inj (a b : list string) : VStrings a = VStrings b -> a = b.
Proof. congruence. Qed.

Lemma VBool_inj (a b : bool) : VBool a = VBool b -> a = b.
Proof. congruence. Qed.


Lemma getProp_outside_allowList (field : string) (today : string)
      (data : Data.t) (p : Prompt.t) :
  ~ In field Prompt.allowedFields -> field <> "modified" ->
  Prompt.getProp field (Prompt.updateFields today data p) = Prompt.getProp field p.
Proof.
  intros Hout Hmod. rewrite updateFields_explicit.
  unfold Prompt.getProp, Prompt.allowedFields in *. simpl In in Hout.
  repeat match goal with
         | |- context [String.eqb field ?name] =>
             destruct (String.eqb_spec field name) as [E|_];
             [ try reflexivity; exfalso;
               first [ apply Hmod; exact E | symmetry in E; tauto ] | ]
         end.
  reflexivity.
Qed.

Lemma getProp_absent_kept (field : string) (today : string)
      (data : Data.t) (p : Prompt.t) :
  In field Prompt.allowedFields -> Data.hasOwnProperty field data = false ->
  Prompt.getProp field (Prompt.updateFields today data p) = Prompt.getProp field p.
Proof.
  intros Hin Habs. rewrite updateFields_explicit.
  unfold Data.hasOwnProperty in Habs.
  each_allowed Hin; cbn in Habs |- *;
    match type of Habs with
    | context [option_map _ ?o] => destruct o; [discriminate Habs|reflexivity]
    end.
Qed.

Lemma getProp_present_assigned (field : string) (v : Value) (today : string)
      (data : Data.t) (p : Prompt.t) :
  In field Prompt.allowedFields -> Data.getProp field data = Some v ->
  Prompt.getProp field (Prompt.updateFields today data p) = Some v.
Proof.
  intros Hin Hv. rewrite updateFields_explicit.
  each_allowed Hin; cbn in Hv |- *;
    match type of Hv with
    | context [option_map _ ?o] => destruct o; [|discriminate Hv]
    end; cbn in Hv |- *; exact Hv.
Qed.

Lemma updateFields_reads_allowList (today : string) (data data' : Data.t) (p : Prompt.t) :
  (forall field, In field Prompt.allowedFields ->
                 Data.getProp field data' = Data.getProp field data) ->
  Prompt.updateFields today data' p = Prompt.updateFields today data p.
Proof.
  intros H. rewrite !updateFields_explicit.
  assert (In_ : forall f, In f Prompt.allowedFields ->
                          Data.getProp f data' = Data.getProp f data) by exact H.
  pose proof (H "title" ltac:(simpl; tauto)) as H1.
  pose proof (H "type" ltac:(simpl; tauto)) as H2.
  pose proof (H "prompt" ltac:(simpl; tauto)) as H3.
  pose proof (H "negative_prompt" ltac:(simpl; tauto)) as H4.
  pose proof (H "model" ltac:(simpl; tauto)) as H5.
  pose proof (H "author" ltac:(simpl; tauto)) as H6.
  pose proof (H "tags" ltac:(simpl; tauto)) as H7.
  pose proof (H "notes" ltac:(simpl; tauto)) as H8.
  pose proof (H "version" ltac:(simpl; tauto)) as H9.
  pose proof (H "category" ltac:(simpl; tauto)) as H10.
  pose proof (H "isFavorite" ltac:(simpl; tauto)) as H11.
  cbn in H1, H2, H3, H4, H5, H6, H7, H8, H9, H10, H11.
  apply (option_map_inj _ _ _ VString_inj) in H1, H2, H3, H4, H5, H6, H8, H9, H10.
  apply (option_map_inj _ _ _ VStrings_inj) in H7.
  apply (option_map_inj _ _ _ VBool_inj) in H11.
  congruence.
Qed.

Lemma update_inherited {dates : DateParser} (today : string) (data : Data.t)
      (p : Prompt.t) :
  Data.getProp "hasOwnProperty" data = None ->
  Prompt.update today data p
  = (Prompt.updateFields today data p,
     Prompt.validate (Prompt.updateFields today data p)).
Proof. intros H. unfold Prompt.update. rewrite H. reflexivity. Qed.

Lemma update_shadowed {dates : DateParser} (today : string) (data : Data.t)
      (p : Prompt.t) (v : Value) :
  Data.getProp "hasOwnProperty" data = Some v ->
  Prompt.update today data p
  = (p, Throw "TypeError: data.hasOwnProperty is not a function").
Proof. intros H. unfold Prompt.update. rewrite H. reflexivity. Qed.


Example update_ignores_unlisted :
  @Prompt.update Sample.isoDates "2024-05-05" Sample.relabel Sample.codeReview
  = (Prompt.set_modified "2024-05-05" (Prompt.set_category "productivity" Sample.codeReview),
     Return tt).
Proof. vm_compute. reflexivity. Qed.

(** C10. When [update(data)] throws a validation error, the receiver is
    left as the assignments made it: every allow-listed property of [data]
    has been written, the modified date is the current date, and the error
    thrown is that of validating this mutated record. Nothing is rolled
    back: the receiver differs from what it was as soon as [data] changes
    one allow-listed field. *)
Theorem update_failure_keeps_mutation {dates : DateParser}
        (today : string) (data : Data.t) (p : Prompt.t) (detail : string) :
  let message := ("Validation failed: " ++ detail)%string in
  snd (Prompt.update today data p) = Throw message ->
  let p' := fst (Prompt.update today data p) in
  p' = Prompt.updateFields today data p
  /\ Prompt.modified p' = today
  /\ (forall field v, In field Prompt.allowedFields ->
                      Data.getProp field data = Some v ->
                      Prompt.getProp field p' = Some v)
  /\ Prompt.validate p' = Throw message
  /\ (forall field v, In field Prompt.allowedFields ->
                      Data.getProp field data = Some v ->
                      Prompt.getProp field p <> Some v ->
                      p' <> p).
Proof.
  cbv zeta. intros Hthrow.
  destruct (Data.getProp "hasOwnProperty" data) as [v|] eqn:Hown.
  { rewrite (update_shadowed today data p v Hown) in Hthrow.
    cbn [snd] in Hthrow. simpl in Hthrow. discriminate Hthrow. }
  rewrite (update_inherited today data p Hown) in Hthrow |- *.
  cbn [fst snd] in Hthrow |- *.
  split; [reflexivity|].
  split; [rewrite updateFields_explicit; reflexivity|].
  split; [intros field v; apply getProp_present_assigned|].
  split; [exact Hthrow|].
  intros field v Hin Hv Hold Hsame. apply Hold.
  rewrite <- Hsame. apply getProp_present_assigned; assumption.
Qed.

Lemma update_failure_keeps_mutation_witness :
  snd (@Prompt.update Sample.isoDates "2024-05-05" Sample.blankTitle Sample.codeReview)
  = Throw "Validation failed: Field 'title' is required"
  /\ Prompt.title Sample.codeReview = "AI Code Review"
  /\ Prompt.title
       (fst (@Prompt.update Sample.isoDates "2024-05-05" Sample.blankTitle Sample.codeReview))
     = ""
  /\ Prompt.modified
       (fst (@Prompt.update Sample.isoDates "2024-05-05" Sample.blankTitle Sample.codeReview))
     = "2024-05-05".
Proof.
  assert (Hthrow :
            snd (@Prompt.update Sample.isoDates "2024-05-05" Sample.blankTitle
                                Sample.codeReview)
            = Throw ("Validation failed: " ++ "Field 'title' is required"))
    by (vm_compute; reflexivity).
  destruct (@update_failure_keeps_mutation Sample.isoDates "2024-05-05"
              Sample.blankTitle Sample.codeReview _ Hthrow)
    as (Hstate & Hmodified & _ & _ & _).
  split; [exact Hthrow|].
  split; [reflexivity|].
  split; [rewrite Hstate; reflexivity|exact Hmodified].
Defined.

(** ** Validation *)

Lemma cond_app_nil {A : Type} (c : bool) (m : A) (l : list A) :
  (if c then [m] else []) ++ l = [] <-> c = false /\ l = [].
Proof.
  destruct c; simpl; split.
  - discriminate.
  - intros [H _]. discriminate.
  - intros H. split; [reflexivity|exact H].
  - intros [_ H]. exact H.
Qed.

Lemma cond_nil {A : Type} (c : bool) (m : A) :
  (if c then [m] else []) = [] <-> c = false.
Proof.
  destruct c; simpl; split; try discriminate; reflexivity.
Qed.

Lemma validate_Return {dates : DateParser} (p : Prompt.t) :
  Prompt.validate p = Return tt <-> Prompt.validationErrors p = [].
Proof.
  unfold Prompt.validate.
  destruct (Prompt.validationErrors p); split; try discriminate; reflexivity.
Qed.

Lemma validationErrors_passes {dates : DateParser} (p : Prompt.t) :
  Prompt.validationErrors p = [] <-> Prompt.passes p = true.
Proof.
  unfold Prompt.validationErrors, Prompt.passes, Prompt.REQUIRED_FIELDS, Prompt.requiredOk.
  cbn [flat_map Prompt.getProp String.eqb Ascii.eqb Bool.eqb andb Prompt.falsy].
  rewrite app_nil_r, <- !app_assoc.
  rewrite !cond_app_nil, cond_nil.
  rewrite !andb_true_iff, !negb_true_iff.
  rewrite !orb_false_iff, !negb_false_iff.
  tauto.
Qed.

Lemma validate_passes {dates : DateParser} (p : Prompt.t) :
  Prompt.validate p = Return tt <-> Prompt.passes p = true.
Proof. rewrite validate_Return. apply validationErrors_passes. Qed.

(** [new Prompt(data)] returns the record it has assembled when that
    record passes the checks. *)
Lemma new_passes {dates : DateParser} (fresh today : string) (data : Data.t) (q : Prompt.t) :
  q = Prompt.mk (JSString.orElse (Data.id data) fresh)
                (JSString.orElse (Data.title data) "")
                (JSString.orElse (Data.type data) Prompt.TEXT_GENERATION)
                (JSString.orElse (Data.prompt data) "")
                (JSString.orElse (Data.negative_prompt data) "")
                (JSString.orElse (Data.model data) "")
                (JSString.orElse (Data.author data) "")
                (match Data.tags data with Some l => l | None => [] end)
                (JSString.orElse (Data.notes data) "")
                (JSString.orElse (Data.version data) "1.0")
                (JSString.orElse (Data.created data) today)
                (JSString.orElse (Data.modified data) today)
                (JSString.orElse (Data.category data) "")
                (match Data.isFavorite data with Some b => b | None => false end) ->
  Prompt.passes q = true ->
  Prompt.new fresh today data = Return q.
Proof.
  intros Hq Hpass. unfold Prompt.new. rewrite <- Hq.
  apply validate_passes in Hpass. rewrite Hpass. reflexivity.
Qed.

Lemma orElse_same (s : string) : JSString.orElse (Some s) "" = s.
Proof.
  rewrite orElse_Some. destruct (String.eqb_spec s ""); congruence.
Qed.

Lemma orElse_truthy (s d : string) :
  JSString.truthy s = true -> JSString.orElse (Some s) d = s.
Proof. intros H. unfold JSString.orElse. now rewrite H. Qed.

Lemma requiredOk_truthy (s : string) :
  Prompt.requiredOk s = true -> JSString.truthy s = true.
Proof. unfold Prompt.requiredOk. intros H. apply andb_true_iff in H. tauto. Qed.

Lemma requiredOk_suffix (s suffix : string) :
  JSString.trim suffix <> "" -> Prompt.requiredOk (s ++ suffix) = true.
Proof.
  intros Hsuffix. unfold Prompt.requiredOk.
  assert (Htrim : JSString.trim (s ++ suffix) <> "")
    by (apply trim_app_not_blank; exact Hsuffix).
  apply andb_true_iff. split.
  - apply truthy_true. apply trim_not_blank_nonempty. exact Htrim.
  - apply negb_true_iff. apply String.eqb_neq. exact Htrim.
Qed.

(** What the constructor makes of a version read from a plain object. *)
Lemma version_default_passes (v : string) :
  JSString.truthy v && negb (Prompt.versionPattern v) = false ->
  let v' := if v =? "" then "1.0" else v in
  JSString.orElse (Some v) "1.0" = v'
  /\ JSString.truthy v' && negb (Prompt.versionPattern v') = false.
Proof.
  intros H. cbn zeta. rewrite orElse_Some.
  destruct (String.eqb_spec v ""); [split; reflexivity|split; [reflexivity|exact H]].
Qed.

(** The parts of [passes], by name. *)
Lemma passes_parts {dates : DateParser} (p : Prompt.t) :
  Prompt.passes p = true <->
  Prompt.requiredOk (Prompt.title p) = true
  /\ Prompt.requiredOk (Prompt.type p) = true
  /\ Prompt.requiredOk (Prompt.prompt p) = true
  /\ existsb (String.eqb (Prompt.type p)) Prompt.TYPES = true
  /\ JSString.truthy (Prompt.title p) && (JSString.length (Prompt.title p) >? 200)%Z = false
  /\ JSString.truthy (Prompt.prompt p) && (JSString.length (Prompt.prompt p) >? 10000)%Z = false
  /\ (Z.of_nat (List.length (Prompt.tags p)) >? 20)%Z = false
  /\ JSString.truthy (Prompt.version p) && negb (Prompt.versionPattern (Prompt.version p)) = false
  /\ JSString.truthy (Prompt.created p) && negb (Prompt.isValidDate (Prompt.created p)) = false
  /\ JSString.truthy (Prompt.modified p) && negb (Prompt.isValidDate (Prompt.modified p)) = false.
Proof.
  unfold Prompt.passes. rewrite !andb_true_iff, !negb_true_iff. tauto.
Qed.

(** The constructor and [update] leave both dates set. *)
Lemma orElse_nonempty (x : option string) (d : string) :
  d <> "" -> JSString.orElse x d <> "".
Proof.
  intros Hd. unfold JSString.orElse. destruct x as [s|]; [|exact Hd].
  destruct (JSString.truthy s) eqn:E; [apply truthy_true; exact E|exact Hd].
Qed.

Lemma new_dated {dates : DateParser} (fresh today : string) (data : Data.t) (p : Prompt.t) :
  today <> "" ->
  Prompt.new fresh today data = Return p ->
  Prompt.created p <> "" /\ Prompt.modified p <> "".
Proof.
  intros Htoday. unfold Prompt.new.
  match goal with |- context [Prompt.validate ?r] => destruct (Prompt.validate r) end;
    cbn [bindC]; [|discriminate].
  intros H. injection H as H. subst p. cbn [Prompt.created Prompt.modified].
  split; apply orElse_nonempty; exact Htoday.
Qed.

Lemma update_dated {dates : DateParser} (today : string) (data : Data.t) (p : Prompt.t) :
  today <> "" ->
  Prompt.created p <> "" ->
  Prompt.modified p <> "" ->
  Prompt.created (fst (Prompt.update today data p)) <> ""
  /\ Prompt.modified (fst (Prompt.update today data p)) <> "".
Proof.
  intros Htoday Hcreated Hmodified. unfold Prompt.update.
  destruct (Data.getProp "hasOwnProperty" data); cbn [fst]; [tauto|].
  rewrite updateFields_explicit. cbn [Prompt.created Prompt.modified]. tauto.
Qed.

(** ** [clone] *)

(** C3 (as amended). For every record that passes validation, has its two
    dates set and a title of at most 193 characters, [clone()] returns a
    record whose identifier is the value that [generateId()] returns during
    the call, whose title is the original title followed by [" (Copy)"], and
    whose other fields are the original's, an empty version being replaced
    by ["1.0"]. Nothing compares the new identifier with the original's:
    the two are equal exactly when [generateId()] returns the original's
    identifier once more. *)
Theorem clone_copies {dates : DateParser} (fresh today : string) (p : Prompt.t) :
  Prompt.validate p = Return tt ->
  (JSString.length (Prompt.title p) <= 193)%Z ->
  Prompt.created p <> "" ->
  Prompt.modified p <> "" ->
  Prompt.clone fresh today p
  = Return (Prompt.mk fresh
                      (Prompt.title p ++ " (Copy)")
                      (Prompt.type p) (Prompt.prompt p) (Prompt.negative_prompt p)
                      (Prompt.model p) (Prompt.author p) (Prompt.tags p)
                      (Prompt.notes p)
                      (if Prompt.version p =? "" then "1.0" else Prompt.version p)
                      (Prompt.created p) (Prompt.modified p)
                      (Prompt.category p) (Prompt.isFavorite p))
  /\ (forall q, Prompt.clone fresh today p = Return q ->
                (Prompt.id q = Prompt.id p <-> fresh = Prompt.id p)).
Proof.
  intros Hvalid Hlen Hcreated Hmodified.
  apply validate_passes, passes_parts in Hvalid.
  destruct Hvalid as (Ht & Hty & Hpr & Htypes & Htl & Hpl & Htags & Hv & Hc & Hm).
  destruct (version_default_passes _ Hv) as [Hver Hver'].
  assert (Hclone :
            Prompt.clone fresh today p
            = Return (Prompt.mk fresh
                        (Prompt.title p ++ " (Copy)")
                        (Prompt.type p) (Prompt.prompt p) (Prompt.negative_prompt p)
                        (Prompt.model p) (Prompt.author p) (Prompt.tags p)
                        (Prompt.notes p)
                        (if Prompt.version p =? "" then "1.0" else Prompt.version p)
                        (Prompt.created p) (Prompt.modified p)
                        (Prompt.category p) (Prompt.isFavorite p))).
  { unfold Prompt.clone. apply new_passes.
    - cbn [Prompt.toObject Data.id Data.title Data.type Data.prompt Data.negative_prompt
           Data.model Data.author Data.tags Data.notes Data.version Data.created
           Data.modified Data.category Data.isFavorite option_map].
      rewrite Hver.
      rewrite !orElse_same.
      rewrite (orElse_truthy (Prompt.type p)) by (apply requiredOk_truthy; exact Hty).
      rewrite (orElse_truthy (Prompt.created p)) by (apply truthy_true; exact Hcreated).
      rewrite (orElse_truthy (Prompt.modified p)) by (apply truthy_true; exact Hmodified).
      reflexivity.
    - apply passes_parts. cbn [Prompt.title Prompt.type Prompt.prompt Prompt.tags
                                 Prompt.version Prompt.created Prompt.modified].
      split; [apply requiredOk_suffix; discriminate|].
      split; [exact Hty|]. split; [exact Hpr|]. split; [exact Htypes|].
      split.
      { apply andb_false_iff. right. rewrite Z.gtb_ltb. apply Z.ltb_ge.
        rewrite string_length_app. change (JSString.length " (Copy)") with 7%Z. lia. }
      split; [exact Hpl|]. split; [exact Htags|]. split; [exact Hver'|].
      split; [exact Hc|exact Hm]. }
  split; [exact Hclone|].
  intros q Hq. rewrite Hclone in Hq. injection Hq as Hq. subst q. reflexivity.
Qed.

Lemma clone_copies_witness :
  @Prompt.validate Sample.isoDates Sample.codeReview = Return tt
  /\ (JSString.length (Prompt.title Sample.codeReview) <= 193)%Z
  /\ option_map Prompt.title
       (match @Prompt.clone Sample.isoDates "prompt-9-z" "2024-03-03" Sample.codeReview with
        | Return q => Some q
        | Throw _ => None
        end)
     = Some "AI Code Review (Copy)".
Proof.
  split; [reflexivity|]. split; [vm_compute; discriminate|].
  rewrite (proj1 (@clone_copies Sample.isoDates "prompt-9-z" "2024-03-03" Sample.codeReview
                    eq_refl ltac:(vm_compute; discriminate)
                    ltac:(discriminate) ltac:(discriminate))).
  reflexivity.
Defined.

(** A record whose version [update] has emptied is still valid. *)
Example update_empties_version :
  @Prompt.update Sample.isoDates "2024-02-01"
    (Data.mk None None None None None None None None None (Some "") None None None None [])
    Sample.recruiter
  = (Prompt.set_version "" Sample.recruiter, Return tt).
Proof. vm_compute. reflexivity. Qed.

(** C3 (as stated) fails on a valid record whose title has 194 characters:
    the copy's title has 201, the constructor's validation refuses it, and
    [clone()] throws instead of producing a record. It fails as well on a
    valid record whose version is empty: the copy has version ["1.0"]. And
    it fails when [Date.now()] and [Math.random()] give [generateId()] the
    values that they gave it for the original: the copy then has the
    original's identifier. *)
Lemma clone_long_title_throws :
  (@Prompt.validate Sample.isoDates Sample.longTitled = Return tt
   /\ JSString.length (Prompt.title Sample.longTitled) = 194%Z
   /\ @Prompt.clone Sample.isoDates "prompt-9-z" "2024-03-03" Sample.longTitled
      = Throw "Validation failed: Title must be 200 characters or less")
  /\ (@Prompt.validate Sample.isoDates (Prompt.set_version "" Sample.recruiter) = Return tt
      /\ @Prompt.clone Sample.isoDates "prompt-9-z" "2024-03-03"
           (Prompt.set_version "" Sample.recruiter)
         = Return (Prompt.set_id "prompt-9-z"
                     (Prompt.set_title "Recruiter (Copy)"
                        (Prompt.set_version "1.0" Sample.recruiter))))
  /\ (@Prompt.validate Sample.isoDates Sample.generated = Return tt
      /\ Prompt.id Sample.generated = Prompt.generateId 1709460000000 "k3x9q2m1z"
      /\ exists q,
           @Prompt.clone Sample.isoDates (Prompt.generateId 1709460000000 "k3x9q2m1z")
             "2024-03-03" Sample.generated
           = Return q
           /\ Prompt.id q = Prompt.id Sample.generated).
Proof.
  repeat split; try (vm_compute; reflexivity).
  eexists. split; vm_compute; reflexivity.
Qed.

(** ** YAML round trip *)

Lemma orElse_keepString (s d : string) :
  JSString.orElse (Prompt.keepString s) d = JSString.orElse (Some s) d.
Proof.
  unfold Prompt.keepString. rewrite orElse_Some.
  destruct (s =? "") eqn:E; [reflexivity|].
  rewrite orElse_Some, E. reflexivity.
Qed.

Lemma keepStrings_default (l : list string) :
  match Prompt.keepStrings l with Some l' => l' | None => [] end = l.
Proof. now destruct l. Qed.

Lemma spread_empty (d : Data.t) : Data.spread d Data.empty = d.
Proof. now destruct d. Qed.

(** C1 (as amended). For every record that passes validation and has its
    two dates set, parsing the YAML text of the record with no metadata
    gives a record with the same title, type, body, negative body, model,
    author, tags, notes and dates, and with the same version unless that
    was empty, in which case it is ["1.0"]; the identifier, the category
    and the favorite flag are not part of the text: the identifier is a
    newly generated one, the category is empty and the flag is false. *)
Theorem fromYAML_toYAML {dates : DateParser} {yaml : JsYaml}
        (fresh today : string) (p : Prompt.t) :
  Prompt.validate p = Return tt ->
  Prompt.created p <> "" ->
  Prompt.modified p <> "" ->
  Prompt.fromYAML fresh today (Prompt.toYAML p) Data.empty
  = Return (Prompt.mk fresh
                      (Prompt.title p) (Prompt.type p) (Prompt.prompt p)
                      (Prompt.negative_prompt p) (Prompt.model p) (Prompt.author p)
                      (Prompt.tags p) (Prompt.notes p)
                      (if Prompt.version p =? "" then "1.0" else Prompt.version p)
                      (Prompt.created p) (Prompt.modified p)
                      "" false).
Proof.
  intros Hvalid Hcreated Hmodified.
  apply validate_passes, passes_parts in Hvalid.
  destruct Hvalid as (Ht & Hty & Hpr & Htypes & Htl & Hpl & Htags & Hv & Hc & Hm).
  destruct (version_default_passes _ Hv) as [Hver Hver'].
  unfold Prompt.fromYAML, Prompt.toYAML.
  rewrite load_dump. cbn [bindC]. rewrite spread_empty.
  rewrite (new_passes fresh today (Prompt.yamlData p)
             (Prompt.mk fresh
                (Prompt.title p) (Prompt.type p) (Prompt.prompt p)
                (Prompt.negative_prompt p) (Prompt.model p) (Prompt.author p)
                (Prompt.tags p) (Prompt.notes p)
                (if Prompt.version p =? "" then "1.0" else Prompt.version p)
                (Prompt.created p) (Prompt.modified p)
                "" false)).
  - reflexivity.
  - cbn [Prompt.yamlData Data.id Data.title Data.type Data.prompt Data.negative_prompt
         Data.model Data.author Data.tags Data.notes Data.version Data.created
         Data.modified Data.category Data.isFavorite].
    rewrite !orElse_keepString, keepStrings_default, Hver, !orElse_same.
    rewrite (orElse_truthy (Prompt.type p)) by (apply requiredOk_truthy; exact Hty).
    rewrite (orElse_truthy (Prompt.created p)) by (apply truthy_true; exact Hcreated).
    rewrite (orElse_truthy (Prompt.modified p)) by (apply truthy_true; exact Hmodified).
    reflexivity.
  - apply passes_parts.
    cbn [Prompt.title Prompt.type Prompt.prompt Prompt.tags
         Prompt.version Prompt.created Prompt.modified].
    repeat (split; [assumption|]). assumption.
Qed.

Lemma fromYAML_toYAML_witness :
  @Prompt.validate Sample.isoDates Sample.recruiter = Return tt
  /\ @Prompt.fromYAML Sample.isoDates Sample.structuralYaml "prompt-9-z" "2024-03-03"
       (@Prompt.toYAML Sample.structuralYaml Sample.recruiter) Data.empty
     = Return (Prompt.mk "prompt-9-z" "Recruiter" "text_generation" "Write a job post"
                 "" "" "" [] "" "2.1.0" "2024-02-01" "2024-02-01" "" false).
Proof.
  split; [reflexivity|].
  rewrite (@fromYAML_toYAML Sample.isoDates Sample.structuralYaml
             "prompt-9-z" "2024-03-03" Sample.recruiter
             eq_refl ltac:(discriminate) ltac:(discriminate)).
  reflexivity.
Defined.

(** C1 (as stated) fails on a favorite filed under a category: the text
    carries neither the category nor the flag nor the identifier, so the
    record parsed back is uncategorized, not a favorite, and has another
    identifier. *)
Lemma fromYAML_toYAML_drops_category :
  Prompt.category Sample.codeReview = "linguaggi/java"
  /\ Prompt.isFavorite Sample.codeReview = true
  /\ Prompt.id Sample.codeReview = "prompt-1-a"
  /\ exists q,
      @Prompt.fromYAML Sample.isoDates Sample.structuralYaml "prompt-9-z" "2024-03-03"
        (@Prompt.toYAML Sample.structuralYaml Sample.codeReview) Data.empty
      = Return q
      /\ Prompt.category q = ""
      /\ Prompt.isFavorite q = false
      /\ Prompt.id q = "prompt-9-z".
Proof.
  repeat (split; [reflexivity|]).
  eexists. repeat split; reflexivity.
Qed.

(** ** Plain objects: the order of [Object.entries] *)

Section ObjectFacts.
Context {V : Type}.
Implicit Types (m : JSMap.t V) (k : string).

Lemma get_app k (a b : JSMap.t V) :
  JSMap.get k (a ++ b)
  = match JSMap.get k a with
    | Some v => Some v
    | None => JSMap.get k b
    end.
Proof.
  induction a as [|[k' v'] r IH]; simpl; [reflexivity|].
  destruct (k =? k'); [reflexivity|exact IH].
Qed.

Lemma get_filter_keys (f : string -> bool) k m :
  JSMap.get k (filter (fun kv => f (fst kv)) m)
  = if f k then JSMap.get k m else None.
Proof.
  induction m as [|[k' v'] r IH]; simpl; [now destruct (f k)|].
  destruct (f k') eqn:Hk'; simpl; rewrite IH.
  - destruct (String.eqb_spec k k') as [->|_]; [now rewrite Hk'|reflexivity].
  - destruct (String.eqb_spec k k') as [->|_]; [now rewrite Hk'|reflexivity].
Qed.

Lemma get_insertIndexed (n : N) (kv : string * V) (l : list (string * V)) k :
  JSObject.arrayIndex (fst kv) = Some n ->
  JSMap.get k (JSObject.insertIndexed n kv l)
  = if k =? fst kv then Some (snd kv) else JSMap.get k l.
Proof.
  destruct kv as [k0 v0]. cbn [fst snd]. intros Hn.
  induction l as [|[k' v'] r IH]; [reflexivity|].
  cbn [JSObject.insertIndexed fst].
  destruct (JSObject.arrayIndex k') as [n'|] eqn:Hn'; [|reflexivity].
  destruct (N.leb_spec n n') as [Hle|Hlt]; [reflexivity|].
  cbn [JSMap.get]. rewrite IH.
  destruct (String.eqb_spec k k') as [->|_]; [|reflexivity].
  destruct (String.eqb_spec k' k0) as [->|_]; [|reflexivity].
  rewrite Hn in Hn'. injection Hn' as Hn'. lia.
Qed.

Lemma get_sortIndexed k m :
  JSMap.get k (JSObject.sortIndexed m)
  = match JSObject.arrayIndex k with
    | Some _ => JSMap.get k m
    | None => None
    end.
Proof.
  induction m as [|[k' v'] r IH]; [now destruct (JSObject.arrayIndex k)|].
  cbn [JSObject.sortIndexed fold_right fst].
  fold (JSObject.sortIndexed r).
  destruct (JSObject.arrayIndex k') as [n'|] eqn:Hn'.
  - rewrite (get_insertIndexed n' (k', v')) by exact Hn'. cbn [fst snd JSMap.get].
    destruct (String.eqb_spec k k') as [->|_]; [now rewrite Hn'|exact IH].
  - rewrite IH. cbn [JSMap.get].
    destruct (String.eqb_spec k k') as [->|_]; [now rewrite Hn'|reflexivity].
Qed.

(** A lookup does not see the order of the entries. *)
Lemma get_entries k m : JSMap.get k (JSObject.entries m) = JSMap.get k m.
Proof.
  unfold JSObject.entries. rewrite get_app, get_sortIndexed.
  rewrite (get_filter_keys
             (fun key => negb match JSObject.arrayIndex key with
                              | Some _ => true
                              | None => false
                              end)).
  destruct (JSObject.arrayIndex k); cbn [negb]; [|reflexivity].
  now destruct (JSMap.get k m).
Qed.

Lemma In_insertIndexed (n : N) (kv x : string * V) (l : list (string * V)) :
  In x (JSObject.insertIndexed n kv l) <-> x = kv \/ In x l.
Proof.
  induction l as [|kv' r IH]; cbn [JSObject.insertIndexed].
  - simpl. intuition congruence.
  - destruct (JSObject.arrayIndex (fst kv')) as [n'|].
    + destruct (n <=? n')%N.
      * simpl. intuition congruence.
      * simpl. rewrite IH. intuition congruence.
    + simpl. intuition congruence.
Qed.

Lemma In_sortIndexed (x : string * V) m :
  In x (JSObject.sortIndexed m) <-> In x m /\ JSObject.isIndexed x = true.
Proof.
  induction m as [|kv r IH]; [simpl; tauto|].
  cbn [JSObject.sortIndexed fold_right]. fold (JSObject.sortIndexed r).
  unfold JSObject.isIndexed in *.
  destruct (JSObject.arrayIndex (fst kv)) as [n|] eqn:Hn.
  - rewrite In_insertIndexed, IH. simpl. split.
    + intros [->|[H1 H2]]; [now rewrite Hn; auto|auto].
    + intros [[<-|H1] H2]; auto.
  - rewrite IH. simpl. split.
    + intros [H1 H2]. auto.
    + intros [[<-|H1] H2]; [rewrite Hn in H2; discriminate|auto].
Qed.

(** The entries are those of the object, each once. *)
Lemma In_entries (x : string * V) m : In x (JSObject.entries m) <-> In x m.
Proof.
  unfold JSObject.entries. rewrite in_app_iff, In_sortIndexed, filter_In.
  destruct (JSObject.isIndexed x); simpl; intuition congruence.
Qed.

Lemma insertIndexed_perm (n : N) (kv : string * V) (l : list (string * V)) :
  Permutation (JSObject.insertIndexed n kv l) (kv :: l).
Proof.
  induction l as [|kv' r IH]; cbn [JSObject.insertIndexed]; [reflexivity|].
  destruct (JSObject.arrayIndex (fst kv')); [|reflexivity].
  destruct (n <=? n0)%N; [reflexivity|].
  rewrite IH. apply perm_swap.
Qed.

Lemma entries_perm m : Permutation (JSObject.entries m) m.
Proof.
  unfold JSObject.entries.
  induction m as [|kv r IH]; [reflexivity|].
  cbn [JSObject.sortIndexed fold_right filter]. fold (JSObject.sortIndexed r).
  unfold JSObject.isIndexed at 1.
  destruct (JSObject.arrayIndex (fst kv)); cbn [negb].
  - rewrite insertIndexed_perm. cbn [app]. now rewrite IH.
  - rewrite <- Permutation_middle. now rewrite IH.
Qed.

Lemma wf_entries m : JSMap.wf m -> JSMap.wf (JSObject.entries m).
Proof.
  unfold JSMap.wf, JSMap.keys. intros H.
  apply (Permutation_NoDup (l := map fst m)); [|exact H].
  apply Permutation_map. symmetry. apply entries_perm.
Qed.

End ObjectFacts.

(** ** [Map] and [Set] operations *)

Section MapFacts.
Context {V : Type}.
Implicit Types (m : JSMap.t V) (k : string).

Lemma has_true_iff k m : JSMap.has k m = true <-> exists v, JSMap.get k m = Some v.
Proof.
  unfold JSMap.has. destruct (JSMap.get k m) as [v|].
  - split; [intros _; now exists v|reflexivity].
  - split; [discriminate|intros [v H]; discriminate].
Qed.

Lemma has_false_iff k m : JSMap.has k m = false <-> JSMap.get k m = None.
Proof.
  unfold JSMap.has. destruct (JSMap.get k m); split; congruence.
Qed.

Lemma get_In_keys k m v : JSMap.get k m = Some v -> In k (JSMap.keys m).
Proof.
  induction m as [|[k' v'] r IH]; simpl; [discriminate|].
  destruct (String.eqb_spec k k'); [left; congruence|right; auto].
Qed.

Lemma get_not_In_keys k m : ~ In k (JSMap.keys m) -> JSMap.get k m = None.
Proof.
  intros H. destruct (JSMap.get k m) eqn:E; [|reflexivity].
  exfalso. apply H. eapply get_In_keys; eassumption.
Qed.

Lemma In_keys_get k m : In k (JSMap.keys m) -> exists v, JSMap.get k m = Some v.
Proof.
  induction m as [|[k' v'] r IH]; simpl; [contradiction|].
  intros [E|H].
  - subst. rewrite String.eqb_refl. eauto.
  - destruct (k =? k'); eauto.
Qed.

Lemma get_In k m v : JSMap.get k m = Some v -> In (k, v) m.
Proof.
  induction m as [|[k' v'] r IH]; simpl; [discriminate|].
  destruct (String.eqb_spec k k').
  - intros H. left. congruence.
  - intros H. right. auto.
Qed.

Lemma delete_absent k m : JSMap.get k m = None -> JSMap.delete k m = m.
Proof.
  induction m as [|[k' v'] r IH]; simpl; [reflexivity|].
  destruct (k =? k'); [discriminate|]. intros H. now rewrite IH.
Qed.

Lemma get_delete_same k m : JSMap.wf m -> JSMap.get k (JSMap.delete k m) = None.
Proof.
  unfold JSMap.wf.
  induction m as [|[k' v'] r IH]; simpl; [reflexivity|].
  intros Hnd. inversion Hnd as [|? ? Hnotin Hnd']; subst.
  destruct (String.eqb_spec k k') as [E|E].
  - subst. apply get_not_In_keys. exact Hnotin.
  - simpl. apply String.eqb_neq in E. rewrite E. auto.
Qed.

Lemma get_delete_other k k' m :
  k' <> k -> JSMap.get k' (JSMap.delete k m) = JSMap.get k' m.
Proof.
  intros Hne.
  induction m as [|[k0 v0] r IH]; simpl; [reflexivity|].
  destruct (String.eqb_spec k k0) as [E|E].
  - subst. apply String.eqb_neq in Hne. now rewrite Hne.
  - simpl. now rewrite IH.
Qed.

Lemma size_delete k m :
  JSMap.has k m = true -> JSMap.size (JSMap.delete k m) = (JSMap.size m - 1)%Z.
Proof.
  unfold JSMap.has, JSMap.size.
  induction m as [|[k' v'] r IH]; simpl JSMap.get; [discriminate|].
  simpl JSMap.delete.
  destruct (k =? k').
  - intros _. simpl List.length. lia.
  - intros H. specialize (IH H). simpl List.length. lia.
Qed.

Lemma keys_set k v m :
  JSMap.keys (JSMap.set k v m)
  = if JSMap.has k m then JSMap.keys m else JSMap.keys m ++ [k].
Proof.
  unfold JSMap.has.
  induction m as [|[k' v'] r IH]; simpl; [reflexivity|].
  destruct (String.eqb_spec k k') as [E|E]; simpl.
  - now subst.
  - rewrite IH. now destruct (JSMap.get k r).
Qed.

Lemma get_set_same k v m : JSMap.get k (JSMap.set k v m) = Some v.
Proof.
  induction m as [|[k' v'] r IH]; simpl.
  - now rewrite String.eqb_refl.
  - destruct (String.eqb_spec k k') as [E|E]; simpl.
    + now rewrite String.eqb_refl.
    + apply String.eqb_neq in E. now rewrite E.
Qed.

Lemma get_set_other k k' v m :
  k' <> k -> JSMap.get k' (JSMap.set k v m) = JSMap.get k' m.
Proof.
  intros Hne.
  induction m as [|[k0 v0] r IH]; simpl.
  - apply String.eqb_neq in Hne. now rewrite Hne.
  - destruct (String.eqb_spec k k0) as [E|E]; simpl.
    + subst. apply String.eqb_neq in Hne. now rewrite Hne.
    + now rewrite IH.
Qed.

Lemma size_set k v m :
  JSMap.size (JSMap.set k v m)
  = if JSMap.has k m then JSMap.size m else (JSMap.size m + 1)%Z.
Proof.
  unfold JSMap.size, JSMap.has.
  induction m as [|[k' v'] r IH]; simpl; [reflexivity|].
  destruct (String.eqb_spec k k') as [E|E]; simpl List.length.
  - reflexivity.
  - destruct (JSMap.get k r); lia.
Qed.

End MapFacts.

Lemma set_has_false (x : string) (s : JSSet.t) :
  JSSet.has x s = false <-> ~ In x s.
Proof.
  unfold JSSet.has. split.
  - intros H Hin.
    assert (E : existsb (String.eqb x) s = true).
    { apply existsb_exists. exists x. split; [exact Hin|apply String.eqb_refl]. }
    congruence.
  - intros H. destruct (existsb (String.eqb x) s) eqn:E; [|reflexivity].
    apply existsb_exists in E. destruct E as (y & Hy & Hxy).
    apply String.eqb_eq in Hxy. subst. contradiction.
Qed.

Lemma set_delete_absent (x : string) (s : JSSet.t) :
  ~ In x s -> JSSet.delete x s = s.
Proof.
  induction s as [|y r IH]; simpl; [reflexivity|].
  intros H. destruct (String.eqb_spec x y) as [E|E].
  - exfalso. apply H. left. congruence.
  - rewrite IH; [reflexivity|]. intros Hin. apply H. now right.
Qed.

Lemma set_has_delete (x : string) (s : JSSet.t) :
  JSSet.wf s -> JSSet.has x (JSSet.delete x s) = false.
Proof.
  unfold JSSet.wf. intros Hnd. apply set_has_false.
  induction s as [|y r IH]; simpl; [tauto|].
  inversion Hnd as [|? ? Hnotin Hnd']; subst.
  destruct (String.eqb_spec x y) as [E|E].
  - subst. exact Hnotin.
  - simpl. intros [H|H]; [congruence|]. now apply IH.
Qed.

(** ** More on maps and sets *)

Section MoreMapFacts.
Context {V : Type}.
Implicit Types (m : JSMap.t V) (k : string).

Lemma set_absent k (v : V) m :
  JSMap.get k m = None -> JSMap.set k v m = m ++ [(k, v)].
Proof.
  induction m as [|[k' v'] r IH]; simpl; [reflexivity|].
  destruct (k =? k'); [discriminate|]. intros H. now rewrite IH.
Qed.

Lemma In_set k (v : V) m k0 (v0 : V) :
  In (k0, v0) (JSMap.set k v m) -> (k0, v0) = (k, v) \/ In (k0, v0) m.
Proof.
  induction m as [|[k' v'] r IH]; simpl.
  - intros [H|[]]. left. symmetry. exact H.
  - destruct (k =? k'); simpl; intros [H|H].
    + left. symmetry. exact H.
    + right. right. exact H.
    + right. left. exact H.
    + destruct (IH H) as [E|E]; [left|right; right]; exact E.
Qed.

Lemma NoDup_snoc (l : list string) (x : string) :
  NoDup l -> ~ In x l -> NoDup (l ++ [x]).
Proof.
  induction l as [|y r IH]; simpl; intros Hnd Hx.
  - constructor; [tauto|constructor].
  - inversion Hnd as [|? ? Hy Hr]; subst. constructor.
    + intros Hin. apply in_app_or in Hin. destruct Hin as [Hin|[E|[]]]; [tauto|].
      apply Hx. now left.
    + apply IH; [exact Hr|tauto].
Qed.

Lemma wf_set k (v : V) m : JSMap.wf m -> JSMap.wf (JSMap.set k v m).
Proof.
  unfold JSMap.wf. rewrite keys_set. destruct (JSMap.has k m) eqn:E; [auto|].
  intros H. apply NoDup_snoc; [exact H|].
  intros Hin. apply In_keys_get in Hin. apply has_true_iff in Hin. congruence.
Qed.

Lemma In_get k (v : V) m : JSMap.wf m -> In (k, v) m -> JSMap.get k m = Some v.
Proof.
  unfold JSMap.wf. induction m as [|[k' v'] r IH]; simpl; [tauto|].
  intros Hnd Hin. inversion Hnd as [|? ? Hk' Hr]; subst.
  destruct Hin as [E|Hin].
  - injection E as -> ->. now rewrite String.eqb_refl.
  - destruct (String.eqb_spec k k') as [->|Hne]; [|auto].
    exfalso. apply Hk'. change k' with (fst (k', v)). apply in_map. exact Hin.
Qed.

(** [{...a, ...b}] read key by key. *)
Lemma get_assign k (a b : JSMap.t V) :
  JSMap.wf b ->
  JSMap.get k (JSMap.assign a b)
  = match JSMap.get k b with
    | Some v => Some v
    | None => JSMap.get k a
    end.
Proof.
  unfold JSMap.assign, JSMap.wf. revert a.
  induction b as [|[k' v'] r IH]; intros a Hnd; [reflexivity|].
  inversion Hnd as [|? ? Hk' Hr]; subst. cbn [fold_left fst snd].
  rewrite (IH _ Hr). simpl JSMap.get.
  destruct (String.eqb_spec k k') as [->|Hne].
  - rewrite (get_not_In_keys _ _ Hk'). apply get_set_same.
  - destruct (JSMap.get k r); [reflexivity|]. apply get_set_other. exact Hne.
Qed.

Lemma size_set_le k (v : V) m : (JSMap.size (JSMap.set k v m) <= JSMap.size m + 1)%Z.
Proof. rewrite size_set. destruct (JSMap.has k m); lia. Qed.

End MoreMapFacts.

Lemma fold_add_nodup (l : list string) :
  forall acc : JSSet.t,
    NoDup (acc ++ l) -> fold_left (fun s x => JSSet.add x s) l acc = acc ++ l.
Proof.
  induction l as [|x r IH]; intros acc H; cbn [fold_left]; [now rewrite app_nil_r|].
  assert (Hx : JSSet.has x acc = false).
  { apply set_has_false. intros Hin. apply NoDup_remove_2 in H.
    apply H. apply in_or_app. now left. }
  unfold JSSet.add at 2. rewrite Hx. rewrite IH.
  - rewrite <- app_assoc. reflexivity.
  - rewrite <- app_assoc. exact H.
Qed.

(** [new Set(array)] of an array with no repetition has the array's
    elements in the array's order. *)
Lemma ofList_nodup (l : list string) : NoDup l -> JSSet.ofList l = l.
Proof. intros H. unfold JSSet.ofList. now rewrite fold_add_nodup. Qed.

(** ** [deletePrompt] *)

(** C5. Deleting a record that is in the collection (the dialog being
    confirmed) removes its identifier from the record collection and from
    the favorites set, makes the record collection one smaller, and leaves
    every other record in place; [deletePrompt] with an identifier that is
    not in the collection changes nothing. *)
Theorem deletePrompt_removes (confirmed : bool) (promptId : string)
        (this : TreeView.t) (ls : LocalStorage.t) :
  JSMap.wf (StorageManager.prompts (TreeView.storage this)) ->
  JSSet.wf (StorageManager.favorites (TreeView.storage this)) ->
  let before := TreeView.storage this in
  let after := TreeView.storage (fst (TreeView.deletePrompt confirmed promptId this ls)) in
  (JSMap.has promptId (StorageManager.prompts before) = true -> confirmed = true ->
   JSMap.has promptId (StorageManager.prompts after) = false
   /\ JSSet.has promptId (StorageManager.favorites after) = false
   /\ JSMap.size (StorageManager.prompts after)
      = (JSMap.size (StorageManager.prompts before) - 1)%Z
   /\ forall k, k <> promptId ->
                JSMap.get k (StorageManager.prompts after)
                = JSMap.get k (StorageManager.prompts before))
  /\ (JSMap.has promptId (StorageManager.prompts before) = false ->
      TreeView.deletePrompt confirmed promptId this ls = (this, ls)).
Proof.
  intros Hmap Hset. cbn zeta. unfold TreeView.deletePrompt. split.
  - intros Hhas Hconfirmed. subst confirmed.
    pose proof Hhas as Hget. apply has_true_iff in Hget. destruct Hget as [prompt Hget].
    rewrite Hget. cbn [fst TreeView.storage StorageManager.prompts StorageManager.favorites].
    split; [apply has_false_iff, get_delete_same; exact Hmap|].
    split; [apply set_has_delete; exact Hset|].
    split; [apply size_delete; exact Hhas|].
    intros k Hk. apply get_delete_other. exact Hk.
  - intros Hhas. apply has_false_iff in Hhas. rewrite Hhas. reflexivity.
Qed.

Lemma deletePrompt_removes_witness :
  JSMap.has "prompt-1-a"
    (StorageManager.prompts
       (TreeView.storage
          (fst (TreeView.deletePrompt true "prompt-1-a" Sample.view Sample.emptyStore))))
  = false
  /\ JSMap.size
       (StorageManager.prompts
          (TreeView.storage
             (fst (TreeView.deletePrompt true "prompt-1-a" Sample.view Sample.emptyStore))))
     = 1%Z
  /\ TreeView.deletePrompt true "prompt-0-none" Sample.view Sample.emptyStore
     = (Sample.view, Sample.emptyStore).
Proof.
  assert (Hmap : JSMap.wf (StorageManager.prompts (TreeView.storage Sample.view))).
  { repeat constructor; simpl; intuition discriminate. }
  assert (Hset : JSSet.wf (StorageManager.favorites (TreeView.storage Sample.view))).
  { repeat constructor; simpl; intuition discriminate. }
  destruct (deletePrompt_removes true "prompt-1-a" Sample.view Sample.emptyStore Hmap Hset)
    as [Hpresent _].
  destruct (Hpresent eq_refl eq_refl) as (Hgone & _ & Hsize & _).
  destruct (deletePrompt_removes true "prompt-0-none" Sample.view Sample.emptyStore Hmap Hset)
    as [_ Habsent].
  split; [exact Hgone|]. split; [rewrite Hsize; reflexivity|].
  apply Habsent. reflexivity.
Defined.

(** ** Writing to the store *)

Lemma saveToStorageFrom_faults (script faults : list (option string))
      (item : LocalStorage.Item) (ls : LocalStorage.t) :
  StorageManager.saveToStorageFrom script item (LocalStorage.withFaults faults ls)
  = StorageManager.saveToStorageFrom script item ls.
Proof.
  revert item. induction script as [|[name|] rest IH]; intros item; simpl.
  - reflexivity.
  - destruct (name =? "QuotaExceededError").
    + apply IH.
    + reflexivity.
  - reflexivity.
Qed.

(** [saveToStorage] as the source has it: [setItem] in a [try], and
    [handleStorageError] in the [catch]. *)
Lemma saveToStorage_try_catch (item : LocalStorage.Item) (ls : LocalStorage.t) :
  StorageManager.saveToStorage item ls
  = match LocalStorage.setItem item ls with
    | (ls', None) => ls'
    | (ls', Some name) => StorageManager.handleStorageError name ls'
    end.
Proof.
  unfold StorageManager.saveToStorage, LocalStorage.setItem.
  destruct ls as [p c f s b faults]. cbn [LocalStorage.faults].
  destruct faults as [|[name|] rest]; cbn [StorageManager.saveToStorageFrom].
  - reflexivity.
  - unfold StorageManager.handleStorageError, StorageManager.cleanupOldBackups,
      StorageManager.saveToStorage.
    destruct (name =? "QuotaExceededError"); [|reflexivity].
    cbn [LocalStorage.withFaults LocalStorage.faults].
    change (LocalStorage.mk p c f s b rest)
      with (LocalStorage.withFaults rest (LocalStorage.mk p c f s b (Some name :: rest))).
    rewrite saveToStorageFrom_faults. reflexivity.
  - reflexivity.
Qed.

(** A write that the store accepts puts the item in its slot. *)
Lemma saveToStorage_accepted (item : LocalStorage.Item) (ls : LocalStorage.t) :
  LocalStorage.accepts ls = true ->
  StorageManager.saveToStorage item ls
  = LocalStorage.put item (LocalStorage.withFaults (tl (LocalStorage.faults ls)) ls).
Proof.
  unfold LocalStorage.accepts, StorageManager.saveToStorage.
  destruct (LocalStorage.faults ls) as [|[name|] rest]; simpl; congruence.
Qed.

(** ** Backups *)

Lemma firstn_removelast {A : Type} (l : list A) (n : nat) :
  List.length l = S n -> firstn n l = removelast l.
Proof.
  revert n. induction l as [|a r IH]; intros n H; [discriminate|].
  simpl in H. injection H as H.
  destruct r as [|b r'].
  - simpl in H. subst. reflexivity.
  - destruct n as [|n]; [discriminate|].
    change (firstn (S n) (a :: b :: r')) with (a :: firstn n (b :: r')).
    rewrite (IH n H). reflexivity.
Qed.

Lemma createBackup_stored (now : string) (this : StorageManager.t) (ls : LocalStorage.t) :
  LocalStorage.accepts ls = true ->
  StorageManager.storedBackups (StorageManager.createBackup now this ls)
  = firstn StorageManager.MAX_BACKUPS
           (StorageManager.snapshot now this :: StorageManager.storedBackups ls).
Proof.
  intros Haccepts. unfold StorageManager.createBackup.
  rewrite (saveToStorage_accepted _ _ Haccepts). reflexivity.
Qed.

(** C6 (as amended). After a [createBackup] call whose write the store
    accepts, the stored backup list starts with the snapshot just taken,
    followed by the four newest of the snapshots held before; it has at
    most 5 entries, and exactly 5 when 5 or more were held, the oldest
    being the ones dropped. *)
Theorem createBackup_bounded (now : string) (this : StorageManager.t) (ls : LocalStorage.t) :
  LocalStorage.accepts ls = true ->
  let held := StorageManager.storedBackups ls in
  let stored := StorageManager.storedBackups (StorageManager.createBackup now this ls) in
  stored = StorageManager.snapshot now this :: firstn 4 held
  /\ (List.length stored <= 5)%nat
  /\ (5 <= List.length held -> List.length stored = 5)%nat
  /\ (List.length held = 5%nat ->
      stored = StorageManager.snapshot now this :: removelast held).
Proof.
  intros Haccepts. cbn zeta.
  rewrite (createBackup_stored now this ls Haccepts).
  change (firstn StorageManager.MAX_BACKUPS
            (StorageManager.snapshot now this :: StorageManager.storedBackups ls))
    with (StorageManager.snapshot now this
            :: firstn 4 (StorageManager.storedBackups ls)).
  generalize (StorageManager.storedBackups ls) as held. intros held.
  split; [reflexivity|].
  split; [cbn [List.length]; rewrite length_firstn; lia|].
  split; [intros H; cbn [List.length]; rewrite length_firstn; lia|].
  intros H. f_equal. apply firstn_removelast. exact H.
Qed.

Lemma createBackup_bounded_witness :
  StorageManager.storedBackups
    (StorageManager.createBackup "2024-03-03T10:00:00.000Z" Sample.manager Sample.emptyStore)
  = [StorageManager.snapshot "2024-03-03T10:00:00.000Z" Sample.manager].
Proof.
  rewrite (proj1 (createBackup_bounded "2024-03-03T10:00:00.000Z" Sample.manager
                    Sample.emptyStore eq_refl)).
  reflexivity.
Defined.

(** C6 (as stated) fails when the store has no room: [setItem] throws a
    [QuotaExceededError], the [catch] of [saveToStorage] trims the stored
    list to its two newest entries, and the snapshot just taken is not
    stored at all. *)
Lemma createBackup_full_store :
  LocalStorage.setItem
    (LocalStorage.Backups
       (StorageManager.snapshot "2024-03-03T10:00:00.000Z" Sample.manager
          :: Sample.olderBackups))
    Sample.fullStore
  = (LocalStorage.withFaults [] Sample.fullStore, Some "QuotaExceededError")
  /\ StorageManager.storedBackups
       (StorageManager.createBackup "2024-03-03T10:00:00.000Z" Sample.manager
                                    Sample.fullStore)
     = Sample.olderBackups
  /\ hd_error
       (StorageManager.storedBackups
          (StorageManager.createBackup "2024-03-03T10:00:00.000Z" Sample.manager
                                       Sample.fullStore))
     <> Some (StorageManager.snapshot "2024-03-03T10:00:00.000Z" Sample.manager).
Proof.
  split; [reflexivity|]. split; [reflexivity|].
  vm_compute. discriminate.
Qed.

(** C7. Whatever the store holds, [restoreFromBackup(index)] with an index
    at or beyond the number of stored snapshots completes normally with
    [false]: the [try] block throws ["Backup not found"], the [catch]
    answers it, and the manager and the store are as they were. *)
Theorem restoreFromBackup_out_of_range {dates : DateParser}
        (ids : nat -> string) (today : string) (backupIndex : Z)
        (this : StorageManager.t) (ls : LocalStorage.t) :
  (backupIndex >= Z.of_nat (List.length (StorageManager.storedBackups ls)))%Z ->
  StorageManager.restoreAttempt ids today backupIndex this ls
  = (this, ls, Throw "Backup not found")
  /\ StorageManager.restoreFromBackup ids today backupIndex this ls
     = (this, ls, Return false).
Proof.
  intros Hrange.
  assert (Hattempt : StorageManager.restoreAttempt ids today backupIndex this ls
                     = (this, ls, Throw "Backup not found")).
  { unfold StorageManager.restoreAttempt.
    apply Z.ge_le, Z.geb_le in Hrange. rewrite Hrange. reflexivity. }
  split; [exact Hattempt|].
  unfold StorageManager.restoreFromBackup. rewrite Hattempt. reflexivity.
Qed.

Lemma restoreFromBackup_out_of_range_witness :
  @StorageManager.restoreFromBackup Sample.isoDates Sample.ids "2024-03-03" 2
    Sample.manager Sample.fullStore
  = (Sample.manager, Sample.fullStore, Return false).
Proof.
  apply (@restoreFromBackup_out_of_range Sample.isoDates Sample.ids "2024-03-03" 2
           Sample.manager Sample.fullStore).
  vm_compute. discriminate.
Defined.

(** ** Import *)

Section ImportLoop.
Context {dates : DateParser}.

Local Abbreviation state := (JSMap.t Prompt.t * StorageManager.ImportResult)%type.
Local Abbreviation run := (fold_left (StorageManager.absorb true)).

Lemma importPrompt_absorb (merge : bool) (fresh today : string) (st : state) (d : Data.t) :
  StorageManager.importPrompt merge fresh today st d
  = StorageManager.absorb merge st (Prompt.new fresh today d).
Proof.
  destruct st as [m r]. unfold StorageManager.importPrompt, StorageManager.absorb.
  destruct (Prompt.new fresh today d); reflexivity.
Qed.

Lemma importPrompts_fold (merge : bool) (ids : nat -> string) (today : string)
      (l : list Data.t) :
  forall (i : nat) (st : state),
    StorageManager.importPrompts merge ids today i l st
    = fold_left (StorageManager.absorb merge) (StorageManager.constructAll ids today i l) st.
Proof.
  induction l as [|d r IH]; intros i st; simpl; [reflexivity|].
  rewrite IH, importPrompt_absorb. reflexivity.
Qed.

(** One step of a merging import, case by case. *)
Lemma absorb_new (st : state) (p : Prompt.t) :
  JSMap.has (Prompt.id p) (fst st) = false ->
  StorageManager.absorb true st (Return p)
  = (JSMap.set (Prompt.id p) p (fst st),
     StorageManager.mkResult (StorageManager.imported (snd st) + 1)
                             (StorageManager.skipped (snd st))
                             (StorageManager.errors (snd st))).
Proof. intros H. unfold StorageManager.absorb. rewrite H. reflexivity. Qed.

Lemma absorb_collision (st : state) (p : Prompt.t) :
  JSMap.has (Prompt.id p) (fst st) = true ->
  StorageManager.absorb true st (Return p)
  = (fst st,
     StorageManager.mkResult (StorageManager.imported (snd st))
                             (StorageManager.skipped (snd st) + 1)
                             (StorageManager.errors (snd st))).
Proof. intros H. unfold StorageManager.absorb. rewrite H. reflexivity. Qed.

Lemma absorb_kept (st : state) (c : Completion Prompt.t) (k : string) (p : Prompt.t) :
  JSMap.get k (fst st) = Some p ->
  JSMap.get k (fst (StorageManager.absorb true st c)) = Some p.
Proof.
  intros Hk. destruct c as [q|m]; [|exact Hk].
  destruct (JSMap.has (Prompt.id q) (fst st)) eqn:Hhas.
  - rewrite absorb_collision by exact Hhas. exact Hk.
  - rewrite absorb_new by exact Hhas. cbn [fst].
    rewrite get_set_other; [exact Hk|].
    intros E. subst k. apply has_false_iff in Hhas. congruence.
Qed.

Lemma run_kept (cs : list (Completion Prompt.t)) :
  forall (st : state) (k : string) (p : Prompt.t),
    JSMap.get k (fst st) = Some p -> JSMap.get k (fst (run cs st)) = Some p.
Proof.
  induction cs as [|c r IH]; intros st k p Hk; simpl; [exact Hk|].
  apply IH. apply absorb_kept. exact Hk.
Qed.

Lemma run_untouched (cs : list (Completion Prompt.t)) :
  forall (st : state) (k : string),
    JSMap.get k (fst st) = None ->
    (forall p, In p (StorageManager.returned cs) -> Prompt.id p <> k) ->
    JSMap.get k (fst (run cs st)) = None.
Proof.
  induction cs as [|c r IH]; intros st k Hk Hids; simpl; [exact Hk|].
  apply IH.
  - destruct c as [q|m]; [|exact Hk].
    assert (Hq : Prompt.id q <> k) by (apply Hids; simpl; now left).
    destruct (JSMap.has (Prompt.id q) (fst st)) eqn:Hhas.
    + rewrite absorb_collision by exact Hhas. exact Hk.
    + rewrite absorb_new by exact Hhas. cbn [fst].
      rewrite get_set_other; [exact Hk|congruence].
  - intros p Hp. apply Hids. unfold StorageManager.returned. simpl.
    apply in_or_app. right. exact Hp.
Qed.

Lemma absorb_present (st : state) (p : Prompt.t) :
  JSMap.has (Prompt.id p) (fst (StorageManager.absorb true st (Return p))) = true.
Proof.
  destruct (JSMap.has (Prompt.id p) (fst st)) eqn:Hhas.
  - rewrite absorb_collision by exact Hhas. exact Hhas.
  - rewrite absorb_new by exact Hhas. cbn [fst].
    apply has_true_iff. exists p. apply get_set_same.
Qed.

Lemma run_present (cs : list (Completion Prompt.t)) :
  forall (st : state) (p : Prompt.t),
    In p (StorageManager.returned cs) ->
    JSMap.has (Prompt.id p) (fst (run cs st)) = true.
Proof.
  induction cs as [|c r IH]; intros st p Hp; [contradiction|].
  unfold StorageManager.returned in Hp. simpl in Hp.
  apply in_app_or in Hp. destruct Hp as [Hp|Hp].
  - destruct c as [q|m]; [|contradiction].
    destruct Hp as [E|[]]. subst q. simpl.
    pose proof (absorb_present st p) as Hnow.
    apply has_true_iff in Hnow. destruct Hnow as [v Hv].
    apply has_true_iff. exists v. apply run_kept. exact Hv.
  - simpl. apply IH. exact Hp.
Qed.

Lemma returned_app (cs1 cs2 : list (Completion Prompt.t)) :
  StorageManager.returned (cs1 ++ cs2)
  = StorageManager.returned cs1 ++ StorageManager.returned cs2.
Proof. unfold StorageManager.returned. apply flat_map_app. Qed.

Lemma run_added (cs1 cs2 : list (Completion Prompt.t)) (p : Prompt.t) (st : state) :
  JSMap.get (Prompt.id p) (fst st) = None ->
  (forall q, In q (StorageManager.returned cs1) -> Prompt.id q <> Prompt.id p) ->
  JSMap.get (Prompt.id p) (fst (run (cs1 ++ Return p :: cs2) st)) = Some p.
Proof.
  intros Hnone Hfirst. rewrite fold_left_app. cbn [fold_left].
  apply run_kept.
  rewrite absorb_new.
  - cbn [fst]. apply get_set_same.
  - apply has_false_iff. apply run_untouched; assumption.
Qed.

Lemma run_imported (cs : list (Completion Prompt.t)) :
  forall st : state,
    (StorageManager.imported (snd (run cs st)) - StorageManager.imported (snd st)
     = JSMap.size (fst (run cs st)) - JSMap.size (fst st))%Z.
Proof.
  induction cs as [|c r IH]; intros st; cbn [fold_left]; [lia|].
  specialize (IH (StorageManager.absorb true st c)).
  assert (Hstep :
            (StorageManager.imported (snd (StorageManager.absorb true st c))
             - StorageManager.imported (snd st)
             = JSMap.size (fst (StorageManager.absorb true st c))
               - JSMap.size (fst st))%Z).
  { destruct c as [q|m];
      [|cbn [fst snd StorageManager.absorb StorageManager.imported]; lia].
    destruct (JSMap.has (Prompt.id q) (fst st)) eqn:Hhas.
    - rewrite absorb_collision by exact Hhas.
      cbn [fst snd StorageManager.imported]. lia.
    - rewrite absorb_new by exact Hhas.
      cbn [fst snd StorageManager.imported]. rewrite size_set, Hhas. lia. }
  lia.
Qed.

Lemma run_counted (cs : list (Completion Prompt.t)) :
  forall st : state,
    (StorageManager.imported (snd (run cs st)) + StorageManager.skipped (snd (run cs st))
     = StorageManager.imported (snd st) + StorageManager.skipped (snd st)
       + Z.of_nat (List.length (StorageManager.returned cs)))%Z.
Proof.
  induction cs as [|c r IH]; intros st; cbn [fold_left]; [simpl; lia|].
  rewrite IH.
  change (StorageManager.returned (c :: r))
    with ((match c with Return p => [p] | Throw _ => [] end) ++ StorageManager.returned r).
  rewrite length_app.
  destruct c as [q|m].
  - cbn [List.length].
    destruct (JSMap.has (Prompt.id q) (fst st)) eqn:Hhas.
    + rewrite absorb_collision by exact Hhas.
      cbn [snd StorageManager.imported StorageManager.skipped]. lia.
    + rewrite absorb_new by exact Hhas.
      cbn [snd StorageManager.imported StorageManager.skipped]. lia.
  - cbn [List.length snd StorageManager.absorb StorageManager.imported
         StorageManager.skipped]. lia.
Qed.

Lemma run_errors (cs : list (Completion Prompt.t)) :
  forall st : state,
    StorageManager.errors (snd (run cs st))
    = StorageManager.errors (snd st)
      ++ map (fun m => ("Failed to import prompt: " ++ m)%string) (StorageManager.thrown cs).
Proof.
  induction cs as [|c r IH]; intros st; cbn [fold_left]; [simpl; now rewrite app_nil_r|].
  rewrite IH.
  change (StorageManager.thrown (c :: r))
    with ((match c with Return _ => [] | Throw m => [m] end) ++ StorageManager.thrown r).
  destruct c as [q|m].
  - destruct (JSMap.has (Prompt.id q) (fst st)) eqn:Hhas.
    + rewrite absorb_collision by exact Hhas. reflexivity.
    + rewrite absorb_new by exact Hhas. reflexivity.
  - cbn [snd StorageManager.absorb StorageManager.errors].
    rewrite map_app, <- app_assoc. reflexivity.
Qed.

(** What [importData] with [merge=true] leaves in the record collection
    and returns, in terms of the loop. *)
Lemma importData_loop_merging (ids : nat -> string) (today : string)
      (parsedData : Snapshot.t) (this : StorageManager.t) (ls : LocalStorage.t) :
  let loop := run (StorageManager.constructAll ids today 0 (StorageManager.incoming parsedData))
                  (StorageManager.prompts this, StorageManager.mkResult 0 0 []) in
  StorageManager.prompts
    (fst (fst (StorageManager.importData ids today (Return parsedData) true this ls)))
  = fst loop
  /\ snd (StorageManager.importData ids today (Return parsedData) true this ls)
     = Return (snd loop).
Proof.
  cbn zeta. rewrite <- importPrompts_fold.
  unfold StorageManager.importData, StorageManager.incoming. cbn [negb].
  destruct parsedData as [ps cs fs ss]. cbn [Snapshot.prompts Snapshot.categories
                                             Snapshot.favorites Snapshot.settings].
  destruct ps as [promptsData|]; cbn [StorageManager.importPrompts].
  - destruct (StorageManager.importPrompts true ids today 0 promptsData
                (StorageManager.prompts this, StorageManager.mkResult 0 0 [])) as [m r].
    destruct cs, fs, ss; split; reflexivity.
  - destruct cs, fs, ss; split; reflexivity.
Qed.

End ImportLoop.

(** C4. Importing with [merge=true] returns a summary; every record that
    was in the collection is still there with the same fields; an incoming
    record that the constructor accepts and whose identifier is neither in
    the collection nor carried by an earlier incoming record is added as it
    is; every accepted incoming record ends up with its identifier in the
    collection and no other identifier appears; [imported] counts the
    records added, [imported + skipped] the accepted incoming records, and
    [errors] holds one message per refused record, in order, the loop
    going on after each. With one incoming record whose identifier is
    already there, the summary is 0 imported, 1 skipped, no error, and the
    collection is unchanged. *)
Theorem importData_merge {dates : DateParser} (ids : nat -> string) (today : string)
        (parsedData : Snapshot.t) (this : StorageManager.t) (ls : LocalStorage.t) :
  let cs := StorageManager.constructAll ids today 0 (StorageManager.incoming parsedData) in
  let out := StorageManager.importData ids today (Return parsedData) true this ls in
  let before := StorageManager.prompts this in
  let after := StorageManager.prompts (fst (fst out)) in
  exists result,
    snd out = Return result
    /\ (forall k p, JSMap.get k before = Some p -> JSMap.get k after = Some p)
    /\ (forall cs1 p cs2,
           cs = cs1 ++ Return p :: cs2 ->
           JSMap.get (Prompt.id p) before = None ->
           (forall q, In q (StorageManager.returned cs1) -> Prompt.id q <> Prompt.id p) ->
           JSMap.get (Prompt.id p) after = Some p)
    /\ (forall p, In p (StorageManager.returned cs) ->
                  JSMap.has (Prompt.id p) after = true)
    /\ (forall k, JSMap.get k before = None ->
                  (forall p, In p (StorageManager.returned cs) -> Prompt.id p <> k) ->
                  JSMap.get k after = None)
    /\ StorageManager.imported result = (JSMap.size after - JSMap.size before)%Z
    /\ (StorageManager.imported result + StorageManager.skipped result
        = Z.of_nat (List.length (StorageManager.returned cs)))%Z
    /\ StorageManager.errors result
       = map (fun m => ("Failed to import prompt: " ++ m)%string) (StorageManager.thrown cs)
    /\ (forall p, cs = [Return p] ->
                  JSMap.has (Prompt.id p) before = true ->
                  result = StorageManager.mkResult 0 1 [] /\ after = before).
Proof.
  cbn zeta.
  destruct (importData_loop_merging ids today parsedData this ls) as [Hmap Hres].
  cbn zeta in Hmap, Hres.
  set (cs := StorageManager.constructAll ids today 0 (StorageManager.incoming parsedData)) in *.
  set (st := (StorageManager.prompts this, StorageManager.mkResult 0 0 [])) in *.
  exists (snd (fold_left (StorageManager.absorb true) cs st)).
  rewrite Hmap.
  split; [exact Hres|].
  split; [intros k p Hk; apply (run_kept cs st k p Hk)|].
  split; [intros cs1 p cs2 Hcs Hnone Hfirst; rewrite Hcs;
          apply (run_added cs1 cs2 p st Hnone Hfirst)|].
  split; [intros p Hp; apply (run_present cs st p Hp)|].
  split; [intros k Hk Hids; apply (run_untouched cs st k Hk Hids)|].
  split; [pose proof (run_imported cs st) as H; cbn [snd fst st StorageManager.imported] in H;
          subst st; cbn [fst snd StorageManager.imported] in *; lia|].
  split; [pose proof (run_counted cs st) as H; subst st;
          cbn [fst snd StorageManager.imported StorageManager.skipped] in *; lia|].
  split; [rewrite (run_errors cs st); reflexivity|].
  intros p Hcs Hhas. rewrite Hcs. cbn [fold_left].
  rewrite absorb_collision by exact Hhas. split; reflexivity.
Qed.

Example import_of_exported :
  let out := @StorageManager.importData Sample.isoDates Sample.ids "2024-03-03"
               (Return Sample.exported) true Sample.manager Sample.emptyStore in
  snd out
  = Return (StorageManager.mkResult 1 1
              ["Failed to import prompt: Validation failed: Field 'title' is required"])
  /\ JSMap.get "prompt-1-a" (StorageManager.prompts (fst (fst out)))
     = Some Sample.codeReview
  /\ JSMap.get "prompt-3-c" (StorageManager.prompts (fst (fst out)))
     = Some Sample.translator
  /\ JSMap.keys (StorageManager.prompts (fst (fst out)))
     = ["prompt-1-a"; "prompt-2-b"; "prompt-3-c"].
Proof. cbn zeta. repeat split; vm_compute; reflexivity. Qed.

(** ** The tree *)

Lemma lookup_Held (k : string) (cats : TreeView.Categories) (e : TreeView.Entry) :
  TreeView.lookup k cats = TreeView.Held e ->
  JSMap.get k (TreeView.own cats) = Some e
  \/ (JSMap.get k (TreeView.own cats) = None
      /\ k = "__proto__" /\ TreeView.installed cats = Some e).
Proof.
  unfold TreeView.lookup.
  destruct (JSMap.get k (TreeView.own cats)) as [e'|]; [intros H; left; congruence|].
  destruct (TreeView.installed cats) as [e'|].
  - destruct (String.eqb_spec k "__proto__") as [->|_].
    + intros H. right. repeat split; congruence.
    + destruct ((k =? "info") || (k =? "items") || (k =? "children"));
        [discriminate|].
      destruct (k =? "parent").
      * destruct (TreeView.parent e') as [q|]; [destruct (JSString.truthy q)|];
          discriminate.
      * destruct (JSObject.inherits k); discriminate.
  - destruct (JSObject.inherits k); discriminate.
Qed.

Lemma held_Some (k : string) (cats : TreeView.Categories) (e : TreeView.Entry) :
  held k cats = Some e <-> TreeView.lookup k cats = TreeView.Held e.
Proof.
  unfold held. destruct (TreeView.lookup k cats); split; congruence.
Qed.

Lemma foreign_held (k : string) (cats : TreeView.Categories) (e : TreeView.Entry) :
  held k cats = Some e -> foreign k cats = false.
Proof. unfold held, foreign. destruct (TreeView.lookup k cats); congruence. Qed.

(** The empty path is answered by an entry or by nothing. *)
Lemma foreign_empty (cats : TreeView.Categories) : foreign "" cats = false.
Proof.
  unfold foreign, TreeView.lookup.
  destruct (JSMap.get "" (TreeView.own cats)); [reflexivity|].
  destruct (TreeView.installed cats); reflexivity.
Qed.

Lemma foreign_uncategorized (cats : TreeView.Categories) :
  foreign "uncategorized" cats = false.
Proof.
  unfold foreign, TreeView.lookup.
  destruct (JSMap.get "uncategorized" (TreeView.own cats)); [reflexivity|].
  destruct (TreeView.installed cats); reflexivity.
Qed.

Lemma sameShape_refl (a : TreeView.Categories) : sameShape a a.
Proof. split; reflexivity. Qed.

Lemma sameShape_trans (a b c : TreeView.Categories) :
  sameShape a b -> sameShape b c -> sameShape a c.
Proof. intros [H1 H2] [H3 H4]. split; congruence. Qed.

Lemma get_None_keys {V : Type} (k : string) (m : JSMap.t V) :
  JSMap.get k m = None <-> ~ In k (JSMap.keys m).
Proof.
  split; [|apply get_not_In_keys].
  intros H Hin. apply In_keys_get in Hin. destruct Hin as [v Hv]. congruence.
Qed.

Lemma get_same_keys {V W : Type} (k : string) (a : JSMap.t V) (b : JSMap.t W) :
  JSMap.keys a = JSMap.keys b ->
  (JSMap.get k a = None <-> JSMap.get k b = None).
Proof. intros H. rewrite !get_None_keys, H. tauto. Qed.

(** Tables of the same shape answer for a key in the same way: both with
    an entry, both with something else that is truthy, or both with
    nothing. *)
Lemma lookup_shape (a b : TreeView.Categories) (k : string) :
  sameShape a b ->
  match TreeView.lookup k a, TreeView.lookup k b with
  | TreeView.Held _, TreeView.Held _ => True
  | TreeView.Alien, TreeView.Alien => True
  | TreeView.Nothing, TreeView.Nothing => True
  | _, _ => False
  end.
Proof.
  intros [Hkeys Hinst]. unfold TreeView.lookup.
  pose proof (get_same_keys k _ _ Hkeys) as Hk.
  destruct (JSMap.get k (TreeView.own a)) as [ea|];
    destruct (JSMap.get k (TreeView.own b)) as [eb|]; try exact I.
  - exfalso. assert (H : Some ea = None) by (apply Hk; reflexivity). discriminate H.
  - exfalso. assert (H : Some eb = None) by (apply Hk; reflexivity). discriminate H.
  - destruct (TreeView.installed a) as [ia|], (TreeView.installed b) as [ib|];
      cbn [option_map] in Hinst; try discriminate Hinst.
    + injection Hinst as Hparent. rewrite Hparent.
      destruct (k =? "__proto__"); [exact I|].
      destruct ((k =? "info") || (k =? "items") || (k =? "children")); [exact I|].
      destruct (k =? "parent").
      * destruct (TreeView.parent ib) as [q|]; [destruct (JSString.truthy q)|]; exact I.
      * destruct (JSObject.inherits k); exact I.
    + destruct (JSObject.inherits k); exact I.
Qed.

Lemma foreign_shape (a b : TreeView.Categories) (k : string) :
  sameShape a b -> foreign k a = foreign k b.
Proof.
  intros H. pose proof (lookup_shape a b k H) as Hk. unfold foreign.
  destruct (TreeView.lookup k a), (TreeView.lookup k b); tauto.
Qed.

Lemma replace_shape (k : string) (e e' : TreeView.Entry) (cats : TreeView.Categories) :
  TreeView.lookup k cats = TreeView.Held e ->
  TreeView.parent e' = TreeView.parent e ->
  sameShape cats (TreeView.replace k e' cats).
Proof.
  intros Hk Hparent. unfold TreeView.replace.
  destruct (lookup_Held k cats e Hk) as [Hown|(Hown & -> & Hinst)]; rewrite Hown.
  - split; cbn [TreeView.own TreeView.installed]; [|reflexivity].
    rewrite keys_set.
    assert (Hhas : JSMap.has k (TreeView.own cats) = true)
      by (apply has_true_iff; eauto).
    now rewrite Hhas.
  - split; cbn [TreeView.own TreeView.installed]; [reflexivity|].
    rewrite Hinst. cbn [option_map]. now rewrite Hparent.
Qed.

(** An entry changed in place is found changed under its key, and the
    other keys find what they found. *)
Lemma held_replace (k k' : string) (e e' : TreeView.Entry) (cats : TreeView.Categories) :
  TreeView.lookup k cats = TreeView.Held e ->
  held k' (TreeView.replace k e' cats) = if k' =? k then Some e' else held k' cats.
Proof.
  intros Hk. unfold TreeView.replace.
  destruct (lookup_Held k cats e Hk) as [Hown|(Hown & -> & Hinst)]; rewrite Hown.
  - unfold held, TreeView.lookup. cbn [TreeView.own TreeView.installed].
    destruct (String.eqb_spec k' k) as [->|Hne].
    + now rewrite get_set_same.
    + now rewrite get_set_other.
  - unfold held, TreeView.lookup. cbn [TreeView.own TreeView.installed].
    rewrite Hinst.
    destruct (String.eqb_spec k' "__proto__") as [->|Hne].
    + now rewrite Hown.
    + destruct (JSMap.get k' (TreeView.own cats)); [reflexivity|].
      destruct ((k' =? "info") || (k' =? "items") || (k' =? "children"));
        [reflexivity|].
      destruct (k' =? "parent").
      * destruct (TreeView.parent e') as [q|], (TreeView.parent e) as [q'|];
          try destruct (JSString.truthy q); try destruct (JSString.truthy q');
          reflexivity.
      * destruct (JSObject.inherits k'); reflexivity.
Qed.

(** *** The third loop *)

Lemma addItems_nil (e : TreeView.Entry) : addItems e [] = e.
Proof. destruct e. unfold addItems. cbn. now rewrite app_nil_r. Qed.

Lemma addItems_app (e : TreeView.Entry) (l1 l2 : list Prompt.t) :
  addItems (addItems e l1) l2 = addItems e (l1 ++ l2).
Proof. unfold addItems. cbn. now rewrite app_assoc. Qed.

(** One record placed: the call throws exactly when the prototype chain
    answers for the record's category; otherwise the shape of the table
    stays and the record joins the buckets as the code says. *)
Lemma place_spec (tree : TreeView.Tree) (p : Prompt.t) :
  match TreeView.place tree p with
  | Throw _ => foreign (TreeView.categoryKey p) (TreeView.categories tree) = true
  | Return tree' =>
      foreign (TreeView.categoryKey p) (TreeView.categories tree) = false
      /\ sameShape (TreeView.categories tree) (TreeView.categories tree')
      /\ TreeView.favorites tree'
         = TreeView.favorites tree ++ (if Prompt.isFavorite p then [p] else [])
      /\ TreeView.uncategorized tree'
         = TreeView.uncategorized tree
           ++ (if match held (TreeView.categoryKey p) (TreeView.categories tree) with
                  | Some _ => false
                  | None => true
                  end
                  && (TreeView.categoryKey p =? "uncategorized")
                  && negb (Prompt.isFavorite p)
               then [p] else [])
      /\ forall c,
           held c (TreeView.categories tree')
           = option_map
               (fun e => addItems e (if TreeView.categoryKey p =? c then [p] else []))
               (held c (TreeView.categories tree))
  end.
Proof.
  assert (Hid : forall (c : string) (o : option TreeView.Entry),
             TreeView.categoryKey p <> c \/ o = None ->
             o = option_map
                   (fun e => addItems e (if TreeView.categoryKey p =? c then [p] else []))
                   o).
  { intros c [e|] H; [|reflexivity]. destruct H as [H|H]; [|discriminate H].
    apply String.eqb_neq in H. rewrite H. cbn [option_map]. now rewrite addItems_nil. }
  unfold TreeView.place. cbv zeta.
  set (key := TreeView.categoryKey p) in *.
  assert (Hcats : TreeView.categories
                    (if Prompt.isFavorite p
                     then TreeView.mkTree (TreeView.categories tree)
                            (TreeView.favorites tree ++ [p]) (TreeView.uncategorized tree)
                     else tree)
                  = TreeView.categories tree) by (destruct (Prompt.isFavorite p); reflexivity).
  rewrite Hcats.
  assert (Hforeign : foreign key (TreeView.categories tree)
                     = match TreeView.lookup key (TreeView.categories tree) with
                       | TreeView.Alien => true
                       | _ => false
                       end) by reflexivity.
  assert (Hheld : held key (TreeView.categories tree)
                  = match TreeView.lookup key (TreeView.categories tree) with
                    | TreeView.Held entry => Some entry
                    | _ => None
                    end) by reflexivity.
  rewrite Hforeign, Hheld.
  destruct (TreeView.lookup key (TreeView.categories tree)) as [entry| |] eqn:Hkey.
  - split; [reflexivity|]. cbn [TreeView.categories TreeView.favorites TreeView.uncategorized].
    split; [apply (replace_shape key entry); [exact Hkey|reflexivity]|].
    split; [destruct (Prompt.isFavorite p); cbn; now rewrite ?app_nil_r|].
    split; [destruct (Prompt.isFavorite p); cbn; now rewrite ?app_nil_r|].
    intros c. rewrite (held_replace key c entry _ _ Hkey).
    destruct (String.eqb_spec c key) as [->|Hne].
    + rewrite Hheld. cbn [option_map]. rewrite String.eqb_refl. reflexivity.
    + apply Hid. left. congruence.
  - reflexivity.
  - assert (Hnone : forall c, held c (TreeView.categories tree)
                              = option_map
                                  (fun e => addItems e (if key =? c then [p] else []))
                                  (held c (TreeView.categories tree))).
    { intros c. apply Hid. destruct (string_dec key c) as [<-|Hne]; [right|left; exact Hne].
      exact Hheld. }
    destruct (String.eqb_spec key "uncategorized") as [E|E];
      destruct (Prompt.isFavorite p); cbn [andb negb TreeView.categories
                                           TreeView.favorites TreeView.uncategorized];
      rewrite ?app_nil_r;
      (split; [reflexivity|]); (split; [apply sameShape_refl|]);
      repeat split; try reflexivity; exact Hnone.
Qed.

(** All records placed. *)
Lemma placeAll_spec (ps : list Prompt.t) :
  forall tree : TreeView.Tree,
    match forEach TreeView.place ps tree with
    | Throw _ =>
        exists p, In p ps
                  /\ foreign (TreeView.categoryKey p) (TreeView.categories tree) = true
    | Return tree' =>
        (forall p, In p ps ->
                   foreign (TreeView.categoryKey p) (TreeView.categories tree) = false)
        /\ sameShape (TreeView.categories tree) (TreeView.categories tree')
        /\ TreeView.favorites tree'
           = TreeView.favorites tree ++ filter Prompt.isFavorite ps
        /\ TreeView.uncategorized tree'
           = TreeView.uncategorized tree
             ++ filter
                  (fun p =>
                     match held (TreeView.categoryKey p) (TreeView.categories tree) with
                     | Some _ => false
                     | None => true
                     end
                     && (TreeView.categoryKey p =? "uncategorized")
                     && negb (Prompt.isFavorite p))
                  ps
        /\ forall c,
             held c (TreeView.categories tree')
             = option_map
                 (fun e => addItems e (filter (fun p => TreeView.categoryKey p =? c) ps))
                 (held c (TreeView.categories tree))
    end.
Proof.
  induction ps as [|p r IH]; intros tree; cbn [forEach].
  - split; [intros p []|]. split; [apply sameShape_refl|].
    cbn [filter]. rewrite !app_nil_r. split; [reflexivity|]. split; [reflexivity|].
    intros c. destruct (held c (TreeView.categories tree)) as [e|]; [|reflexivity].
    cbn [option_map]. now rewrite addItems_nil.
  - pose proof (place_spec tree p) as Hp.
    destruct (TreeView.place tree p) as [tree1|message]; cbn [bindC].
    + destruct Hp as (Hkey & Hshape & Hfav & Hunc & Hheld).
      specialize (IH tree1).
      destruct (forEach TreeView.place r tree1) as [tree'|message].
      * destruct IH as (Hkeys & Hshape' & Hfav' & Hunc' & Hheld').
        split.
        { intros q [<-|Hq]; [exact Hkey|].
          rewrite (foreign_shape _ _ _ Hshape). apply Hkeys. exact Hq. }
        split; [eapply sameShape_trans; eassumption|].
        split.
        { rewrite Hfav', Hfav, <- app_assoc. cbn [filter].
          destruct (Prompt.isFavorite p); reflexivity. }
        split.
        { rewrite Hunc', Hunc, <- app_assoc. cbn [filter]. f_equal.
          rewrite (filter_ext _
                     (fun q =>
                        match held (TreeView.categoryKey q) (TreeView.categories tree) with
                        | Some _ => false
                        | None => true
                        end
                        && (TreeView.categoryKey q =? "uncategorized")
                        && negb (Prompt.isFavorite q))).
          - destruct (match held (TreeView.categoryKey p) (TreeView.categories tree) with
                      | Some _ => false
                      | None => true
                      end
                      && (TreeView.categoryKey p =? "uncategorized")
                      && negb (Prompt.isFavorite p)); reflexivity.
          - intros q. rewrite Hheld.
            now destruct (held (TreeView.categoryKey q) (TreeView.categories tree)). }
        intros c. rewrite Hheld', Hheld.
        destruct (held c (TreeView.categories tree)) as [e|]; [|reflexivity].
        cbn [option_map filter]. rewrite addItems_app.
        destruct (TreeView.categoryKey p =? c); reflexivity.
      * destruct IH as (q & Hq & Hforeign). exists q. split; [now right|].
        rewrite (foreign_shape _ _ _ Hshape). exact Hforeign.
    + exists p. split; [now left|exact Hp].
Qed.

(** *** The first loop *)

Lemma held_assign (path c : string) (e : TreeView.Entry) (cats : TreeView.Categories) :
  proper cats ->
  held c (TreeView.assign path e cats) = if c =? path then Some e else held c cats.
Proof.
  unfold proper, TreeView.assign. intros Hproper.
  destruct (String.eqb_spec path "__proto__") as [->|Hpath].
  - unfold held, TreeView.lookup. cbn [TreeView.own TreeView.installed].
    destruct (String.eqb_spec c "__proto__") as [->|Hc].
    + now rewrite Hproper.
    + destruct (JSMap.get c (TreeView.own cats)); [reflexivity|].
      destruct (TreeView.installed cats) as [e0|].
      * destruct ((c =? "info") || (c =? "items") || (c =? "children")); [reflexivity|].
        destruct (c =? "parent").
        -- destruct (TreeView.parent e) as [q|], (TreeView.parent e0) as [q0|];
             try destruct (JSString.truthy q); try destruct (JSString.truthy q0);
             reflexivity.
        -- destruct (JSObject.inherits c); reflexivity.
      * destruct ((c =? "info") || (c =? "items") || (c =? "children"));
          [destruct (JSObject.inherits c); reflexivity|].
        destruct (c =? "parent").
        -- destruct (TreeView.parent e) as [q|]; try destruct (JSString.truthy q);
             destruct (JSObject.inherits c); reflexivity.
        -- destruct (JSObject.inherits c); reflexivity.
  - unfold held, TreeView.lookup. cbn [TreeView.own TreeView.installed].
    destruct (String.eqb_spec c path) as [->|Hc].
    + now rewrite get_set_same.
    + now rewrite get_set_other.
Qed.

Lemma proper_assign (path : string) (e : TreeView.Entry) (cats : TreeView.Categories) :
  proper cats -> proper (TreeView.assign path e cats).
Proof.
  unfold proper, TreeView.assign. intros H.
  destruct (String.eqb_spec path "__proto__") as [->|Hpath];
    cbn [TreeView.own]; [exact H|].
  rewrite get_set_other; [exact H|congruence].
Qed.

Lemma wf_assign (path : string) (e : TreeView.Entry) (cats : TreeView.Categories) :
  JSMap.wf (TreeView.own cats) -> JSMap.wf (TreeView.own (TreeView.assign path e cats)).
Proof.
  unfold TreeView.assign. intros H.
  destruct (path =? "__proto__"); cbn [TreeView.own]; [exact H|].
  apply wf_set. exact H.
Qed.

Lemma keys_set_In {V : Type} (k c : string) (v : V) (m : JSMap.t V) :
  In c (JSMap.keys (JSMap.set k v m)) <-> c = k \/ In c (JSMap.keys m).
Proof.
  rewrite keys_set. destruct (JSMap.has k m) eqn:Hhas.
  - split; [tauto|]. intros [->|H]; [|exact H].
    apply has_true_iff in Hhas. destruct Hhas as [v' Hv']. eapply get_In_keys. exact Hv'.
  - rewrite in_app_iff. simpl. intuition congruence.
Qed.

Lemma keys_assign (path c : string) (e : TreeView.Entry) (cats : TreeView.Categories) :
  In c (JSMap.keys (TreeView.own (TreeView.assign path e cats)))
  <-> (c = path /\ path <> "__proto__") \/ In c (JSMap.keys (TreeView.own cats)).
Proof.
  unfold TreeView.assign.
  destruct (String.eqb_spec path "__proto__") as [->|Hpath]; cbn [TreeView.own].
  - intuition congruence.
  - rewrite keys_set_In. intuition congruence.
Qed.

Lemma isOwn_true (c : string) :
  isOwn c = true <-> c <> "favorites" /\ c <> "__proto__".
Proof.
  unfold isOwn, isShown. rewrite andb_true_iff, !negb_true_iff, !String.eqb_neq. tauto.
Qed.

(** The first loop from any table on. *)
Lemma initCategories_from (stored : JSMap.t CategoryInfo) :
  forall acc : TreeView.Categories,
    proper acc -> JSMap.wf (TreeView.own acc) ->
    let cats :=
      fold_left
        (fun cats kv =>
           let '(path, info) := kv in
           if negb (path =? "favorites")
           then TreeView.assign path
                  (TreeView.mkEntry info [] (TreeView.parentOf path) []) cats
           else cats)
        stored acc in
    proper cats
    /\ JSMap.wf (TreeView.own cats)
    /\ (forall c,
           option_map bare (held c cats)
           = if isShown c && JSMap.has c stored
             then Some ([], TreeView.parentOf c, [])
             else option_map bare (held c acc))
    /\ (forall c,
           In c (JSMap.keys (TreeView.own cats))
           <-> (isOwn c = true /\ In c (JSMap.keys stored))
               \/ In c (JSMap.keys (TreeView.own acc))).
Proof.
  induction stored as [|[path info] r IH]; intros acc Hproper Hwf; cbn [fold_left].
  - cbv zeta. split; [exact Hproper|]. split; [exact Hwf|]. split.
    + intros c. now rewrite andb_false_r.
    + intros c. simpl. tauto.
  - cbv zeta.
    set (acc' := if negb (path =? "favorites")
                 then TreeView.assign path
                        (TreeView.mkEntry info [] (TreeView.parentOf path) []) acc
                 else acc).
    assert (Hproper' : proper acc').
    { unfold acc'. destruct (negb (path =? "favorites")); [|exact Hproper].
      apply proper_assign. exact Hproper. }
    assert (Hwf' : JSMap.wf (TreeView.own acc')).
    { unfold acc'. destruct (negb (path =? "favorites")); [|exact Hwf].
      apply wf_assign. exact Hwf. }
    destruct (IH acc' Hproper' Hwf') as (H1 & H2 & H3 & H4). cbv zeta in H1, H2, H3, H4.
    split; [exact H1|]. split; [exact H2|]. split.
    + intros c. rewrite H3. unfold JSMap.has. simpl JSMap.get.
      destruct (String.eqb_spec c path) as [->|Hc].
      * unfold isShown, acc'.
        destruct (negb (path =? "favorites")) eqn:Hshown; cbn [andb].
        -- rewrite held_assign by exact Hproper. rewrite String.eqb_refl.
           cbn [option_map bare TreeView.items TreeView.parent TreeView.children].
           now destruct (JSMap.get path r).
        -- reflexivity.
      * destruct (isShown c && match JSMap.get c r with
                               | Some _ => true
                               | None => false
                               end); [reflexivity|].
        unfold acc'. destruct (negb (path =? "favorites")); [|reflexivity].
        rewrite held_assign by exact Hproper.
        apply String.eqb_neq in Hc. now rewrite Hc.
    + intros c. rewrite H4. cbn [JSMap.keys map fst In].
      fold (JSMap.keys r). unfold acc'. rewrite !isOwn_true.
      destruct (String.eqb_spec path "favorites") as [->|Hfav]; cbn [negb].
      * intuition congruence.
      * rewrite keys_assign. intuition congruence.
Qed.

Lemma proper_empty : proper (TreeView.mkCategories [] None).
Proof. reflexivity. Qed.

(** After the first loop: the own keys are distinct; a key finds an entry
    exactly when it is a stored path other than ['favorites'], and that
    entry has no item and no child yet and the parent that the path gives. *)
Lemma initCategories_held (stored : JSMap.t CategoryInfo) :
  let cats0 := TreeView.initCategories stored in
  JSMap.wf (TreeView.own cats0)
  /\ (forall c,
         option_map bare (held c cats0)
         = if isShown c && JSMap.has c stored
           then Some ([], TreeView.parentOf c, [])
           else None)
  /\ (forall c,
         In c (JSMap.keys (TreeView.own cats0))
         <-> isOwn c = true /\ In c (JSMap.keys stored)).
Proof.
  cbv zeta. unfold TreeView.initCategories.
  destruct (initCategories_from stored (TreeView.mkCategories [] None) proper_empty
              ltac:(constructor))
    as (_ & H2 & H3 & H4).
  cbv zeta in H2, H3, H4.
  split; [exact H2|]. split.
  - intros c. rewrite H3. destruct (isShown c && JSMap.has c stored); [reflexivity|].
    unfold held, TreeView.lookup. cbn [JSMap.get TreeView.own TreeView.installed].
    now destruct (JSObject.inherits c).
  - intros c. rewrite H4. simpl. tauto.
Qed.

(** *** The second loop *)

Lemma childrenAmong_snoc (k path : string) (done : list string) :
  childrenAmong k (done ++ [path])
  = childrenAmong k done
    ++ (if JSString.truthy k && isChildOf k path then [path] else []).
Proof.
  unfold childrenAmong. destruct (JSString.truthy k); [|reflexivity].
  rewrite filter_app. cbn [filter andb]. reflexivity.
Qed.

Lemma In_object_keys {V : Type} (k : string) (m : JSMap.t V) :
  In k (JSObject.keys m) <-> In k (JSMap.keys m).
Proof.
  unfold JSObject.keys, JSMap.keys. rewrite !in_map_iff.
  split; intros (kv & Hk & Hin); exists kv; (split; [exact Hk|]);
    apply In_entries; exact Hin.
Qed.

Lemma NoDup_object_keys {V : Type} (m : JSMap.t V) :
  JSMap.wf m -> NoDup (JSObject.keys m).
Proof. intros H. apply (wf_entries m H). Qed.

Section SecondLoop.
Variable cats0 : TreeView.Categories.
Hypothesis fresh0 :
  forall k e, held k cats0 = Some e ->
              TreeView.parent e = TreeView.parentOf k /\ TreeView.children e = [].

Lemma nested_start : nested cats0 [] cats0.
Proof.
  split; [apply sameShape_refl|]. intros k.
  destruct (held k cats0) as [e|] eqn:E; [|reflexivity].
  destruct (fresh0 k e E) as [_ Hch]. cbn [option_map]. f_equal.
  unfold childrenAmong. destruct e as [i it pa ch]. cbn [TreeView.children] in Hch.
  subst ch. now destruct (JSString.truthy k).
Qed.

Lemma nested_same (done : list string) (path : string) (cats : TreeView.Categories) :
  nested cats0 done cats ->
  (forall k e, held k cats0 = Some e ->
               JSString.truthy k && isChildOf k path = false) ->
  nested cats0 (done ++ [path]) cats.
Proof.
  intros [Hshape Hget] Hnone. split; [exact Hshape|]. intros k. rewrite Hget.
  destruct (held k cats0) as [e|] eqn:E; [|reflexivity].
  cbn [option_map]. rewrite childrenAmong_snoc, (Hnone k e E), app_nil_r. reflexivity.
Qed.

(** One path of the second loop: the step throws exactly when the
    prototype chain answers for the parent path. *)
Lemma pushChild_step (done : list string) (path : string) (cats : TreeView.Categories) :
  nested cats0 done cats ->
  (exists e, held path cats0 = Some e) ->
  ~ In path done ->
  match TreeView.pushChild cats path with
  | Throw _ =>
      exists q, TreeView.parentOf path = Some q /\ foreign q cats0 = true
  | Return cats' =>
      (forall q, TreeView.parentOf path = Some q -> foreign q cats0 = false)
      /\ nested cats0 (done ++ [path]) cats'
  end.
Proof.
  intros Hnested [e0 He0] Hnew. pose proof Hnested as [Hshape Hget].
  assert (Hpath : TreeView.lookup path cats
                  = TreeView.Held (withChildren e0 (childrenAmong path done))).
  { apply held_Some. rewrite Hget, He0. reflexivity. }
  unfold TreeView.pushChild. rewrite Hpath. cbn [withChildren TreeView.parent].
  destruct (fresh0 path e0 He0) as [Hparent _]. rewrite Hparent.
  destruct (TreeView.parentOf path) as [q|] eqn:Hq.
  - destruct (JSString.truthy q) eqn:Htruthy.
    + pose proof (Hget q) as Hgq.
      assert (Hf : foreign q cats0 = foreign q cats) by (apply foreign_shape; exact Hshape).
      unfold held in Hgq at 1. unfold foreign in Hf at 2.
      destruct (TreeView.lookup q cats) as [pe| |] eqn:Hlq.
      * destruct (held q cats0) as [eq|] eqn:Heq; [|discriminate Hgq].
        cbn [option_map] in Hgq. injection Hgq as ->.
        cbn [withChildren TreeView.children TreeView.info TreeView.items TreeView.parent].
        assert (Habsent : existsb (String.eqb path) (childrenAmong q done) = false).
        { destruct (existsb (String.eqb path) (childrenAmong q done)) eqn:E;
            [|reflexivity].
          apply existsb_exists in E. destruct E as (x & Hx & Ex).
          apply String.eqb_eq in Ex. subst x.
          unfold childrenAmong in Hx. rewrite Htruthy in Hx.
          apply filter_In in Hx. tauto. }
        rewrite Habsent. cbn [negb].
        split; [intros q' E; injection E as <-; exact Hf|].
        split.
        { eapply sameShape_trans; [exact Hshape|].
          apply (replace_shape q _ _ cats Hlq). reflexivity. }
        intros k. rewrite (held_replace q k _ _ cats Hlq).
        destruct (String.eqb_spec k q) as [->|Hne].
        -- rewrite Heq. cbn [option_map]. f_equal. unfold withChildren.
           cbn [TreeView.info TreeView.items TreeView.parent]. f_equal.
           rewrite childrenAmong_snoc, Htruthy. unfold isChildOf. rewrite Hq.
           rewrite String.eqb_refl. reflexivity.
        -- rewrite Hget.
           destruct (held k cats0) as [e|]; [|reflexivity].
           cbn [option_map]. rewrite childrenAmong_snoc. unfold isChildOf. rewrite Hq.
           assert (E : (q =? k) = false) by (apply String.eqb_neq; congruence).
           rewrite E, andb_false_r, app_nil_r. reflexivity.
      * exists q. split; [reflexivity|exact Hf].
      * split; [intros q' E; injection E as <-; exact Hf|].
        apply nested_same; [exact Hnested|].
        intros k e Hk. unfold isChildOf. rewrite Hq.
        destruct (String.eqb_spec q k) as [<-|Hne]; [|apply andb_false_r].
        rewrite Hk in Hgq. discriminate Hgq.
    + split.
      { intros q' E. injection E as <-.
        assert (Hempty : q = "").
        { destruct (string_dec q "") as [E|E]; [exact E|].
          apply truthy_true in E. congruence. }
        rewrite Hempty. apply foreign_empty. }
      apply nested_same; [exact Hnested|].
      intros k e Hk. unfold isChildOf. rewrite Hq.
      destruct (String.eqb_spec q k) as [<-|Hne];
        [rewrite Htruthy; reflexivity|apply andb_false_r].
  - split; [intros q' E; discriminate E|].
    apply nested_same; [exact Hnested|].
    intros k e Hk. unfold isChildOf. rewrite Hq. apply andb_false_r.
Qed.

Lemma pushChild_fold (todo : list string) :
  forall (done : list string) (cats : TreeView.Categories),
    nested cats0 done cats ->
    NoDup (done ++ todo) ->
    (forall path, In path todo -> exists e, held path cats0 = Some e) ->
    match forEach TreeView.pushChild todo cats with
    | Throw _ =>
        exists path q, In path todo /\ TreeView.parentOf path = Some q
                       /\ foreign q cats0 = true
    | Return cats' =>
        (forall path q, In path todo -> TreeView.parentOf path = Some q ->
                        foreign q cats0 = false)
        /\ nested cats0 (done ++ todo) cats'
    end.
Proof.
  induction todo as [|path r IH]; intros done cats Hnested Hnd Hin; cbn [forEach].
  - rewrite app_nil_r. split; [intros path q []|exact Hnested].
  - assert (Hnew : ~ In path done).
    { apply NoDup_remove_2 in Hnd. intros H. apply Hnd. apply in_or_app. now left. }
    pose proof (pushChild_step done path cats Hnested (Hin path (or_introl eq_refl)) Hnew)
      as Hstep.
    destruct (TreeView.pushChild cats path) as [cats1|message]; cbn [bindC].
    + destruct Hstep as [Hparent Hnested1].
      assert (Hnd1 : NoDup ((done ++ [path]) ++ r)).
      { rewrite <- app_assoc. exact Hnd. }
      specialize (IH (done ++ [path]) cats1 Hnested1 Hnd1
                     (fun p Hp => Hin p (or_intror Hp))).
      destruct (forEach TreeView.pushChild r cats1) as [cats'|message].
      * destruct IH as [Hparents Hnested']. split.
        -- intros p q [<-|Hp]; [apply Hparent|apply Hparents; exact Hp].
        -- rewrite <- app_assoc in Hnested'. exact Hnested'.
      * destruct IH as (p & q & Hp & Hq & Hf). exists p, q. split; [now right|tauto].
    + destruct Hstep as (q & Hq & Hf). exists path, q. split; [now left|tauto].
Qed.

(** The second loop: it throws exactly when the prototype chain answers
    for the parent path of an own key; otherwise every entry has got as
    children the own keys whose parent it is, in the order of
    [Object.keys]. *)
Lemma populateChildren_nested :
  JSMap.wf (TreeView.own cats0) ->
  match TreeView.populateChildren cats0 with
  | Throw _ =>
      exists path q, In path (JSMap.keys (TreeView.own cats0))
                     /\ TreeView.parentOf path = Some q /\ foreign q cats0 = true
  | Return cats =>
      (forall path q, In path (JSMap.keys (TreeView.own cats0)) ->
                      TreeView.parentOf path = Some q -> foreign q cats0 = false)
      /\ nested cats0 (JSObject.keys (TreeView.own cats0)) cats
  end.
Proof.
  intros Hwf. unfold TreeView.populateChildren.
  pose proof (pushChild_fold (JSObject.keys (TreeView.own cats0)) [] cats0 nested_start
                (NoDup_object_keys _ Hwf)) as H.
  cbn [app] in H.
  assert (Hheld : forall path, In path (JSObject.keys (TreeView.own cats0)) ->
                               exists e, held path cats0 = Some e).
  { intros path Hin. apply (proj1 (In_object_keys _ _)) in Hin.
    apply In_keys_get in Hin. destruct Hin as [e He].
    exists e. unfold held, TreeView.lookup. now rewrite He. }
  specialize (H Hheld).
  destruct (forEach TreeView.pushChild (JSObject.keys (TreeView.own cats0)) cats0).
  - destruct H as [Hparents Hnested]. split; [|exact Hnested].
    intros path q Hin. apply Hparents. apply In_object_keys. exact Hin.
  - destruct H as (path & q & Hin & Hq & Hf). exists path, q.
    split; [apply In_object_keys; exact Hin|tauto].
Qed.

End SecondLoop.

(** *** The three loops together *)

Lemma initCategories_fresh (stored : JSMap.t CategoryInfo) (k : string)
      (e : TreeView.Entry) :
  held k (TreeView.initCategories stored) = Some e ->
  TreeView.items e = []
  /\ TreeView.parent e = TreeView.parentOf k /\ TreeView.children e = [].
Proof.
  intros He. destruct (initCategories_held stored) as (_ & Hbare & _).
  cbv zeta in Hbare. specialize (Hbare k). rewrite He in Hbare.
  cbn [option_map] in Hbare.
  destruct (isShown k && JSMap.has k stored); [|discriminate Hbare].
  unfold bare in Hbare. injection Hbare as H1 H2 H3. tauto.
Qed.

Lemma initCategories_holds (stored : JSMap.t CategoryInfo) (k : string) :
  match held k (TreeView.initCategories stored) with
  | Some _ => true
  | None => false
  end
  = isShown k && JSMap.has k stored.
Proof.
  destruct (initCategories_held stored) as (_ & Hbare & _).
  cbv zeta in Hbare. specialize (Hbare k).
  destruct (held k (TreeView.initCategories stored));
    destruct (isShown k && JSMap.has k stored); cbn [option_map] in Hbare;
    congruence.
Qed.

Lemma initCategories_proper (stored : JSMap.t CategoryInfo) :
  proper (TreeView.initCategories stored).
Proof.
  unfold TreeView.initCategories.
  apply (initCategories_from stored (TreeView.mkCategories [] None) proper_empty
           ltac:(constructor)).
Qed.

(** After the first loop the prototype chain answers for the keys that
    [inheritedKey] names, and for no other. *)
Lemma foreign_init (stored : JSMap.t CategoryInfo) (key : string) :
  foreign key (TreeView.initCategories stored) = inheritedKey stored key.
Proof.
  pose proof (initCategories_holds stored key) as Hk.
  pose proof (initCategories_holds stored "__proto__") as Hp.
  pose proof (initCategories_fresh stored "__proto__") as Hfresh.
  pose proof (initCategories_proper stored) as Hproper.
  unfold proper in Hproper. unfold inheritedKey. rewrite <- Hk.
  change (isShown "__proto__") with true in Hp. cbn [andb] in Hp. rewrite <- Hp.
  unfold foreign, held, TreeView.lookup in *. rewrite Hproper in *.
  destruct (JSMap.get key (TreeView.own (TreeView.initCategories stored)));
    [reflexivity|].
  destruct (TreeView.installed (TreeView.initCategories stored)) as [ie|].
  - cbn [String.eqb Ascii.eqb Bool.eqb andb] in Hfresh |- *.
    destruct (Hfresh ie eq_refl) as (_ & Hparent & _). rewrite Hparent.
    destruct (String.eqb_spec key "__proto__") as [->|_]; [reflexivity|].
    destruct ((key =? "info") || (key =? "items") || (key =? "children"));
      [cbn [negb andb]; now rewrite orb_true_r|].
    destruct (String.eqb_spec key "parent") as [->|_]; [reflexivity|].
    cbn [negb andb]. rewrite orb_false_r. now destruct (JSObject.inherits key).
  - cbn [JSObject.inherits existsb String.eqb Ascii.eqb Bool.eqb andb orb negb].
    rewrite orb_false_r. now destruct (JSObject.inherits key).
Qed.

Lemma categoryKey_set (p : Prompt.t) :
  Prompt.category p <> "" -> TreeView.categoryKey p = Prompt.category p.
Proof.
  intros H. unfold TreeView.categoryKey. apply orElse_truthy, truthy_true. exact H.
Qed.

Lemma categoryKey_unset (p : Prompt.t) :
  Prompt.category p = "" -> TreeView.categoryKey p = "uncategorized".
Proof. intros H. unfold TreeView.categoryKey. rewrite H. reflexivity. Qed.

(** What [buildTreeStructure] does, written out. It throws exactly when
    the collection is not [buildable]. When it returns, the table has the
    shape that the first loop gave it; the favorites bucket holds the
    flagged records; the uncategorized bucket holds the unflagged records
    whose category key is ['uncategorized'] and finds no entry; and a key
    that found an entry after the first loop finds it with the own keys
    whose parent it is as children, in the order of [Object.keys], and with
    the records of that category key as items. *)
Lemma buildTreeStructure_spec (storage : StorageManager.t) :
  let stored := StorageManager.categories storage in
  let prompts := JSMap.values (StorageManager.prompts storage) in
  let cats0 := TreeView.initCategories stored in
  match TreeView.buildTreeStructure storage with
  | Throw _ => ~ buildable storage
  | Return tree =>
      buildable storage
      /\ sameShape cats0 (TreeView.categories tree)
      /\ TreeView.favorites tree = filter Prompt.isFavorite prompts
      /\ TreeView.uncategorized tree
         = filter (fun p => negb (isShown (TreeView.categoryKey p)
                                  && JSMap.has (TreeView.categoryKey p) stored)
                            && (TreeView.categoryKey p =? "uncategorized")
                            && negb (Prompt.isFavorite p))
                  prompts
      /\ forall c,
           held c (TreeView.categories tree)
           = option_map
               (fun e =>
                  addItems
                    (withChildren e (childrenAmong c (JSObject.keys (TreeView.own cats0))))
                    (filter (fun p => TreeView.categoryKey p =? c) prompts))
               (held c cats0)
  end.
Proof.
  cbv zeta. unfold TreeView.buildTreeStructure, buildable.
  cbn [TreeView.categories TreeView.favorites TreeView.uncategorized].
  set (stored := StorageManager.categories storage).
  set (prompts := JSMap.values (StorageManager.prompts storage)).
  set (cats0 := TreeView.initCategories stored).
  destruct (initCategories_held stored) as (Hwf & _ & Hkeys).
  cbv zeta in Hwf, Hkeys. fold cats0 in Hwf, Hkeys.
  assert (Hfresh : forall k e, held k cats0 = Some e ->
                               TreeView.parent e = TreeView.parentOf k
                               /\ TreeView.children e = []).
  { intros k e He. apply initCategories_fresh in He. tauto. }
  pose proof (populateChildren_nested cats0 Hfresh Hwf) as Hsecond.
  destruct (TreeView.populateChildren cats0) as [cats1|message]; cbn [bindC].
  - destruct Hsecond as (Hparents & Hshape & Hheld).
    pose proof (placeAll_spec prompts (TreeView.mkTree cats1 [] [])) as Hthird.
    cbn [TreeView.categories TreeView.favorites TreeView.uncategorized app] in Hthird.
    destruct (forEach TreeView.place prompts (TreeView.mkTree cats1 [] []))
      as [tree|message].
    + destruct Hthird as (Hkeyed & Hshape' & Hfav & Hunc & Hitems).
      split; [split|].
      * intros path q Hin Hq. fold stored. rewrite <- foreign_init. fold cats0.
        destruct (isOwn path) eqn:Hown.
        -- apply (Hparents path q); [|exact Hq]. apply Hkeys. tauto.
        -- exfalso. unfold isOwn, isShown in Hown.
           destruct (String.eqb_spec path "favorites") as [->|_]; [discriminate Hq|].
           destruct (String.eqb_spec path "__proto__") as [->|_]; [discriminate Hq|].
           discriminate Hown.
      * intros p Hp. fold stored. rewrite <- foreign_init. fold cats0.
        rewrite (foreign_shape _ _ _ Hshape). apply Hkeyed. exact Hp.
      * split; [eapply sameShape_trans; eassumption|].
        split; [exact Hfav|]. split.
        -- rewrite Hunc. apply filter_ext. intros p.
           rewrite Hheld, <- (initCategories_holds stored (TreeView.categoryKey p)).
           fold cats0.
           now destruct (held (TreeView.categoryKey p) cats0).
        -- intros c. rewrite Hitems, Hheld.
           now destruct (held c cats0).
    + intros [_ Hkeyed]. destruct Hthird as (p & Hp & Hf).
      rewrite <- (foreign_shape _ _ _ Hshape) in Hf.
      unfold cats0 in Hf. rewrite foreign_init in Hf.
      rewrite (Hkeyed p Hp) in Hf. discriminate Hf.
  - intros [Hparents _]. destruct Hsecond as (path & q & Hin & Hq & Hf).
    apply Hkeys in Hin. destruct Hin as [_ Hin].
    unfold cats0 in Hf. rewrite foreign_init in Hf.
    rewrite (Hparents path q Hin Hq) in Hf. discriminate Hf.
Qed.

(** [buildTreeStructure] returns a tree exactly for the collections that
    are [buildable]. *)
Lemma buildTreeStructure_returns (storage : StorageManager.t) :
  (exists tree, TreeView.buildTreeStructure storage = Return tree) <-> buildable storage.
Proof.
  pose proof (buildTreeStructure_spec storage) as H. cbv zeta in H.
  destruct (TreeView.buildTreeStructure storage) as [tree|message].
  - split; [intros _; apply H|intros _; eauto].
  - split; [intros [tree E]; discriminate E|intros Hb; contradiction].
Qed.

(** C2 (as amended). For every collection in which no record's category
    and no stored path's parent path is a name for which the prototype
    chain of the tree's table answers, [buildTreeStructure] returns a tree
    in which each record whose category has a stored entry other than the
    reserved ['favorites'] is among the items of that category; each record
    whose category is unset and whose favorite flag is false is in the
    uncategorized bucket and in no other bucket, provided that no category
    called ['uncategorized'] is stored; each record whose category is unset
    is among the items of the category ['uncategorized'], and not in the
    uncategorized bucket, when such a category is stored; and each record
    whose favorite flag is true is in the favorites bucket, whatever its
    category. *)
Theorem buildTreeStructure_placement (storage : StorageManager.t) :
  buildable storage ->
  let stored := StorageManager.categories storage in
  exists tree,
    TreeView.buildTreeStructure storage = Return tree
    /\ forall p,
         In p (JSMap.values (StorageManager.prompts storage)) ->
         (Prompt.category p <> "" ->
          Prompt.category p <> "favorites" ->
          JSMap.has (Prompt.category p) stored = true ->
          exists entry,
            TreeView.lookup (Prompt.category p) (TreeView.categories tree)
            = TreeView.Held entry
            /\ In p (TreeView.items entry))
         /\ (Prompt.category p = "" ->
             Prompt.isFavorite p = false ->
             JSMap.has "uncategorized" stored = false ->
             In p (TreeView.uncategorized tree)
             /\ ~ In p (TreeView.favorites tree)
             /\ forall c entry,
                 TreeView.lookup c (TreeView.categories tree) = TreeView.Held entry ->
                 ~ In p (TreeView.items entry))
         /\ (Prompt.category p = "" ->
             JSMap.has "uncategorized" stored = true ->
             ~ In p (TreeView.uncategorized tree)
             /\ exists entry,
                 TreeView.lookup "uncategorized" (TreeView.categories tree)
                 = TreeView.Held entry
                 /\ In p (TreeView.items entry))
         /\ (Prompt.isFavorite p = true -> In p (TreeView.favorites tree)).
Proof.
  intros Hbuildable. cbv zeta.
  pose proof (buildTreeStructure_spec storage) as Hspec. cbv zeta in Hspec.
  destruct (TreeView.buildTreeStructure storage) as [tree|message];
    [|contradiction].
  destruct Hspec as (_ & _ & Hfavorites & Huncategorized & Hheld).
  exists tree. split; [reflexivity|]. intros p Hin.
  assert (Hfiled : forall c,
             isShown c = true ->
             JSMap.has c (StorageManager.categories storage) = true ->
             TreeView.categoryKey p = c ->
             exists entry,
               TreeView.lookup c (TreeView.categories tree) = TreeView.Held entry
               /\ In p (TreeView.items entry)).
  { intros c Hshown Hstored Hkey.
    pose proof (initCategories_holds (StorageManager.categories storage) c) as Hc.
    rewrite Hshown, Hstored in Hc. cbn [andb] in Hc.
    specialize (Hheld c).
    destruct (held c (TreeView.initCategories (StorageManager.categories storage)))
      as [e0|]; [|discriminate Hc].
    cbn [option_map] in Hheld. apply held_Some in Hheld.
    eexists. split; [exact Hheld|].
    cbn [addItems TreeView.items]. apply in_or_app. right.
    apply filter_In. split; [exact Hin|]. rewrite Hkey. apply String.eqb_refl. }
  split; [|split; [|split]].
  - intros Hset Hreserved Hstored.
    apply Hfiled; [|exact Hstored|apply categoryKey_set; exact Hset].
    unfold isShown. apply negb_true_iff, String.eqb_neq. exact Hreserved.
  - intros Hunset Hflag Hstored.
    pose proof (categoryKey_unset p Hunset) as Hkey.
    split; [|split].
    + rewrite Huncategorized. apply filter_In. split; [exact Hin|].
      rewrite Hkey, Hstored, Hflag. reflexivity.
    + rewrite Hfavorites. intros H. apply filter_In in H. destruct H as [_ H]. congruence.
    + intros c entry Hentry H.
      apply held_Some in Hentry. rewrite Hheld in Hentry.
      pose proof (initCategories_holds (StorageManager.categories storage) c) as Hc.
      pose proof (initCategories_fresh (StorageManager.categories storage) c) as Hfresh.
      destruct (held c (TreeView.initCategories (StorageManager.categories storage)))
        as [e0|]; [|discriminate Hentry].
      cbn [option_map] in Hentry. injection Hentry as <-.
      destruct (Hfresh e0 eq_refl) as (Hitems & _).
      cbn [addItems withChildren TreeView.items] in H. rewrite Hitems in H.
      cbn [app] in H. apply filter_In in H. destruct H as [_ H].
      rewrite Hkey in H. apply String.eqb_eq in H. subst c.
      rewrite Hstored, andb_false_r in Hc. discriminate Hc.
  - intros Hunset Hstored.
    pose proof (categoryKey_unset p Hunset) as Hkey.
    split.
    + rewrite Huncategorized. intros H. apply filter_In in H. destruct H as [_ H].
      rewrite Hkey, Hstored in H. discriminate H.
    + apply Hfiled; [reflexivity|exact Hstored|exact Hkey].
  - intros Hflag. rewrite Hfavorites. apply filter_In. split; assumption.
Qed.

Lemma sample_manager_buildable : buildable Sample.manager.
Proof.
  split.
  - intros path q Hin Hq. simpl in Hin.
    destruct Hin as [<-|[<-|[<-|[<-|[]]]]]; try discriminate Hq.
    injection Hq as <-. reflexivity.
  - intros p Hin. simpl in Hin. destruct Hin as [<-|[<-|[]]]; reflexivity.
Qed.

Lemma buildTreeStructure_placement_witness :
  exists tree,
    TreeView.buildTreeStructure Sample.manager = Return tree
    /\ (exists entry,
           TreeView.lookup "linguaggi/java" (TreeView.categories tree)
           = TreeView.Held entry
           /\ In Sample.codeReview (TreeView.items entry))
    /\ In Sample.codeReview (TreeView.favorites tree).
Proof.
  destruct (buildTreeStructure_placement Sample.manager sample_manager_buildable)
    as (tree & Htree & Hplaced).
  exists tree. split; [exact Htree|].
  destruct (Hplaced Sample.codeReview ltac:(simpl; tauto))
    as (Hcategory & _ & _ & Hfavorite).
  split.
  - apply Hcategory; [discriminate|discriminate|reflexivity].
  - apply Hfavorite. reflexivity.
Defined.

(** C2 (as stated) fails on records whose category is not among the
    entries of the tree. A record filed under a category that is not
    stored, and not a favorite, is in no bucket at all, the uncategorized
    one included; and a record filed under ['favorites'], which is stored,
    is in no item list, because the tree has no entry for that path. It
    fails as well on a collection with a flagged record filed under
    ['constructor'], a name that no category has: [Object.prototype]
    answers for that name, and [buildTreeStructure] throws instead of
    building a tree. *)
Lemma buildTreeStructure_strays :
  (JSMap.get "prompt-2-b" (StorageManager.prompts Sample.strays) = Some Sample.orphan
   /\ Prompt.category Sample.orphan = "archive"
   /\ Prompt.isFavorite Sample.orphan = false
   /\ JSMap.has "archive" (StorageManager.categories Sample.strays) = false
   /\ JSMap.has "favorites" (StorageManager.categories Sample.strays) = true
   /\ exists tree,
        TreeView.buildTreeStructure Sample.strays = Return tree
        /\ TreeView.uncategorized tree = []
        /\ TreeView.favorites tree = []
        /\ forallb (fun kv => match TreeView.items (snd kv) with [] => true | _ => false end)
                   (TreeView.own (TreeView.categories tree))
           = true
        /\ TreeView.installed (TreeView.categories tree) = None
        /\ TreeView.lookup "favorites" (TreeView.categories tree) = TreeView.Nothing)
  /\ (option_map (fun p => (Prompt.category p, Prompt.isFavorite p))
        (JSMap.get "prompt-1-a" (StorageManager.prompts Sample.named))
      = Some ("constructor", true)
      /\ JSMap.has "constructor" (StorageManager.categories Sample.named) = false
      /\ TreeView.buildTreeStructure Sample.named
         = Throw "TypeError: Cannot read properties of undefined (reading 'push')").
Proof.
  split.
  - repeat split; try (vm_compute; reflexivity).
    eexists. repeat split; vm_compute; reflexivity.
  - repeat split; vm_compute; reflexivity.
Qed.

(** The same happens when the record is not flagged, and with a stored
    path ['toString/notes'], whose parent path finds a function. *)
Example buildTreeStructure_throws :
  TreeView.buildTreeStructure
    (StorageManager.mk
       [("prompt-2-b", Prompt.set_category "constructor" Sample.recruiter)]
       (StorageManager.categories Sample.manager) []
       StorageManager.getDefaultSettings)
  = Throw "TypeError: Cannot read properties of undefined (reading 'push')"
  /\ TreeView.buildTreeStructure
       (StorageManager.mk []
          [("toString/notes", Sample.folder "Notes")] []
          StorageManager.getDefaultSettings)
     = Throw "TypeError: Cannot read properties of undefined (reading 'includes')".
Proof. split; vm_compute; reflexivity. Qed.

(* ================================================================== *)
(** * Part III. Further properties of the modelled code *)
(* ================================================================== *)

(** ** More on strings *)

Lemma length_nonneg (s : string) : (0 <= JSString.length s)%Z.
Proof. unfold JSString.length. lia. Qed.

Lemma length_String (c : ascii) (s : string) :
  JSString.length (String c s) = (JSString.length s + 1)%Z.
Proof. unfold JSString.length. simpl String.length. lia. Qed.

Lemma trimStart_length (s : string) :
  (JSString.length (JSString.trimStart s) <= JSString.length s)%Z.
Proof.
  induction s as [|c r IH]; simpl; [lia|].
  destruct (JSString.isWhiteSpace c); rewrite ?length_String; lia.
Qed.

Lemma trimEnd_length (s : string) :
  (JSString.length (JSString.trimEnd s) <= JSString.length s)%Z.
Proof.
  induction s as [|c r IH]; simpl; [lia|].
  destruct (JSString.trimEnd r) as [|c' r'].
  - destruct (JSString.isWhiteSpace c); rewrite ?length_String;
      pose proof (length_nonneg r); unfold JSString.length in *; simpl; lia.
  - rewrite !length_String in *. lia.
Qed.

Lemma trim_length (s : string) :
  (JSString.length (JSString.trim s) <= JSString.length s)%Z.
Proof.
  unfold JSString.trim.
  pose proof (trimEnd_length (JSString.trimStart s)).
  pose proof (trimStart_length s). lia.
Qed.

Lemma trimEnd_head (c : ascii) (r : string) :
  JSString.isWhiteSpace c = false ->
  JSString.trimEnd (String c r) = String c (JSString.trimEnd r).
Proof.
  intros H. simpl. destruct (JSString.trimEnd r); [now rewrite H|reflexivity].
Qed.

Lemma trimStart_head (c : ascii) (r : string) :
  JSString.isWhiteSpace c = false -> JSString.trimStart (String c r) = String c r.
Proof. intros H. simpl. now rewrite H. Qed.

Lemma trimStart_shape (s : string) :
  JSString.trimStart s = ""
  \/ exists c r, JSString.trimStart s = String c r /\ JSString.isWhiteSpace c = false.
Proof.
  induction s as [|c r IH]; simpl; [now left|].
  destruct (JSString.isWhiteSpace c) eqn:E; [exact IH|].
  right. exists c, r. split; [reflexivity|exact E].
Qed.

Lemma trimEnd_cons (c : ascii) (r : string) :
  JSString.trimEnd (String c r)
  = match JSString.trimEnd r with
    | EmptyString =>
        if JSString.isWhiteSpace c then EmptyString else String c EmptyString
    | r' => String c r'
    end.
Proof. reflexivity. Qed.

Lemma trimEnd_idempotent (s : string) :
  JSString.trimEnd (JSString.trimEnd s) = JSString.trimEnd s.
Proof.
  induction s as [|c r IH]; [reflexivity|].
  rewrite (trimEnd_cons c r).
  destruct (JSString.trimEnd r) as [|c' r'] eqn:E.
  - destruct (JSString.isWhiteSpace c) eqn:Ec; [reflexivity|].
    rewrite trimEnd_cons. simpl. now rewrite Ec.
  - rewrite trimEnd_cons, IH. reflexivity.
Qed.

(** [trim] is idempotent. *)
Lemma trim_idempotent (s : string) : JSString.trim (JSString.trim s) = JSString.trim s.
Proof.
  unfold JSString.trim.
  destruct (trimStart_shape s) as [E|(c & r & E & Hc)]; rewrite E.
  - reflexivity.
  - rewrite (trimEnd_head c r Hc), (trimStart_head _ _ Hc).
    rewrite <- (trimEnd_head c r Hc). apply trimEnd_idempotent.
Qed.

Lemma no_space_trimStart (s : string) :
  forallb (fun c => negb (JSString.isWhiteSpace c)) (chars s) = true ->
  JSString.trimStart s = s.
Proof.
  destruct s as [|c r]; [reflexivity|]. simpl. intros H.
  apply andb_true_iff in H. destruct H as [H _]. apply negb_true_iff in H.
  now rewrite H.
Qed.

Lemma no_space_trimEnd (s : string) :
  forallb (fun c => negb (JSString.isWhiteSpace c)) (chars s) = true ->
  JSString.trimEnd s = s.
Proof.
  induction s as [|c r IH]; [reflexivity|]. simpl. intros H.
  apply andb_true_iff in H. destruct H as [Hc Hr]. apply negb_true_iff in Hc.
  rewrite (IH Hr). destruct r; [now rewrite Hc|reflexivity].
Qed.

Lemma no_space_trim (s : string) :
  forallb (fun c => negb (JSString.isWhiteSpace c)) (chars s) = true ->
  JSString.trim s = s.
Proof.
  intros H. unfold JSString.trim. rewrite (no_space_trimStart s H).
  apply no_space_trimEnd. exact H.
Qed.

Lemma substring_length (n : nat) (s : string) :
  (String.length (String.substring 0 n s) <= n)%nat
  /\ (String.length (String.substring 0 n s) <= String.length s)%nat.
Proof.
  revert s. induction n as [|n IH]; intros s.
  - destruct s; simpl; lia.
  - destruct s as [|c r]; simpl; [lia|]. specialize (IH r). lia.
Qed.

Lemma substring_chars (n : nat) (s : string) (Q : ascii -> bool) :
  forallb Q (chars s) = true -> forallb Q (chars (String.substring 0 n s)) = true.
Proof.
  revert s. induction n as [|n IH]; intros s H.
  - destruct s; reflexivity.
  - destruct s as [|c r]; [reflexivity|]. simpl in *.
    apply andb_true_iff in H. destruct H as [Hc Hr].
    rewrite Hc. simpl. apply IH. exact Hr.
Qed.

Lemma startsWith_substring (n : nat) (s q : string) :
  JSString.startsWith (String.substring 0 n s) q = true ->
  JSString.startsWith s q = true.
Proof.
  revert s q. induction n as [|n IH]; intros s q H.
  - destruct s, q; simpl in *; try reflexivity; discriminate.
  - destruct s as [|c r]; [exact H|].
    destruct q as [|b q']; [reflexivity|]. simpl in *.
    apply andb_true_iff in H. destruct H as [Hc Hr].
    rewrite Hc. simpl. apply IH. exact Hr.
Qed.

Lemma includes_substring (n : nat) (s q : string) :
  JSString.includes (String.substring 0 n s) q = true ->
  JSString.includes s q = true.
Proof.
  revert s. induction n as [|n IH]; intros s H.
  - assert (E : String.substring 0 0 s = "") by (destruct s; reflexivity).
    rewrite E in H. simpl in H. rewrite orb_false_r in H.
    destruct q; [|discriminate]. destruct s; reflexivity.
  - destruct s as [|c r]; [exact H|].
    change (String.substring 0 (S n) (String c r))
      with (String c (String.substring 0 n r)) in H.
    simpl JSString.includes in *.
    apply orb_true_iff in H. apply orb_true_iff. destruct H as [H|H].
    + left. apply (startsWith_substring (S n) (String c r)). exact H.
    + right. apply IH. exact H.
Qed.

Lemma forallb_weaken {A : Type} (P Q : A -> bool) (l : list A) :
  (forall x, P x = true -> Q x = true) ->
  forallb P l = true -> forallb Q l = true.
Proof.
  intros HPQ. induction l as [|x r IH]; [reflexivity|]. simpl. intros H.
  apply andb_true_iff in H. destruct H as [Hx Hr].
  rewrite (HPQ x Hx). simpl. apply IH. exact Hr.
Qed.

Lemma keepChars_forall (K : ascii -> bool) (s : string) :
  forallb K (chars (JSString.keepChars K s)) = true.
Proof.
  induction s as [|a r IH]; [reflexivity|]. cbn [JSString.keepChars].
  destruct (K a) eqn:E; [|exact IH].
  change (K a && forallb K (chars (JSString.keepChars K r)) = true).
  rewrite E. exact IH.
Qed.

Lemma replaceRuns_cons (P : ascii -> bool) (a : ascii) (r : string) :
  JSString.replaceRuns P (String a r)
  = if P a then
      match r with
      | EmptyString => "-"
      | String b _ =>
          if P b then JSString.replaceRuns P r
          else String "-" (JSString.replaceRuns P r)
      end
    else String a (JSString.replaceRuns P r).
Proof. reflexivity. Qed.

(** After [replace(/P+/g, '-')] a character is the hyphen or one of the
    old characters outside [P]. *)
Lemma replaceRuns_forall (P Q : ascii -> bool) (s : string) :
  forallb Q (chars s) = true ->
  forallb (fun c => JSString.isHyphen c || (Q c && negb (P c)))
          (chars (JSString.replaceRuns P s)) = true.
Proof.
  induction s as [|a r IH]; [reflexivity|]. intros H.
  change (chars (String a r)) with (a :: chars r) in H. simpl forallb in H.
  apply andb_true_iff in H. destruct H as [Ha Hr]. specialize (IH Hr).
  rewrite replaceRuns_cons. destruct (P a) eqn:Ea.
  - destruct r as [|b r']; [reflexivity|].
    destruct (P b); [exact IH|].
    change (chars (String "-" ?x)) with ("-"%char :: chars x).
    simpl forallb. exact IH.
  - change (chars (String a ?x)) with (a :: chars x). simpl forallb.
    rewrite Ha, Ea, orb_true_r. exact IH.
Qed.

Lemma startsWith_two (a : ascii) (s : string) (b c : ascii) :
  JSString.startsWith (String a s) (String b (String c ""))
  = Ascii.eqb a b && JSString.startsWith s (String c "").
Proof. reflexivity. Qed.

Lemma includes_cons (a : ascii) (s q : string) :
  JSString.includes (String a s) q
  = JSString.startsWith (String a s) q || JSString.includes s q.
Proof. reflexivity. Qed.

(** After [replace(/-+/g, '-')] no two hyphens are adjacent. *)
Lemma replaceRuns_hyphen_single (s : string) :
  JSString.includes (JSString.replaceRuns JSString.isHyphen s) "--" = false.
Proof.
  induction s as [|a r IH]; [reflexivity|].
  rewrite replaceRuns_cons. destruct (JSString.isHyphen a) eqn:Ea.
  - destruct r as [|b r']; [reflexivity|].
    destruct (JSString.isHyphen b) eqn:Eb; [exact IH|].
    rewrite includes_cons, IH, orb_false_r.
    rewrite replaceRuns_cons, Eb, startsWith_two.
    unfold JSString.isHyphen in Eb. simpl JSString.startsWith. rewrite Eb.
    apply andb_false_r.
  - rewrite includes_cons, IH, orb_false_r, startsWith_two.
    unfold JSString.isHyphen in Ea. rewrite Ea. reflexivity.
Qed.

Lemma fileChar_no_space (c : ascii) :
  JSString.isLowerAlnum c || JSString.isHyphen c = true ->
  negb (JSString.isWhiteSpace c) = true.
Proof.
  destruct c as [[] [] [] [] [] [] [] []]; intros H;
    first [reflexivity | discriminate H].
Qed.

(** X1 (getFilename). The file name that [getFilename] derives from a title
    is a stem followed by [.prompt.yaml]; the stem has at most 50
    characters, each a lower-case letter a-z, a digit or a hyphen, and no
    two hyphens in a row. A hyphen at either end stays: [trim('-')] strips
    white space only, and none is left by then. *)
Theorem getFilename_safe (p : Prompt.t) :
  exists stem : string,
    Prompt.getFilename p = (stem ++ ".prompt.yaml")%string
    /\ (JSString.length stem <= 50)%Z
    /\ forallb (fun c => JSString.isLowerAlnum c || JSString.isHyphen c)
               (chars stem) = true
    /\ JSString.includes stem "--" = false
    /\ stem
       = JSString.substringTo 50
           (JSString.replaceRuns JSString.isHyphen
              (JSString.replaceRuns JSString.isWhiteSpace
                 (JSString.keepChars
                    (fun c => JSString.isLowerAlnum c || JSString.isWhiteSpace c
                              || JSString.isHyphen c)
                    (JSString.toLowerCase (Prompt.title p))))).
Proof.
  unfold Prompt.getFilename.
  set (K := fun c => JSString.isLowerAlnum c || JSString.isWhiteSpace c
                     || JSString.isHyphen c).
  set (F := fun c => JSString.isLowerAlnum c || JSString.isHyphen c).
  set (s1 := JSString.keepChars K (JSString.toLowerCase (Prompt.title p))).
  set (s2 := JSString.replaceRuns JSString.isWhiteSpace s1).
  set (s3 := JSString.replaceRuns JSString.isHyphen s2).
  cbv zeta.
  assert (H1 : forallb K (chars s1) = true) by apply keepChars_forall.
  assert (H2 : forallb F (chars s2) = true).
  { apply (replaceRuns_forall JSString.isWhiteSpace K) in H1.
    revert H1. apply forallb_weaken. intros c. unfold F, K.
    destruct (JSString.isHyphen c), (JSString.isLowerAlnum c),
      (JSString.isWhiteSpace c); simpl; congruence. }
  assert (H3 : forallb F (chars s3) = true).
  { apply (replaceRuns_forall JSString.isHyphen F) in H2.
    revert H2. apply forallb_weaken. intros c. unfold F.
    destruct (JSString.isHyphen c), (JSString.isLowerAlnum c); simpl; congruence. }
  assert (H4 : JSString.trim s3 = s3).
  { apply no_space_trim. revert H3. apply forallb_weaken. apply fileChar_no_space. }
  rewrite H4. exists (JSString.substringTo 50 s3).
  split; [reflexivity|]. unfold JSString.substringTo.
  split.
  { unfold JSString.length.
    pose proof (proj1 (substring_length (Z.to_nat 50) s3)). lia. }
  split; [apply substring_chars; exact H3|].
  split; [|reflexivity].
  destruct (JSString.includes (String.substring 0 (Z.to_nat 50) s3) "--") eqn:E;
    [|reflexivity].
  apply includes_substring in E. unfold s3 in E.
  rewrite replaceRuns_hyphen_single in E. discriminate E.
Qed.

(** X2 (matchesSearch, getSearchRelevance). The two searches agree in one
    direction: a record with a positive relevance for a query matches it,
    and a blank query matches every record with relevance 0; in both cases
    [matchesSearch] returns. The converse fails on the type's display name,
    which only [matchesSearch] reads. *)
Theorem relevance_implies_match (query : string) (p : Prompt.t) :
  ((0 < Prompt.getSearchRelevance query p)%Z ->
   Prompt.matchesSearch query p = Return true)
  /\ (JSString.trim query = "" ->
      Prompt.matchesSearch query p = Return true
      /\ Prompt.getSearchRelevance query p = 0%Z).
Proof.
  unfold Prompt.getSearchRelevance, Prompt.matchesSearch.
  destruct (negb (JSString.truthy query) || (JSString.trim query =? "")) eqn:G.
  - split; [reflexivity|]. intros _. split; reflexivity.
  - apply orb_false_iff in G. destruct G as [Gq Gt].
    apply negb_false_iff, truthy_true in Gq.
    split; [|intros E; rewrite E in Gt; discriminate Gt].
    cbv zeta. cbn [some fold_left].
    rewrite !(guarded_contains _ query Gq).
    assert (Ht : JSString.includes (JSString.toLowerCase (Prompt.title p))
                                   (JSString.toLowerCase query)
                 = Spec.contains (Prompt.title p) query) by reflexivity.
    assert (Hp : JSString.includes (JSString.toLowerCase (Prompt.prompt p))
                                   (JSString.toLowerCase query)
                 = Spec.contains (Prompt.prompt p) query) by reflexivity.
    assert (Hg : JSString.includes (JSString.toLowerCase (Prompt.getTagsString p))
                                   (JSString.toLowerCase query)
                 = Spec.contains (Prompt.getTagsString p) query) by reflexivity.
    rewrite Ht, Hp, Hg.
    destruct (Spec.contains (Prompt.title p) query); [reflexivity|].
    destruct (Spec.contains (Prompt.prompt p) query); [reflexivity|].
    destruct (Spec.contains (Prompt.notes p) query); [reflexivity|].
    destruct (Spec.contains (Prompt.author p) query); [reflexivity|].
    destruct (Spec.contains (Prompt.model p) query); [reflexivity|].
    destruct (Spec.contains (Prompt.getTagsString p) query); [reflexivity|].
    simpl. intros H. exfalso. lia.
Qed.

(** A record found by its type's display name alone: it matches, with
    relevance 0. *)
Example match_without_relevance :
  Prompt.matchesSearch "codice" Sample.codeReview = Return true
  /\ Prompt.getSearchRelevance "codice" Sample.codeReview = 0%Z.
Proof. split; vm_compute; reflexivity. Qed.

(** A record whose type a failed [update] has set to ['constructor']: a
    query that its text fields do not contain makes [matchesSearch] throw,
    one that they contain is answered before the type is reached. *)
Example match_on_member_type :
  snd (@Prompt.update Sample.isoDates "2024-05-05" Sample.retype Sample.recruiter)
  = Throw "Validation failed: Invalid type 'constructor'. Must be one of: text_generation, image_generation, code, other"
  /\ Prompt.matchesSearch "java"
       (fst (@Prompt.update Sample.isoDates "2024-05-05" Sample.retype Sample.recruiter))
     = Throw "TypeError: field.toLowerCase is not a function"
  /\ Prompt.matchesSearch "job"
       (fst (@Prompt.update Sample.isoDates "2024-05-05" Sample.retype Sample.recruiter))
     = Return true.
Proof. repeat split; vm_compute; reflexivity. Qed.

(** X3 (isEmpty, validate). A record that passes [validate] is not empty
    in the sense of [isEmpty]: its title has a character that is not white
    space. *)
Theorem valid_not_isEmpty {dates : DateParser} (p : Prompt.t) :
  Prompt.validate p = Return tt -> Prompt.isEmpty p = false.
Proof.
  intros H. apply validate_passes, passes_parts in H. destruct H as (Ht & _).
  unfold Prompt.requiredOk in Ht. apply andb_true_iff in Ht. destruct Ht as [_ Ht].
  unfold Prompt.isEmpty, JSString.truthy. rewrite Ht. reflexivity.
Qed.

Lemma valid_not_isEmpty_witness :
  @Prompt.validate Sample.isoDates Sample.codeReview = Return tt
  /\ Prompt.isEmpty Sample.codeReview = false.
Proof.
  split; [vm_compute; reflexivity|].
  apply (@valid_not_isEmpty Sample.isoDates Sample.codeReview).
  vm_compute. reflexivity.
Defined.

(** X4 (getSummary). The summary is the trimmed prompt when that has at
    most [maxLength] characters; otherwise it is a head of it, cut at
    [maxLength] characters (at none when [maxLength] is negative), trimmed
    again and followed by three dots. Either way it has no more than
    [max 0 maxLength + 3] characters. *)
Theorem getSummary_bounded (maxLength : Z) (p : Prompt.t) :
  ((JSString.length (JSString.trim (Prompt.prompt p)) <= maxLength)%Z ->
   Prompt.getSummary maxLength p = JSString.trim (Prompt.prompt p))
  /\ ((maxLength < JSString.length (JSString.trim (Prompt.prompt p)))%Z ->
      exists head : string,
        Prompt.getSummary maxLength p = (head ++ "...")%string
        /\ head = JSString.trim
                    (JSString.substringTo maxLength (JSString.trim (Prompt.prompt p)))
        /\ JSString.trim head = head
        /\ (JSString.length head <= Z.max 0 maxLength)%Z)
  /\ (JSString.length (Prompt.getSummary maxLength p) <= Z.max 0 maxLength + 3)%Z.
Proof.
  unfold Prompt.getSummary. cbv zeta.
  set (text := JSString.trim (Prompt.prompt p)).
  assert (Hhead : (JSString.length (JSString.trim (JSString.substringTo maxLength text))
                   <= Z.max 0 maxLength)%Z).
  { pose proof (trim_length (JSString.substringTo maxLength text)) as H1.
    unfold JSString.substringTo in *. unfold JSString.length in *.
    pose proof (proj1 (substring_length (Z.to_nat maxLength) text)). lia. }
  destruct (JSString.length text <=? maxLength)%Z eqn:E; cbv iota.
  - apply Z.leb_le in E. split; [reflexivity|]. split; [lia|]. lia.
  - apply Z.leb_gt in E. split; [lia|]. split.
    + intros _. exists (JSString.trim (JSString.substringTo maxLength text)).
      split; [reflexivity|]. split; [reflexivity|].
      split; [apply trim_idempotent|exact Hhead].
    + rewrite string_length_app.
      change (JSString.length "...") with 3%Z. lia.
Qed.

Lemma splitRuns_cons (P : ascii -> bool) (a : ascii) (r : string) :
  JSString.splitRuns P (String a r)
  = if P a then
      match r with
      | EmptyString => [EmptyString; EmptyString]
      | String b _ =>
          if P b then JSString.splitRuns P r
          else EmptyString :: JSString.splitRuns P r
      end
    else
      match JSString.splitRuns P r with
      | w :: ws => String a w :: ws
      | [] => [String a EmptyString]
      end.
Proof. reflexivity. Qed.

Lemma countWords_cons (w : string) (ws : list string) :
  countWords (w :: ws)
  = ((if (JSString.length w >? 0)%Z then 1 else 0) + countWords ws)%nat.
Proof. unfold countWords. simpl filter. now destruct (JSString.length w >? 0)%Z. Qed.

Lemma word_counts (a : ascii) (w : string) :
  (JSString.length (String a w) >? 0)%Z = true.
Proof.
  rewrite Z.gtb_ltb. apply Z.ltb_lt. rewrite length_String.
  pose proof (length_nonneg w). lia.
Qed.

(** Splitting at runs of [P] gives no word exactly when every character is
    in [P]. *)
Lemma countWords_zero (P : ascii -> bool) (s : string) :
  countWords (JSString.splitRuns P s) = 0%nat <-> forallb P (chars s) = true.
Proof.
  induction s as [|a r IH]; [split; reflexivity|].
  rewrite splitRuns_cons.
  change (forallb P (chars (String a r))) with (P a && forallb P (chars r)).
  destruct (P a) eqn:Ea; rewrite ?andb_true_l, ?andb_false_l.
  - destruct r as [|b r']; [split; reflexivity|].
    destruct (P b) eqn:Eb; [exact IH|].
    rewrite countWords_cons. exact IH.
  - destruct (JSString.splitRuns P r) as [|w ws];
      rewrite countWords_cons, word_counts; split; intros H; discriminate H.
Qed.

Lemma countWords_le (P : ascii -> bool) (s : string) :
  (countWords (JSString.splitRuns P s) <= String.length s)%nat.
Proof.
  induction s as [|a r IH]; [apply Nat.le_refl|].
  rewrite splitRuns_cons.
  change (String.length (String a r)) with (S (String.length r)).
  destruct (P a).
  - destruct r as [|b r']; [cbv; lia|].
    destruct (P b); [lia|]. rewrite countWords_cons.
    change (JSString.length "" >? 0)%Z with false. cbv iota. lia.
  - destruct (JSString.splitRuns P r) as [|w ws].
    + rewrite countWords_cons, word_counts. cbv [countWords filter List.length]. lia.
    + rewrite countWords_cons in *. rewrite word_counts.
      destruct (JSString.length w >? 0)%Z; lia.
Qed.

Lemma trim_forallb (s : string) :
  forallb JSString.isWhiteSpace (chars (JSString.trim s)) = true
  <-> JSString.trim s = "".
Proof.
  unfold chars. rewrite <- trim_blank. rewrite trim_idempotent. tauto.
Qed.

(** X5 (getWordCount, getCharacterCount). The word count is 0 exactly when
    the prompt is blank, and it never exceeds the character count. *)
Theorem getWordCount_blank (p : Prompt.t) :
  (Prompt.getWordCount p = 0%Z <-> JSString.trim (Prompt.prompt p) = "")
  /\ (0 <= Prompt.getWordCount p <= Prompt.getCharacterCount p)%Z.
Proof.
  unfold Prompt.getWordCount, Prompt.getCharacterCount.
  change (List.length (filter (fun word => (JSString.length word >? 0)%Z) ?l))
    with (countWords l).
  split.
  - rewrite <- trim_forallb, <- countWords_zero. lia.
  - pose proof (countWords_le JSString.isWhiteSpace (JSString.trim (Prompt.prompt p))) as H.
    pose proof (trim_length (Prompt.prompt p)) as H'.
    unfold JSString.length in *. lia.
Qed.

Lemma string_app_empty (s : string) : (s ++ "")%string = s.
Proof. induction s as [|c r IH]; [reflexivity|]. simpl. now rewrite IH. Qed.

Lemma skipDigits_app (a rest : string) :
  forallb JSString.isDigit (chars a) = true ->
  JSString.skipDigits rest = rest ->
  JSString.skipDigits (a ++ rest) = rest.
Proof.
  intros Ha Hrest. induction a as [|c r IH]; [exact Hrest|].
  change (chars (String c r)) with (c :: chars r) in Ha. simpl forallb in Ha.
  apply andb_true_iff in Ha. destruct Ha as [Hc Hr].
  simpl. rewrite Hc. apply IH. exact Hr.
Qed.

Lemma digits1_app (a rest : string) :
  digitString a = true ->
  JSString.skipDigits rest = rest ->
  JSString.digits1 (a ++ rest) = Some rest.
Proof.
  unfold digitString. intros Ha Hrest. apply andb_true_iff in Ha.
  destruct Ha as [Hne Ha]. destruct a as [|c r]; [discriminate Hne|].
  change (chars (String c r)) with (c :: chars r) in Ha. simpl forallb in Ha.
  apply andb_true_iff in Ha. destruct Ha as [Hc Hr].
  simpl. rewrite Hc. f_equal. apply skipDigits_app; assumption.
Qed.

Lemma skipDigits_split (s : string) :
  exists a : string,
    forallb JSString.isDigit (chars a) = true
    /\ s = (a ++ JSString.skipDigits s)%string.
Proof.
  induction s as [|c r (a & Ha & E)]; [exists ""; split; reflexivity|].
  simpl. destruct (JSString.isDigit c) eqn:Ec.
  - exists (String c a). split.
    + change (JSString.isDigit c && forallb JSString.isDigit (chars a) = true).
      now rewrite Ec.
    + simpl. now rewrite <- E.
  - exists "". split; reflexivity.
Qed.

Lemma digits1_split (s rest : string) :
  JSString.digits1 s = Some rest ->
  exists a : string, digitString a = true /\ s = (a ++ rest)%string.
Proof.
  destruct s as [|c r]; [discriminate|]. simpl.
  destruct (JSString.isDigit c) eqn:Ec; [|discriminate].
  intros H. injection H as H. destruct (skipDigits_split r) as (a & Ha & E).
  exists (String c a). split.
  - unfold digitString.
    change (chars (String c a)) with (c :: chars a). simpl. now rewrite Ec.
  - simpl. rewrite <- H, <- E. reflexivity.
Qed.

Lemma versionPattern_parts (s : string) :
  Prompt.versionPattern s = true ->
  exists a b : string,
    digitString a = true /\ digitString b = true
    /\ (s = (a ++ "." ++ b)%string
        \/ exists c : string,
             digitString c = true /\ s = (a ++ "." ++ b ++ "." ++ c)%string).
Proof.
  unfold Prompt.versionPattern.
  destruct (JSString.digits1 s) as [[|c1 r]|] eqn:E1; try discriminate.
  destruct (Ascii.eqb_spec c1 ".") as [->|Hc1];
    [|destruct c1 as [[] [] [] [] [] [] [] []]; try discriminate; now elim Hc1].
  apply digits1_split in E1. destruct E1 as (a & Ha & ->).
  destruct (JSString.digits1 r) as [[|c2 r2]|] eqn:E2; try discriminate.
  - intros _. apply digits1_split in E2. destruct E2 as (b & Hb & ->).
    exists a, b. rewrite string_app_empty. auto.
  - destruct (Ascii.eqb_spec c2 ".") as [->|Hc2];
      [|destruct c2 as [[] [] [] [] [] [] [] []]; try discriminate; now elim Hc2].
    apply digits1_split in E2. destruct E2 as (b & Hb & ->).
    destruct (JSString.digits1 r2) as [[|c3 r3]|] eqn:E3; try discriminate.
    intros _. apply digits1_split in E3. destruct E3 as (c & Hc & ->).
    exists a, b. split; [exact Ha|]. split; [exact Hb|]. right.
    exists c. rewrite string_app_empty. auto.
Qed.

Lemma versionPattern_two (a b : string) :
  digitString a = true -> digitString b = true ->
  Prompt.versionPattern (a ++ "." ++ b) = true.
Proof.
  intros Ha Hb. unfold Prompt.versionPattern.
  rewrite (digits1_app a ("." ++ b) Ha eq_refl).
  change ("." ++ b)%string with (String "." b).
  cbv iota.
  rewrite <- (string_app_empty b) at 1.
  rewrite (digits1_app b "" Hb eq_refl). reflexivity.
Qed.

Lemma versionPattern_three (a b c : string) :
  digitString a = true -> digitString b = true -> digitString c = true ->
  Prompt.versionPattern (a ++ "." ++ b ++ "." ++ c) = true.
Proof.
  intros Ha Hb Hc. unfold Prompt.versionPattern.
  rewrite (digits1_app a ("." ++ b ++ "." ++ c) Ha eq_refl).
  change ("." ++ b ++ "." ++ c)%string with (String "." (b ++ "." ++ c)).
  cbv iota.
  rewrite (digits1_app b ("." ++ c) Hb eq_refl).
  change ("." ++ c)%string with (String "." c).
  cbv iota.
  rewrite <- (string_app_empty c) at 1.
  rewrite (digits1_app c "" Hc eq_refl). reflexivity.
Qed.

(** X6 (validate, version check). The pattern [/^\d+\.\d+(\.\d+)?$/] of the
    version check accepts exactly two or three non-empty runs of digits
    separated by dots. *)
Theorem versionPattern_shape (s : string) :
  Prompt.versionPattern s = true
  <-> exists a b : string,
        digitString a = true /\ digitString b = true
        /\ (s = (a ++ "." ++ b)%string
            \/ exists c : string,
                 digitString c = true /\ s = (a ++ "." ++ b ++ "." ++ c)%string).
Proof.
  split; [apply versionPattern_parts|].
  intros (a & b & Ha & Hb & [->|(c & Hc & ->)]).
  - apply versionPattern_two; assumption.
  - apply versionPattern_three; assumption.
Qed.

(** The constructor on the plain object of a record whose defaulted fields
    are set assembles that record again. *)
Lemma new_toObject_any {dates : DateParser} (fresh today : string) (p : Prompt.t) :
  Prompt.id p <> "" -> Prompt.type p <> "" -> Prompt.version p <> "" ->
  Prompt.created p <> "" -> Prompt.modified p <> "" ->
  Prompt.new fresh today (Prompt.toObject p)
  = bindC (Prompt.validate p) (fun _ => Return p).
Proof.
  intros Hid Hty Hver Hcr Hmod.
  apply truthy_true in Hid, Hty, Hver, Hcr, Hmod.
  unfold Prompt.new. destruct p. cbn [Prompt.toObject Data.id Data.title Data.type
    Data.prompt Data.negative_prompt Data.model Data.author Data.tags Data.notes
    Data.version Data.created Data.modified Data.category Data.isFavorite
    Prompt.id Prompt.title Prompt.type Prompt.prompt Prompt.negative_prompt
    Prompt.model Prompt.author Prompt.tags Prompt.notes Prompt.version
    Prompt.created Prompt.modified Prompt.category Prompt.isFavorite] in *.
  rewrite !orElse_same.
  rewrite (orElse_truthy _ _ Hid), (orElse_truthy _ _ Hty), (orElse_truthy _ _ Hver),
    (orElse_truthy _ _ Hcr), (orElse_truthy _ _ Hmod).
  reflexivity.
Qed.

Lemma valid_type_set {dates : DateParser} (p : Prompt.t) :
  Prompt.validate p = Return tt -> Prompt.type p <> "".
Proof.
  intros H. apply validate_passes, passes_parts in H. destruct H as (_ & Ht & _).
  apply truthy_true. apply requiredOk_truthy. exact Ht.
Qed.

(** X7 (constructor, toObject). [toObject] and the constructor are inverse
    on stored records: for a record that passes [validate] and has an id, a
    version and both dates, [new Prompt(p.toObject())] is [p] again, with no
    fresh id and no new date. *)
Theorem new_toObject {dates : DateParser} (fresh today : string) (p : Prompt.t) :
  Prompt.validate p = Return tt ->
  Prompt.id p <> "" -> Prompt.version p <> "" ->
  Prompt.created p <> "" -> Prompt.modified p <> "" ->
  Prompt.new fresh today (Prompt.toObject p) = Return p.
Proof.
  intros Hv Hid Hver Hcr Hmod.
  rewrite (new_toObject_any fresh today p Hid (valid_type_set p Hv) Hver Hcr Hmod).
  rewrite Hv. reflexivity.
Qed.

Lemma new_toObject_witness :
  @Prompt.new Sample.isoDates "prompt-9-z" "2025-06-01"
    (Prompt.toObject Sample.codeReview)
  = Return Sample.codeReview.
Proof.
  apply (@new_toObject Sample.isoDates "prompt-9-z" "2025-06-01" Sample.codeReview);
    [vm_compute; reflexivity|discriminate|discriminate|discriminate|discriminate].
Defined.

(** ** [update] on an input that inherits [hasOwnProperty] *)

(** X29 (Prompt.update). When [data] has no own property called
    [hasOwnProperty], then whatever else [update(data)] is given and whether
    or not validation then throws, the identifier and the creation date of
    the record stay as they were, the modified date is the current date, an
    allow-listed field that [data] does not have keeps its value, one that
    it has takes the value of [data], no property outside the allow-list
    changes apart from the modified date, and the properties of [data]
    outside the allow-list do not matter. *)
Theorem update_frame {dates : DateParser} (today : string) (data : Data.t) (p : Prompt.t) :
  Data.getProp "hasOwnProperty" data = None ->
  let p' := fst (Prompt.update today data p) in
  Prompt.id p' = Prompt.id p
  /\ Prompt.created p' = Prompt.created p
  /\ Prompt.modified p' = today
  /\ (forall field, In field Prompt.allowedFields ->
                    Data.hasOwnProperty field data = false ->
                    Prompt.getProp field p' = Prompt.getProp field p)
  /\ (forall field v, In field Prompt.allowedFields ->
                      Data.getProp field data = Some v ->
                      Prompt.getProp field p' = Some v)
  /\ (forall field, ~ In field Prompt.allowedFields -> field <> "modified" ->
                    Prompt.getProp field p' = Prompt.getProp field p)
  /\ (forall data', Data.getProp "hasOwnProperty" data' = None ->
                    (forall field, In field Prompt.allowedFields ->
                                   Data.getProp field data' = Data.getProp field data) ->
                    fst (Prompt.update today data' p) = p').
Proof.
  intros Hown. cbv zeta. rewrite (update_inherited today data p Hown). cbn [fst].
  split; [rewrite updateFields_explicit; reflexivity|].
  split; [rewrite updateFields_explicit; reflexivity|].
  split; [rewrite updateFields_explicit; reflexivity|].
  split; [intros field; apply getProp_absent_kept|].
  split; [intros field v; apply getProp_present_assigned|].
  split; [intros field; apply getProp_outside_allowList|].
  intros data' Hown' Hsame. rewrite (update_inherited today data' p Hown'). cbn [fst].
  apply updateFields_reads_allowList. exact Hsame.
Qed.

Lemma update_frame_witness :
  Prompt.category
    (fst (@Prompt.update Sample.isoDates "2024-05-05" Sample.relabel Sample.codeReview))
  = "productivity"
  /\ Prompt.id
       (fst (@Prompt.update Sample.isoDates "2024-05-05" Sample.relabel Sample.codeReview))
     = "prompt-1-a"
  /\ Prompt.modified
       (fst (@Prompt.update Sample.isoDates "2024-05-05" Sample.relabel Sample.codeReview))
     = "2024-05-05".
Proof.
  destruct (@update_frame Sample.isoDates "2024-05-05" Sample.relabel Sample.codeReview
              eq_refl)
    as (Hid & _ & Hmodified & _ & _ & _ & _).
  split; [reflexivity|]. split; [exact Hid|exact Hmodified].
Defined.

(** ** Records through the constructor *)

Section Constructed.
Context {dates : DateParser}.

Lemma complete_parts (p : Prompt.t) :
  complete p = true ->
  Prompt.id p <> "" /\ Prompt.version p <> ""
  /\ Prompt.created p <> "" /\ Prompt.modified p <> "".
Proof.
  unfold complete. rewrite !andb_true_iff, !truthy_true. tauto.
Qed.

Lemma new_stored (fresh today : string) (p : Prompt.t) :
  Prompt.validate p = Return tt -> complete p = true ->
  Prompt.new fresh today (Prompt.toObject p) = Return p.
Proof.
  intros Hv Hc. apply complete_parts in Hc. destruct Hc as (Hid & Hver & Hcr & Hmod).
  rewrite (new_toObject_any fresh today p Hid (valid_type_set p Hv) Hver Hcr Hmod).
  rewrite Hv. reflexivity.
Qed.

(** What the constructor returns has passed [validate]. *)
Lemma new_valid (fresh today : string) (data : Data.t) (p : Prompt.t) :
  Prompt.new fresh today data = Return p -> Prompt.validate p = Return tt.
Proof.
  unfold Prompt.new. cbv zeta.
  match goal with |- bindC (Prompt.validate ?q) _ = _ -> _ => set (this := q) end.
  destruct (Prompt.validate this) as [[]|m] eqn:E; simpl; [|discriminate].
  intros H. injection H as <-. exact E.
Qed.

Lemma returned_valid (ids : nat -> string) (today : string) (data : list Data.t) :
  forall (i : nat) (p : Prompt.t),
    In p (StorageManager.returned (StorageManager.constructAll ids today i data)) ->
    Prompt.validate p = Return tt.
Proof.
  induction data as [|d r IH]; intros i p; [intros []|].
  cbn [StorageManager.constructAll].
  change (StorageManager.returned (?c :: ?cs))
    with ((match c with Return q => [q] | Throw _ => [] end) ++ StorageManager.returned cs).
  intros H. apply in_app_or in H. destruct H as [H|H]; [|apply (IH (S i)); exact H].
  destruct (Prompt.new (ids i) today d) as [q|m] eqn:E; [|destruct H].
  destruct H as [<-|[]]. apply (new_valid _ _ _ _ E).
Qed.

(** The stored array of a collection of complete valid records goes
    through the constructor unchanged. *)
Lemma constructAll_stored (ids : nat -> string) (today : string) (ps : list Prompt.t) :
  (forall p, In p ps -> Prompt.validate p = Return tt /\ complete p = true) ->
  forall i : nat,
    StorageManager.constructAll ids today i (map Prompt.toObject ps) = map Return ps.
Proof.
  induction ps as [|p r IH]; intros H i; [reflexivity|].
  cbn [map StorageManager.constructAll].
  destruct (H p (or_introl eq_refl)) as [Hv Hc].
  rewrite (new_stored _ _ p Hv Hc). f_equal. apply IH.
  intros q Hq. apply H. now right.
Qed.

Lemma returned_map_Return (ps : list Prompt.t) :
  StorageManager.returned (map Return ps) = ps.
Proof. induction ps as [|p r IH]; [reflexivity|]. simpl. now rewrite IH. Qed.

Lemma thrown_map_Return (ps : list Prompt.t) :
  StorageManager.thrown (map Return ps) = [].
Proof. induction ps as [|p r IH]; [reflexivity|]. simpl. exact IH. Qed.

Lemma upToThrow_map_Return (ps : list Prompt.t) :
  upToThrow (map Return ps) = (ps, Return tt).
Proof. induction ps as [|p r IH]; [reflexivity|]. simpl. now rewrite IH. Qed.

Lemma upToThrow_app (good : list Prompt.t) (message : string)
      (rest : list (Completion Prompt.t)) :
  upToThrow (map Return good ++ Throw message :: rest) = (good, Throw message).
Proof. induction good as [|p r IH]; [reflexivity|]. simpl. now rewrite IH. Qed.

Lemma loadEach_setAll (ids : nat -> string) (today : string) (data : list Data.t) :
  forall (i : nat) (m : JSMap.t Prompt.t),
    StorageManager.loadEach ids today i data m
    = setAll (StorageManager.returned (StorageManager.constructAll ids today i data)) m.
Proof.
  induction data as [|d r IH]; intros i m; [reflexivity|].
  cbn [StorageManager.loadEach StorageManager.constructAll].
  change (StorageManager.returned (?c :: ?cs))
    with ((match c with Return q => [q] | Throw _ => [] end) ++ StorageManager.returned cs).
  destruct (Prompt.new (ids i) today d) as [q|msg]; rewrite IH; reflexivity.
Qed.

Lemma restorePrompts_setAll (ids : nat -> string) (today : string) (data : list Data.t) :
  forall (i : nat) (m : JSMap.t Prompt.t),
    StorageManager.restorePrompts ids today i data m
    = (setAll (fst (upToThrow (StorageManager.constructAll ids today i data))) m,
       snd (upToThrow (StorageManager.constructAll ids today i data))).
Proof.
  induction data as [|d r IH]; intros i m; [reflexivity|].
  cbn [StorageManager.restorePrompts StorageManager.constructAll upToThrow].
  destruct (Prompt.new (ids i) today d) as [q|msg]; [|reflexivity].
  rewrite IH.
  destruct (upToThrow (StorageManager.constructAll ids today (S i) r)) as [ps c].
  reflexivity.
Qed.

Lemma setAll_snoc (ps : list Prompt.t) (p : Prompt.t) (m : JSMap.t Prompt.t) :
  setAll (ps ++ [p]) m = JSMap.set (Prompt.id p) p (setAll ps m).
Proof. unfold setAll. rewrite fold_left_app. reflexivity. Qed.

Lemma lastWithId_snoc (k : string) (ps : list Prompt.t) (p : Prompt.t) :
  lastWithId k (ps ++ [p])
  = if Prompt.id p =? k then Some p else lastWithId k ps.
Proof. unfold lastWithId. rewrite rev_app_distr. reflexivity. Qed.

(** After the records of [ps] have been put under their ids, a key reads
    the last of them that carries it, or what it read before. *)
Lemma get_setAll (k : string) (ps : list Prompt.t) (m : JSMap.t Prompt.t) :
  JSMap.get k (setAll ps m)
  = match lastWithId k ps with
    | Some p => Some p
    | None => JSMap.get k m
    end.
Proof.
  induction ps as [|p r IH] using rev_ind; [reflexivity|].
  rewrite setAll_snoc, lastWithId_snoc.
  destruct (String.eqb_spec (Prompt.id p) k) as [<-|Hne].
  - apply get_set_same.
  - rewrite get_set_other by congruence. exact IH.
Qed.

Lemma setAll_filed (ps : list Prompt.t) (m : JSMap.t Prompt.t) :
  filed m -> (forall p, In p ps -> Prompt.validate p = Return tt) ->
  filed (setAll ps m).
Proof.
  intros Hm. induction ps as [|p r IH] using rev_ind; intros Hps; [exact Hm|].
  rewrite setAll_snoc.
  assert (Hr : filed (setAll r m)).
  { apply IH. intros q Hq. apply Hps. apply in_or_app. now left. }
  destruct Hr as [Hwf Hin]. split; [apply wf_set; exact Hwf|].
  intros k q Hq. apply In_set in Hq. destruct Hq as [E|Hq]; [|apply Hin; exact Hq].
  injection E as -> ->. split; [reflexivity|].
  apply Hps. apply in_or_app. right. now left.
Qed.

Lemma filed_empty : filed [].
Proof. split; [constructor|intros k p []]. Qed.

Lemma setAll_size (ps : list Prompt.t) (m : JSMap.t Prompt.t) :
  (JSMap.size (setAll ps m) <= JSMap.size m + Z.of_nat (List.length ps))%Z.
Proof.
  induction ps as [|p r IH] using rev_ind; [simpl; lia|].
  rewrite setAll_snoc, length_app. cbn [List.length].
  pose proof (size_set_le (Prompt.id p) p (setAll r m)). lia.
Qed.

(** Complete valid records filed under their ids land after the ones
    already there, one after the other. *)
Lemma setAll_values (m2 : JSMap.t Prompt.t) :
  forall m1 : JSMap.t Prompt.t,
    (forall k p, In (k, p) m2 -> k = Prompt.id p) ->
    JSMap.wf (m1 ++ m2) ->
    setAll (JSMap.values m2) m1 = m1 ++ m2.
Proof.
  induction m2 as [|[k p] r IH]; intros m1 Hkey Hwf; [now rewrite app_nil_r|].
  cbn [JSMap.values map snd]. unfold setAll. cbn [fold_left].
  assert (E : k = Prompt.id p) by (apply Hkey; now left). subst k.
  assert (Hnew : JSMap.get (Prompt.id p) m1 = None).
  { apply get_not_In_keys. intros Hin. unfold JSMap.wf, JSMap.keys in Hwf.
    rewrite map_app in Hwf. apply NoDup_remove_2 in Hwf.
    apply Hwf. apply in_or_app. now left. }
  rewrite (set_absent _ _ _ Hnew).
  change (setAll (JSMap.values r) (m1 ++ [(Prompt.id p, p)])
          = m1 ++ (Prompt.id p, p) :: r).
  rewrite IH.
  - rewrite <- app_assoc. reflexivity.
  - intros k q Hq. apply Hkey. now right.
  - rewrite <- app_assoc. exact Hwf.
Qed.

End Constructed.

(** ** Saving and loading *)

Lemma saveAll_quiet (this : StorageManager.t) (ls : LocalStorage.t) :
  LocalStorage.faults ls = [] ->
  StorageManager.saveAll this ls
  = LocalStorage.mk
      (Some (map Prompt.toObject (JSMap.values (StorageManager.prompts this))))
      (Some (JSObject.entries (StorageManager.categories this)))
      (Some (StorageManager.favorites this))
      (Some (StorageManager.settings this))
      (LocalStorage.BACKUP ls) [].
Proof.
  destruct ls as [p c f s b faults]. cbn [LocalStorage.faults]. intros ->. reflexivity.
Qed.

Lemma stored_records {dates : DateParser} (m : JSMap.t Prompt.t) :
  filed m -> forallb complete (JSMap.values m) = true ->
  forall p, In p (JSMap.values m) -> Prompt.validate p = Return tt /\ complete p = true.
Proof.
  intros [_ Hin] Hc p Hp. split.
  - unfold JSMap.values in Hp. apply in_map_iff in Hp. destruct Hp as ([k q] & <- & Hq).
    apply (Hin k q Hq).
  - rewrite forallb_forall in Hc. apply Hc. exact Hp.
Qed.

Lemma filed_keyed {dates : DateParser} (m : JSMap.t Prompt.t) :
  filed m -> forall k p, In (k, p) m -> k = Prompt.id p.
Proof. intros [_ Hin] k p H. apply (Hin k p H). Qed.

(** X8 (saveAll, loadData and the four loaders). What [saveAll] writes,
    [loadData] reads back: when the collection holds valid records filed
    under their ids, each with an id, a version and both dates, and the
    store accepts the writes, a manager that loads the saved store has the
    same records in the same order, the same categories and favorites, and
    every setting that was set (the others at their defaults); loading
    writes nothing. *)
Theorem saveAll_loadData {dates : DateParser} (ids : nat -> string) (today : string)
        (this other : StorageManager.t) (ls : LocalStorage.t) :
  filed (StorageManager.prompts this) ->
  forallb complete (JSMap.values (StorageManager.prompts this)) = true ->
  JSSet.wf (StorageManager.favorites this) ->
  JSMap.wf (StorageManager.settings this) ->
  LocalStorage.faults ls = [] ->
  let saved := StorageManager.saveAll this ls in
  let loaded := fst (StorageManager.loadData ids today other saved) in
  snd (StorageManager.loadData ids today other saved) = saved
  /\ StorageManager.prompts loaded = StorageManager.prompts this
  /\ (forall k, JSMap.get k (StorageManager.categories loaded)
                = JSMap.get k (StorageManager.categories this))
  /\ StorageManager.favorites loaded = StorageManager.favorites this
  /\ (forall k, JSMap.get k (StorageManager.settings loaded)
                = match JSMap.get k (StorageManager.settings this) with
                  | Some v => Some v
                  | None => JSMap.get k StorageManager.getDefaultSettings
                  end).
Proof.
  intros Hfiled Hcomplete Hfav Hset Hquiet. cbv zeta.
  rewrite (saveAll_quiet this ls Hquiet).
  unfold StorageManager.loadData, StorageManager.loadPrompts,
    StorageManager.loadCategories, StorageManager.loadFavorites,
    StorageManager.loadSettings.
  cbn [LocalStorage.PROMPTS LocalStorage.CATEGORIES LocalStorage.FAVORITES
       LocalStorage.SETTINGS fst snd StorageManager.prompts StorageManager.categories
       StorageManager.favorites StorageManager.settings].
  split; [reflexivity|].
  split.
  { rewrite loadEach_setAll.
    rewrite (constructAll_stored ids today _ (stored_records _ Hfiled Hcomplete)).
    rewrite returned_map_Return.
    apply (setAll_values (StorageManager.prompts this) []).
    - apply filed_keyed. exact Hfiled.
    - exact (proj1 Hfiled). }
  split; [intros k; apply get_entries|].
  split; [apply ofList_nodup; exact Hfav|].
  intros k. apply get_assign. exact Hset.
Qed.

Lemma sample_manager_filed : @filed Sample.isoDates (StorageManager.prompts Sample.manager).
Proof.
  split.
  - repeat constructor; simpl; intuition discriminate.
  - intros k p [E|[E|[]]]; injection E as <- <-; split; reflexivity.
Qed.

Lemma saveAll_loadData_witness :
  StorageManager.prompts
    (fst (@StorageManager.loadData Sample.isoDates Sample.ids "2024-03-03" Sample.fresh
            (StorageManager.saveAll Sample.manager Sample.emptyStore)))
  = StorageManager.prompts Sample.manager.
Proof.
  refine (proj1 (proj2 (@saveAll_loadData Sample.isoDates Sample.ids "2024-03-03"
                          Sample.manager Sample.fresh Sample.emptyStore
                          sample_manager_filed eq_refl _ _ eq_refl))).
  - repeat constructor; simpl; intuition discriminate.
  - repeat constructor; simpl; intuition discriminate.
Defined.

(** X9 (loadPrompts). Whatever array the store holds, [loadPrompts] leaves
    a collection of validated records, each filed under its own id: the
    records are those the constructor accepts, the last one winning when
    two carry the same id, and what the collection held before is gone.
    With nothing stored under the key, the collection is left as it was. *)
Theorem loadPrompts_filed {dates : DateParser} (ids : nat -> string) (today : string)
        (this : StorageManager.t) (ls : LocalStorage.t) :
  match LocalStorage.PROMPTS ls with
  | Some data =>
      let accepted :=
        StorageManager.returned (StorageManager.constructAll ids today 0 data) in
      let loaded := StorageManager.loadPrompts ids today this ls in
      filed (StorageManager.prompts loaded)
      /\ (forall k, JSMap.get k (StorageManager.prompts loaded) = lastWithId k accepted)
      /\ (JSMap.size (StorageManager.prompts loaded) <= Z.of_nat (List.length data))%Z
      /\ StorageManager.categories loaded = StorageManager.categories this
      /\ StorageManager.favorites loaded = StorageManager.favorites this
      /\ StorageManager.settings loaded = StorageManager.settings this
  | None => StorageManager.loadPrompts ids today this ls = this
  end.
Proof.
  unfold StorageManager.loadPrompts.
  destruct (LocalStorage.PROMPTS ls) as [data|]; [|reflexivity].
  cbv zeta. cbn [StorageManager.prompts StorageManager.categories
                 StorageManager.favorites StorageManager.settings].
  rewrite loadEach_setAll.
  split; [apply setAll_filed; [apply filed_empty|apply returned_valid]|].
  split; [intros k; rewrite get_setAll; now destruct (lastWithId k _)|].
  split; [|repeat split].
  pose proof (setAll_size
                (StorageManager.returned (StorageManager.constructAll ids today 0 data)) [])
    as Hsize.
  assert (Hlen : forall i,
             (List.length (StorageManager.returned
                             (StorageManager.constructAll ids today i data))
              <= List.length data)%nat).
  { clear Hsize. induction data as [|d r IH]; intros i; [apply Nat.le_refl|].
    cbn [StorageManager.constructAll].
    change (StorageManager.returned (?c :: ?cs))
      with ((match c with Return q => [q] | Throw _ => [] end)
              ++ StorageManager.returned cs).
    rewrite length_app. specialize (IH (S i)).
    destruct (Prompt.new (ids i) today d); cbn [List.length]; lia. }
  specialize (Hlen 0%nat). change (JSMap.size (@nil (string * Prompt.t))) with 0%Z in Hsize.
  lia.
Qed.

Lemma withFaults_same (ls : LocalStorage.t) :
  LocalStorage.withFaults (LocalStorage.faults ls) ls = ls.
Proof. destruct ls; reflexivity. Qed.

Lemma withFaults_twice (f g : list (option string)) (ls : LocalStorage.t) :
  LocalStorage.withFaults f (LocalStorage.withFaults g ls) = LocalStorage.withFaults f ls.
Proof. reflexivity. Qed.

(** A run that returns within some number of nested calls returns the
    same within any greater number. *)
Lemma saveToStorageAt_more (calls : nat) :
  forall (answers : nat -> option string) (item : LocalStorage.Item)
         (ls result : LocalStorage.t),
    StorageManager.saveToStorageAt calls answers item ls = Some result ->
    forall more : nat,
      StorageManager.saveToStorageAt (calls + more) answers item ls = Some result.
Proof.
  induction calls as [|calls IH]; intros answers item ls result H more;
    [discriminate H|].
  cbn [Nat.add StorageManager.saveToStorageAt] in *.
  destruct (answers O) as [name|]; [|exact H].
  destruct (name =? "QuotaExceededError"); [|exact H].
  apply IH. exact H.
Qed.

(** A store that is full for good: no number of nested calls is enough. *)
Lemma saveToStorageAt_full (calls : nat) :
  forall (answers : nat -> option string) (item : LocalStorage.Item)
         (ls : LocalStorage.t),
    (forall i, answers i = Some "QuotaExceededError") ->
    StorageManager.saveToStorageAt calls answers item ls = None.
Proof.
  induction calls as [|calls IH]; intros answers item ls Hfull; [reflexivity|].
  cbn [StorageManager.saveToStorageAt]. rewrite (Hfull O). cbn [String.eqb].
  change ("QuotaExceededError" =? "QuotaExceededError") with true. cbv iota.
  apply IH. intros i. apply Hfull.
Qed.

(** The run returns once an answer is not a [QuotaExceededError]. *)
Lemma saveToStorageAt_returns (k : nat) :
  forall (answers : nat -> option string) (item : LocalStorage.Item)
         (ls : LocalStorage.t),
    answers k <> Some "QuotaExceededError" ->
    StorageManager.saveToStorageAt (S k) answers item ls <> None.
Proof.
  induction k as [|k IH]; intros answers item ls Hk;
    cbn [StorageManager.saveToStorageAt].
  - destruct (answers O) as [name|]; [|discriminate].
    destruct (String.eqb_spec name "QuotaExceededError") as [->|_];
      [now elim Hk|discriminate].
  - destruct (answers O) as [name|]; [|discriminate].
    destruct (name =? "QuotaExceededError"); [|discriminate].
    apply (IH (fun i => answers (S i))). exact Hk.
Qed.

Lemma saveToStorageAt_returned (calls : nat) :
  forall (answers : nat -> option string) (item : LocalStorage.Item)
         (ls : LocalStorage.t),
    StorageManager.saveToStorageAt calls answers item ls <> None ->
    exists k, answers k <> Some "QuotaExceededError".
Proof.
  induction calls as [|calls IH]; intros answers item ls H; [now elim H|].
  cbn [StorageManager.saveToStorageAt] in H.
  destruct (answers O) as [name|] eqn:Hanswer.
  - destruct (String.eqb_spec name "QuotaExceededError") as [->|Hname].
    + destruct (IH _ _ _ H) as [k Hk]. exists (S k). exact Hk.
    + exists O. rewrite Hanswer. congruence.
  - exists O. rewrite Hanswer. discriminate.
Qed.

(** What a run that returns leaves in the store. *)
Lemma saveToStorageAt_result (calls : nat) :
  forall (answers : nat -> option string) (item : LocalStorage.Item)
         (ls result : LocalStorage.t),
    StorageManager.saveToStorageAt calls answers item ls = Some result ->
    result = LocalStorage.put item ls
    \/ result = ls
    \/ result
       = LocalStorage.put
           (LocalStorage.Backups (firstn 2 (StorageManager.storedBackups ls))) ls.
Proof.
  induction calls as [|calls IH]; intros answers item ls result H; [discriminate H|].
  cbn [StorageManager.saveToStorageAt] in H.
  destruct (answers O) as [name|].
  - destruct (name =? "QuotaExceededError").
    + destruct (IH _ _ _ _ H) as [E|[E|E]]; auto.
    + injection H as <-. auto.
  - injection H as <-. auto.
Qed.

(** Along a script of faults the run returns what [saveToStorageFrom]
    gives. *)
Lemma saveToStorageAt_scripted (script : list (option string)) :
  forall (item : LocalStorage.Item) (ls : LocalStorage.t),
    StorageManager.saveToStorageAt (S (List.length script))
      (StorageManager.scripted script) item ls
    = Some (LocalStorage.withFaults (LocalStorage.faults ls)
              (StorageManager.saveToStorageFrom script item ls)).
Proof.
  induction script as [|[name|] rest IH]; intros item ls.
  - cbn [List.length StorageManager.saveToStorageAt StorageManager.scripted nth
         StorageManager.saveToStorageFrom].
    destruct ls, item; reflexivity.
  - cbn [List.length].
    change (StorageManager.saveToStorageAt (S (S (List.length rest)))
              (StorageManager.scripted (Some name :: rest)) item ls)
      with (if name =? "QuotaExceededError"
            then StorageManager.saveToStorageAt (S (List.length rest))
                   (StorageManager.scripted rest)
                   (LocalStorage.Backups
                      (firstn (StorageManager.MAX_BACKUPS / 2)
                              (StorageManager.storedBackups ls))) ls
            else Some ls).
    cbn [StorageManager.saveToStorageFrom].
    destruct (name =? "QuotaExceededError"); [apply IH|].
    now rewrite withFaults_twice, withFaults_same.
  - cbn [List.length StorageManager.saveToStorageAt StorageManager.scripted nth
         StorageManager.saveToStorageFrom].
    destruct ls, item; reflexivity.
Qed.

(** X10 (saveToStorage, handleStorageError, cleanupOldBackups). What a
    write does on a store of any kind. A write that the store accepts puts
    the item in its slot. A write that the store refuses otherwise than
    with a [QuotaExceededError] is dropped: [saveToStorage] returns and
    every slot keeps what it held. After a [QuotaExceededError] the item
    is dropped and the backups, cut to the newest two, are written in its
    place by a nested call of [saveToStorage] that is treated the same
    way; so [saveToStorage] returns exactly when some answer of the store
    is not a [QuotaExceededError], and then it leaves the store as it
    was, with the item in its slot, or with only the backups cut. On a
    store that answers every write with a [QuotaExceededError] the three
    methods call each other without end, whatever number of nested calls
    is allowed. On a store that follows a script of faults the run
    returns what [saveToStorageFrom] gives. *)
Theorem saveToStorage_outcomes (answers : nat -> option string)
        (item : LocalStorage.Item) (ls : LocalStorage.t) :
  let at_ calls := StorageManager.saveToStorageAt calls answers item ls in
  let trimmed :=
    LocalStorage.Backups (firstn 2 (StorageManager.storedBackups ls)) in
  (answers O = None -> forall calls, at_ (S calls) = Some (LocalStorage.put item ls))
  /\ (forall name,
         answers O = Some name -> name <> "QuotaExceededError" ->
         forall calls, at_ (S calls) = Some ls)
  /\ (answers O = Some "QuotaExceededError" ->
      forall calls result,
        at_ calls = Some result ->
        result = ls \/ result = LocalStorage.put trimmed ls)
  /\ ((exists calls, at_ calls <> None)
      <-> exists k, answers k <> Some "QuotaExceededError")
  /\ ((forall i, answers i = Some "QuotaExceededError") ->
      forall calls, at_ calls = None)
  /\ (forall calls result,
         at_ calls = Some result -> forall more, at_ (calls + more) = Some result)
  /\ (forall script,
         answers = StorageManager.scripted script ->
         at_ (S (List.length script))
         = Some (LocalStorage.withFaults (LocalStorage.faults ls)
                   (StorageManager.saveToStorageFrom script item ls))).
Proof.
  cbv zeta. repeat split.
  - intros Hanswer calls. cbn [StorageManager.saveToStorageAt]. now rewrite Hanswer.
  - intros name Hanswer Hname calls. cbn [StorageManager.saveToStorageAt].
    rewrite Hanswer. apply String.eqb_neq in Hname. now rewrite Hname.
  - intros Hanswer [|calls] result H; [discriminate H|].
    cbn [StorageManager.saveToStorageAt] in H. rewrite Hanswer in H.
    change ("QuotaExceededError" =? "QuotaExceededError") with true in H. cbv iota in H.
    destruct (saveToStorageAt_result _ _ _ _ _ H) as [E|[E|E]]; auto.
  - intros [calls H]. exact (saveToStorageAt_returned calls answers item ls H).
  - intros [k Hk]. exists (S k). apply saveToStorageAt_returns. exact Hk.
  - intros Hfull calls. apply saveToStorageAt_full. exact Hfull.
  - intros calls result H more. apply saveToStorageAt_more. exact H.
  - intros script ->. apply saveToStorageAt_scripted.
Qed.

(** A store that has room again after two refusals: the backups are cut
    to the newest two and the record list is not written; two nested
    calls are not enough for it. *)
Example saveToStorage_after_two_refusals :
  let newest := StorageManager.snapshot "2024-03-03T10:00:00.000Z" Sample.manager in
  let ls := LocalStorage.mk None None None None (Some (newest :: Sample.olderBackups)) [] in
  let answers :=
    StorageManager.scripted [Some "QuotaExceededError"; Some "QuotaExceededError"] in
  StorageManager.saveToStorageAt 3 answers (LocalStorage.Prompts []) ls
  = Some (LocalStorage.mk None None None None
            (Some [newest; StorageManager.snapshot "2024-03-02T10:00:00.000Z" Sample.manager])
            [])
  /\ StorageManager.saveToStorageAt 2 answers (LocalStorage.Prompts []) ls = None.
Proof. split; reflexivity. Qed.

Section Replace.
Context {dates : DateParser}.

Local Abbreviation state := (JSMap.t Prompt.t * StorageManager.ImportResult)%type.

(** The loop of an import that does not merge: every accepted record is
    put under its id and counted. *)
Lemma replace_loop (cs : list (Completion Prompt.t)) :
  forall st : state,
    fold_left (StorageManager.absorb false) cs st
    = (setAll (StorageManager.returned cs) (fst st),
       StorageManager.mkResult
         (StorageManager.imported (snd st)
          + Z.of_nat (List.length (StorageManager.returned cs)))
         (StorageManager.skipped (snd st))
         (StorageManager.errors (snd st)
          ++ map (fun m => ("Failed to import prompt: " ++ m)%string)
                 (StorageManager.thrown cs))).
Proof.
  induction cs as [|c r IH]; intros [m [i s e]]; cbn [fold_left].
  - cbn [StorageManager.returned StorageManager.thrown flat_map List.length map fst snd
         StorageManager.imported StorageManager.skipped StorageManager.errors setAll
         fold_left].
    rewrite app_nil_r. f_equal. f_equal. lia.
  - rewrite IH.
    change (StorageManager.returned (c :: r))
      with ((match c with Return p => [p] | Throw _ => [] end) ++ StorageManager.returned r).
    change (StorageManager.thrown (c :: r))
      with ((match c with Return _ => [] | Throw m => [m] end) ++ StorageManager.thrown r).
    destruct c as [p|msg];
      cbn [StorageManager.absorb negb orb fst snd StorageManager.imported
           StorageManager.skipped StorageManager.errors app List.length map].
    + f_equal. f_equal. lia.
    + rewrite <- app_assoc. reflexivity.
Qed.

End Replace.

(** X11 (importData, clearAll). Importing with [merge=false] replaces
    everything: the collection ends with the accepted incoming records
    only, the last one winning when two carry the same id; categories,
    favorites and settings come from the imported data alone (settings over
    the defaults); nothing is skipped, and [imported] counts every accepted
    record, also one that a later record with the same id has replaced. *)
Theorem importData_replace {dates : DateParser} (ids : nat -> string) (today : string)
        (parsedData : Snapshot.t) (this : StorageManager.t) (ls : LocalStorage.t) :
  let cs := StorageManager.constructAll ids today 0 (StorageManager.incoming parsedData) in
  let out := StorageManager.importData ids today (Return parsedData) false this ls in
  let after := fst (fst out) in
  snd out
  = Return (StorageManager.mkResult
              (Z.of_nat (List.length (StorageManager.returned cs))) 0
              (map (fun m => ("Failed to import prompt: " ++ m)%string)
                   (StorageManager.thrown cs)))
  /\ (forall k, JSMap.get k (StorageManager.prompts after)
                = lastWithId k (StorageManager.returned cs))
  /\ (JSMap.size (StorageManager.prompts after)
      <= Z.of_nat (List.length (StorageManager.returned cs)))%Z
  /\ StorageManager.categories after
     = JSMap.assign [] (match Snapshot.categories parsedData with
                        | Some c => c
                        | None => []
                        end)
  /\ StorageManager.favorites after
     = JSSet.ofList (match Snapshot.favorites parsedData with
                     | Some f => f
                     | None => []
                     end)
  /\ StorageManager.settings after
     = JSMap.assign StorageManager.getDefaultSettings
                    (match Snapshot.settings parsedData with
                     | Some s => s
                     | None => []
                     end)
  /\ snd (fst out) = StorageManager.saveAll after (LocalStorage.removeAll ls).
Proof.
  cbv zeta. unfold StorageManager.importData, StorageManager.clearAll,
    StorageManager.incoming.
  cbn [negb]. cbv beta iota zeta.
  cbn [StorageManager.prompts StorageManager.categories StorageManager.favorites
       StorageManager.settings].
  destruct parsedData as [ps c f s].
  cbn [Snapshot.prompts Snapshot.categories Snapshot.favorites Snapshot.settings].
  destruct ps as [promptsData|].
  - rewrite importPrompts_fold, replace_loop.
    set (cs := StorageManager.constructAll ids today 0 promptsData).
    cbn [fst snd StorageManager.imported StorageManager.skipped StorageManager.errors
         app Z.add].
    pose proof (setAll_size (StorageManager.returned cs) []) as Hsize.
    change (JSMap.size (@nil (string * Prompt.t))) with 0%Z in Hsize.
    assert (Hget : forall k, JSMap.get k (setAll (StorageManager.returned cs) [])
                             = lastWithId k (StorageManager.returned cs)).
    { intros k. rewrite get_setAll.
      now destruct (lastWithId k (StorageManager.returned cs)). }
    destruct c, f, s;
      cbn [fst snd StorageManager.prompts StorageManager.categories
           StorageManager.favorites StorageManager.settings];
      (split; [reflexivity|]); (split; [exact Hget|]); (split; [lia|]);
      repeat split; reflexivity.
  - destruct c, f, s;
      cbn [fst snd StorageManager.prompts StorageManager.categories
           StorageManager.favorites StorageManager.settings];
      (split; [reflexivity|]); (split; [reflexivity|]); (split; [reflexivity|]);
      repeat split; reflexivity.
Qed.

(** ** Restoring *)

Lemma createBackup_quiet (now : string) (this : StorageManager.t) (ls : LocalStorage.t) :
  LocalStorage.faults ls = [] ->
  StorageManager.createBackup now this ls
  = LocalStorage.mk (LocalStorage.PROMPTS ls) (LocalStorage.CATEGORIES ls)
      (LocalStorage.FAVORITES ls) (LocalStorage.SETTINGS ls)
      (Some (StorageManager.snapshot now this
               :: firstn 4 (StorageManager.storedBackups ls)))
      [].
Proof.
  destruct ls as [p c f s b faults]. cbn [LocalStorage.faults]. intros ->. reflexivity.
Qed.

(** X12 (createBackup, restoreFromBackup). A snapshot just taken restores
    what it was taken from: when the collection holds valid records filed
    under their ids, each with an id, a version and both dates, and the
    store accepts the write, [restoreFromBackup(0)] on the store that
    [createBackup] leaves answers [true] and gives any manager the same
    records in the same order, the same categories and favorites, and every
    setting that was set; it then saves that state. *)
Theorem createBackup_restoreFromBackup {dates : DateParser}
        (ids : nat -> string) (today now : string)
        (this other : StorageManager.t) (ls : LocalStorage.t) :
  filed (StorageManager.prompts this) ->
  forallb complete (JSMap.values (StorageManager.prompts this)) = true ->
  JSSet.wf (StorageManager.favorites this) ->
  JSMap.wf (StorageManager.settings this) ->
  LocalStorage.faults ls = [] ->
  let saved := StorageManager.createBackup now this ls in
  let out := StorageManager.restoreFromBackup ids today 0 other saved in
  let restored := fst (fst out) in
  snd out = Return true
  /\ StorageManager.prompts restored = StorageManager.prompts this
  /\ (forall k, JSMap.get k (StorageManager.categories restored)
                = JSMap.get k (StorageManager.categories this))
  /\ StorageManager.favorites restored = StorageManager.favorites this
  /\ (forall k, JSMap.get k (StorageManager.settings restored)
                = match JSMap.get k (StorageManager.settings this) with
                  | Some v => Some v
                  | None => JSMap.get k StorageManager.getDefaultSettings
                  end)
  /\ snd (fst out) = StorageManager.saveAll restored saved.
Proof.
  intros Hfiled Hcomplete Hfav Hset Hquiet. cbv zeta.
  rewrite (createBackup_quiet now this ls Hquiet).
  unfold StorageManager.restoreFromBackup, StorageManager.restoreAttempt,
    StorageManager.storedBackups.
  cbn [LocalStorage.BACKUP].
  assert (Hlen : (0 >=? Z.of_nat
                          (List.length
                             (StorageManager.snapshot now this
                                :: firstn 4 match LocalStorage.BACKUP ls with
                                            | Some backups => backups
                                            | None => []
                                            end)))%Z = false).
  { rewrite Z.geb_leb. apply Z.leb_gt. cbn [List.length]. lia. }
  rewrite Hlen.
  cbn [StorageManager.at_index Z.ltb Z.compare Z.to_nat nth_error data
       StorageManager.snapshot Snapshot.prompts Snapshot.categories Snapshot.favorites
       Snapshot.settings].
  rewrite restorePrompts_setAll.
  rewrite (constructAll_stored ids today _ (stored_records _ Hfiled Hcomplete)).
  rewrite upToThrow_map_Return. cbn [fst snd].
  rewrite (setAll_values (StorageManager.prompts this) [] (filed_keyed _ Hfiled)
             (proj1 Hfiled)).
  cbn [app fst snd StorageManager.prompts StorageManager.categories
       StorageManager.favorites StorageManager.settings].
  rewrite (ofList_nodup _ Hfav).
  split; [reflexivity|]. split; [reflexivity|].
  split; [intros k; apply get_entries|].
  split; [reflexivity|]. split; [|reflexivity].
  intros k. apply get_assign. exact Hset.
Qed.

Lemma createBackup_restoreFromBackup_witness :
  snd (@StorageManager.restoreFromBackup Sample.isoDates Sample.ids "2024-03-03" 0
         Sample.fresh
         (StorageManager.createBackup "2024-03-03T10:00:00.000Z" Sample.manager
                                      Sample.emptyStore))
  = Return true.
Proof.
  refine (proj1 (@createBackup_restoreFromBackup Sample.isoDates Sample.ids "2024-03-03"
                   "2024-03-03T10:00:00.000Z" Sample.manager Sample.fresh
                   Sample.emptyStore sample_manager_filed eq_refl _ _ eq_refl)).
  - repeat constructor; simpl; intuition discriminate.
  - repeat constructor; simpl; intuition discriminate.
Defined.

Lemma at_index_range {A : Type} (l : list A) (i : Z) (x : A) :
  StorageManager.at_index l i = Some x ->
  (i >=? Z.of_nat (List.length l))%Z = false.
Proof.
  unfold StorageManager.at_index. destruct (i <? 0)%Z eqn:E; [discriminate|].
  intros H. apply Z.ltb_ge in E.
  assert (Hlt : (Z.to_nat i < List.length l)%nat).
  { apply nth_error_Some. congruence. }
  rewrite Z.geb_leb. apply Z.leb_gt. lia.
Qed.

(** X13 (restoreFromBackup). A restore is not all-or-nothing. When the
    constructor refuses a record of the snapshot, [restoreFromBackup]
    answers [false] after the collection has been cleared and refilled
    with the records that came before the refused one: what the
    collection held is lost, while categories, favorites, settings and the
    store are as they were. *)
Theorem restoreFromBackup_partial {dates : DateParser}
        (ids : nat -> string) (today : string) (backupIndex : Z)
        (this : StorageManager.t) (ls : LocalStorage.t)
        (backup : Backup) (promptsData : list Data.t)
        (good : list Prompt.t) (message : string) (rest : list (Completion Prompt.t)) :
  StorageManager.at_index (StorageManager.storedBackups ls) backupIndex = Some backup ->
  Snapshot.prompts (data backup) = Some promptsData ->
  StorageManager.constructAll ids today 0 promptsData
  = map Return good ++ Throw message :: rest ->
  StorageManager.restoreFromBackup ids today backupIndex this ls
  = (StorageManager.mk (setAll good []) (StorageManager.categories this)
                       (StorageManager.favorites this) (StorageManager.settings this),
     ls, Return false).
Proof.
  intros Hat Hprompts Hcs.
  unfold StorageManager.restoreFromBackup, StorageManager.restoreAttempt.
  rewrite (at_index_range _ _ _ Hat), Hat, Hprompts.
  rewrite restorePrompts_setAll, Hcs, upToThrow_app. reflexivity.
Qed.

Lemma restoreFromBackup_partial_witness :
  @StorageManager.restoreFromBackup Sample.isoDates Sample.ids "2024-03-03" 0
    Sample.manager Sample.damagedStore
  = (StorageManager.mk [("prompt-1-a", Sample.codeReview)]
       (StorageManager.categories Sample.manager)
       (StorageManager.favorites Sample.manager)
       (StorageManager.settings Sample.manager),
     Sample.damagedStore, Return false).
Proof.
  apply (@restoreFromBackup_partial Sample.isoDates Sample.ids "2024-03-03" 0
           Sample.manager Sample.damagedStore
           (mkBackup "2024-03-02T10:00:00.000Z" "1.0"
              (Snapshot.mk (Some [Prompt.toObject Sample.codeReview; Sample.untitled;
                                  Prompt.toObject Sample.recruiter])
                           None None None))
           [Prompt.toObject Sample.codeReview; Sample.untitled;
            Prompt.toObject Sample.recruiter]
           [Sample.codeReview] "Validation failed: Field 'title' is required"
           [Return Sample.recruiter]);
    vm_compute; reflexivity.
Defined.

(** ** The tree view's commands *)

Lemma set_has_add_same (x : string) (s : JSSet.t) : JSSet.has x (JSSet.add x s) = true.
Proof.
  unfold JSSet.add. destruct (JSSet.has x s) eqn:E; [exact E|].
  unfold JSSet.has. rewrite existsb_app. simpl. rewrite String.eqb_refl.
  now rewrite orb_true_r.
Qed.

Lemma set_has_add_other (k x : string) (s : JSSet.t) :
  k <> x -> JSSet.has k (JSSet.add x s) = JSSet.has k s.
Proof.
  intros Hne. unfold JSSet.add. destruct (JSSet.has x s); [reflexivity|].
  unfold JSSet.has. rewrite existsb_app. simpl.
  apply String.eqb_neq in Hne. rewrite Hne. now rewrite !orb_false_r.
Qed.

Lemma set_has_delete_other (k x : string) (s : JSSet.t) :
  k <> x -> JSSet.has k (JSSet.delete x s) = JSSet.has k s.
Proof.
  intros Hne. induction s as [|y r IH]; [reflexivity|]. simpl.
  destruct (String.eqb_spec x y) as [<-|Hxy].
  - apply String.eqb_neq in Hne. unfold JSSet.has. simpl. now rewrite Hne.
  - unfold JSSet.has in *. simpl. now rewrite IH.
Qed.

Section Commands.
Context {dates : DateParser}.

Lemma update_flag (today : string) (b : bool) (p : Prompt.t) :
  Prompt.update today (TreeView.flagData b) p
  = (Prompt.set_modified today (Prompt.set_isFavorite b p),
     Prompt.validate (Prompt.set_modified today (Prompt.set_isFavorite b p))).
Proof.
  rewrite update_inherited by reflexivity. rewrite updateFields_explicit. reflexivity.
Qed.


(** A valid record stays valid when only its flag, its category and its
    modification date change, the date being one that parses. *)
Lemma valid_touched (today : string) (p q : Prompt.t) :
  Prompt.validate p = Return tt ->
  Prompt.isValidDate today = true ->
  Prompt.title q = Prompt.title p -> Prompt.type q = Prompt.type p ->
  Prompt.prompt q = Prompt.prompt p -> Prompt.tags q = Prompt.tags p ->
  Prompt.version q = Prompt.version p -> Prompt.created q = Prompt.created p ->
  Prompt.modified q = today ->
  Prompt.validate q = Return tt.
Proof.
  intros Hv Htoday E1 E2 E3 E4 E5 E6 E7.
  apply validate_passes. apply validate_passes in Hv.
  unfold Prompt.passes in *. rewrite E1, E2, E3, E4, E5, E6, E7.
  rewrite !andb_true_iff in *. destruct Hv as [Hrest _].
  split; [exact Hrest|]. rewrite Htoday. now rewrite andb_false_r.
Qed.

(** What the constructor returns is the record it has assembled. *)
Lemma new_assembled (fresh today : string) (data : Data.t) (p : Prompt.t) :
  Prompt.new fresh today data = Return p ->
  Prompt.id p = JSString.orElse (Data.id data) fresh
  /\ Prompt.category p = JSString.orElse (Data.category data) ""
  /\ Prompt.isFavorite p
     = match Data.isFavorite data with Some b => b | None => false end.
Proof.
  unfold Prompt.new. cbv zeta.
  match goal with |- bindC (Prompt.validate ?q) _ = _ -> _ => set (this := q) end.
  destruct (Prompt.validate this) as [[]|m]; simpl; [|discriminate].
  intros H. injection H as <-. repeat split; reflexivity.
Qed.

End Commands.

(** X15 (TreeView.toggleFavorite). On a valid record of the collection,
    at a date that parses, [toggleFavorite] flips the record's flag, stamps
    its modification date, and leaves the favorites set in step with the
    flag: the id is in the set afterwards exactly when the flag is set. No
    other record and no other member of the set changes, and the order of
    the collection is kept. *)
Theorem toggleFavorite_sync {dates : DateParser} (today promptId : string)
        (this : TreeView.t) (ls : LocalStorage.t) (p : Prompt.t) :
  JSMap.get promptId (StorageManager.prompts (TreeView.storage this)) = Some p ->
  Prompt.validate p = Return tt ->
  Prompt.isValidDate today = true ->
  JSSet.wf (StorageManager.favorites (TreeView.storage this)) ->
  let before := TreeView.storage this in
  let out := TreeView.toggleFavorite today promptId this ls in
  let after := TreeView.storage (fst (fst out)) in
  snd out = Return tt
  /\ JSMap.get promptId (StorageManager.prompts after)
     = Some (Prompt.set_modified today
               (Prompt.set_isFavorite (negb (Prompt.isFavorite p)) p))
  /\ JSSet.has promptId (StorageManager.favorites after) = negb (Prompt.isFavorite p)
  /\ (forall k, k <> promptId ->
                JSMap.get k (StorageManager.prompts after)
                = JSMap.get k (StorageManager.prompts before)
                /\ JSSet.has k (StorageManager.favorites after)
                   = JSSet.has k (StorageManager.favorites before))
  /\ JSMap.keys (StorageManager.prompts after)
     = JSMap.keys (StorageManager.prompts before).
Proof.
  intros Hget Hvalid Htoday Hwf. cbv zeta.
  unfold TreeView.toggleFavorite. rewrite Hget, update_flag.
  rewrite (valid_touched today p
             (Prompt.set_modified today
                (Prompt.set_isFavorite (negb (Prompt.isFavorite p)) p))
             Hvalid Htoday eq_refl eq_refl eq_refl eq_refl eq_refl eq_refl eq_refl).
  cbn [fst snd TreeView.storage TreeView.mutated StorageManager.prompts
       StorageManager.favorites StorageManager.categories StorageManager.settings
       Prompt.isFavorite Prompt.set_modified Prompt.set_isFavorite].
  split; [reflexivity|].
  split; [apply get_set_same|].
  split.
  { destruct (Prompt.isFavorite p); cbn [negb].
    - apply set_has_delete. exact Hwf.
    - apply set_has_add_same. }
  split.
  { intros k Hk. split; [apply get_set_other; exact Hk|].
    destruct (Prompt.isFavorite p); cbn [negb].
    - apply set_has_delete_other. exact Hk.
    - apply set_has_add_other. exact Hk. }
  rewrite keys_set. assert (Hhas : JSMap.has promptId
                                     (StorageManager.prompts (TreeView.storage this)) = true).
  { apply has_true_iff. eauto. }
  now rewrite Hhas.
Qed.

Lemma toggleFavorite_sync_witness :
  JSSet.has "prompt-2-b"
    (StorageManager.favorites
       (TreeView.storage
          (fst (fst (@TreeView.toggleFavorite Sample.isoDates "2024-03-03" "prompt-2-b"
                       Sample.view Sample.emptyStore)))))
  = true.
Proof.
  refine (proj1 (proj2 (proj2
            (@toggleFavorite_sync Sample.isoDates "2024-03-03" "prompt-2-b" Sample.view
               Sample.emptyStore Sample.recruiter eq_refl eq_refl eq_refl _)))).
  repeat constructor; simpl; intuition discriminate.
Defined.

(** X16 (TreeView.duplicatePrompt). When [clone()] returns a copy,
    [duplicatePrompt] files it under the id generated for it and saves the
    collection; every other key reads as before. The copy carries the
    original's category and favorite flag, but the favorites set is left
    as it was: the copy of a favorite is flagged without being a member of
    the set. *)
Theorem duplicatePrompt_adds {dates : DateParser} (fresh today promptId : string)
        (this : TreeView.t) (ls : LocalStorage.t) (p d : Prompt.t) :
  JSMap.get promptId (StorageManager.prompts (TreeView.storage this)) = Some p ->
  Prompt.clone fresh today p = Return d ->
  let before := TreeView.storage this in
  let out := TreeView.duplicatePrompt fresh today promptId this ls in
  let after := TreeView.storage (fst (fst out)) in
  snd out = Return tt
  /\ Prompt.id d = fresh
  /\ Prompt.category d = Prompt.category p
  /\ Prompt.isFavorite d = Prompt.isFavorite p
  /\ JSMap.get fresh (StorageManager.prompts after) = Some d
  /\ (forall k, k <> fresh ->
                JSMap.get k (StorageManager.prompts after)
                = JSMap.get k (StorageManager.prompts before))
  /\ StorageManager.favorites after = StorageManager.favorites before
  /\ snd (fst out) = StorageManager.savePrompts after ls.
Proof.
  intros Hget Hclone. cbv zeta.
  unfold TreeView.duplicatePrompt. rewrite Hget, Hclone.
  unfold Prompt.clone in Hclone. cbv zeta in Hclone.
  apply new_assembled in Hclone.
  cbn [Data.id Data.category Data.isFavorite Prompt.toObject] in Hclone.
  destruct Hclone as (Hid & Hcat & Hfav). rewrite orElse_same in Hcat.
  change (JSString.orElse None fresh) with fresh in Hid.
  cbn [fst snd TreeView.storage StorageManager.prompts StorageManager.favorites].
  rewrite Hid.
  split; [reflexivity|]. split; [reflexivity|]. split; [exact Hcat|].
  split; [exact Hfav|]. split; [apply get_set_same|].
  split; [intros k Hk; apply get_set_other; exact Hk|].
  split; reflexivity.
Qed.

Lemma duplicatePrompt_adds_witness :
  let out := @TreeView.duplicatePrompt Sample.isoDates "prompt-9-z" "2024-03-03"
               "prompt-1-a" Sample.view Sample.emptyStore in
  let after := TreeView.storage (fst (fst out)) in
  option_map Prompt.isFavorite (JSMap.get "prompt-9-z" (StorageManager.prompts after))
  = Some true
  /\ JSSet.has "prompt-9-z" (StorageManager.favorites after) = false.
Proof.
  cbv zeta.
  destruct (@duplicatePrompt_adds Sample.isoDates "prompt-9-z" "2024-03-03" "prompt-1-a"
              Sample.view Sample.emptyStore Sample.codeReview
              (Prompt.set_id "prompt-9-z"
                 (Prompt.set_title "AI Code Review (Copy)" Sample.codeReview))
              eq_refl eq_refl)
    as (_ & _ & _ & _ & Hcopy & _ & Hfav & _).
  cbv zeta in Hcopy, Hfav. rewrite Hcopy, Hfav. split; reflexivity.
Defined.






(** A drop on a folder in a collection whose tree cannot be built: the
    record is moved and saved, and then [render] throws. *)
Example handleDrop_throws :
  let this := TreeView.mk Sample.named None in
  let out := @TreeView.handleDrop Sample.isoDates "2024-03-03"
               (Some (TreeView.CategoryNode "linguaggi")) "prompt-2-b" true
               this Sample.emptyStore in
  snd out = Throw "TypeError: Cannot read properties of undefined (reading 'push')"
  /\ option_map Prompt.category
       (JSMap.get "prompt-2-b" (StorageManager.prompts (TreeView.storage (fst (fst out)))))
     = Some "linguaggi"
  /\ snd (fst out)
     = StorageManager.savePrompts (TreeView.storage (fst (fst out))) Sample.emptyStore.
Proof. vm_compute. repeat split. Qed.

(** ** The editor's form *)

Lemma Forall_firstn {A : Type} (P : A -> Prop) (n : nat) (l : list A) :
  Forall P l -> Forall P (firstn n l).
Proof.
  revert l. induction n as [|n IH]; intros l H; [constructor|].
  destruct H as [|x r Hx Hr]; [constructor|]. simpl. constructor; auto.
Qed.

Lemma trimStart_keeps (Q : ascii -> bool) (s : string) :
  forallb Q (chars s) = true -> forallb Q (chars (JSString.trimStart s)) = true.
Proof.
  induction s as [|c r IH]; [reflexivity|]. intros H. simpl.
  destruct (JSString.isWhiteSpace c); [|exact H].
  apply IH. change (chars (String c r)) with (c :: chars r) in H. simpl in H.
  apply andb_true_iff in H. tauto.
Qed.

Lemma trimEnd_keeps (Q : ascii -> bool) (s : string) :
  forallb Q (chars s) = true -> forallb Q (chars (JSString.trimEnd s)) = true.
Proof.
  induction s as [|c r IH]; [reflexivity|]. intros H.
  change (chars (String c r)) with (c :: chars r) in H. simpl in H.
  apply andb_true_iff in H. destruct H as [Hc Hr]. specialize (IH Hr).
  rewrite trimEnd_cons. destruct (JSString.trimEnd r) as [|c' r'].
  - destruct (JSString.isWhiteSpace c); [reflexivity|].
    change (Q c && true = true). now rewrite Hc.
  - change (Q c && forallb Q (chars (String c' r')) = true). now rewrite Hc.
Qed.

Lemma trim_keeps (Q : ascii -> bool) (s : string) :
  forallb Q (chars s) = true -> forallb Q (chars (JSString.trim s)) = true.
Proof. intros H. unfold JSString.trim. apply trimEnd_keeps, trimStart_keeps, H. Qed.

(** A string without the character [c]. *)
Local Abbreviation without c s :=
  (forallb (fun x => negb (Ascii.eqb x c)) (chars s) = true).

Lemma split_cons (c a : ascii) (r : string) :
  JSString.split c (String a r)
  = if Ascii.eqb a c then EmptyString :: JSString.split c r
    else match JSString.split c r with
         | w :: ws => String a w :: ws
         | [] => [String a EmptyString]
         end.
Proof. reflexivity. Qed.

(** No piece of [s.split(c)] contains [c]. *)
Lemma split_without (c : ascii) (s : string) :
  Forall (fun w => without c w) (JSString.split c s).
Proof.
  induction s as [|a r IH]; [repeat constructor|].
  rewrite split_cons. destruct (Ascii.eqb a c) eqn:E.
  - constructor; [reflexivity|exact IH].
  - destruct (JSString.split c r) as [|w ws].
    + constructor; [|constructor]. change (negb (Ascii.eqb a c) && true = true).
      now rewrite E.
    + inversion IH as [|? ? Hw Hws]; subst. constructor; [|exact Hws].
      change (negb (Ascii.eqb a c) && forallb (fun x => negb (Ascii.eqb x c)) (chars w)
              = true).
      now rewrite E, Hw.
Qed.

Lemma parseTags_length (tagsString : string) :
  (List.length (PromptEditor.parseTags tagsString) <= 20)%nat.
Proof.
  unfold PromptEditor.parseTags. destruct (negb (JSString.truthy tagsString)).
  - simpl. lia.
  - rewrite length_firstn. lia.
Qed.

Lemma parseTags_within (tagsString : string) :
  (Z.of_nat (List.length (PromptEditor.parseTags tagsString)) >? 20)%Z = false.
Proof.
  rewrite Z.gtb_ltb. apply Z.ltb_ge. pose proof (parseTags_length tagsString). lia.
Qed.

(** X18 (PromptEditor.parseTags). Whatever the tags input holds,
    [parseTags] returns at most 20 tags, none of them empty, each without
    white space at either end and without a comma. The tag-count check of
    [validateForm] and the one of the record's [validate] can therefore not
    fail on what [parseTags] returns. *)
Theorem parseTags_clean (tagsString : string) :
  (List.length (PromptEditor.parseTags tagsString) <= 20)%nat
  /\ Forall (fun tag => tag <> ""
                        /\ JSString.trim tag = tag
                        /\ forallb (fun x => negb (Ascii.eqb x ",")) (chars tag) = true)
            (PromptEditor.parseTags tagsString)
  /\ (Z.of_nat (List.length (PromptEditor.parseTags tagsString)) >? 20)%Z = false.
Proof.
  split; [apply parseTags_length|]. split.
  - unfold PromptEditor.parseTags. destruct (negb (JSString.truthy tagsString));
      [constructor|].
    apply Forall_firstn. apply Forall_forall. intros tag Htag.
    apply filter_In in Htag. destruct Htag as [Htag Hlen].
    apply in_map_iff in Htag. destruct Htag as (piece & <- & Hpiece).
    split; [|split].
    + intros E. rewrite E in Hlen. discriminate Hlen.
    + apply trim_idempotent.
    + apply trim_keeps.
      pose proof (split_without "," tagsString) as H.
      rewrite Forall_forall in H. apply H. exact Hpiece.
  - apply parseTags_within.
Qed.

Lemma split_none (c : ascii) (s : string) :
  without c s -> JSString.split c s = [s].
Proof.
  induction s as [|a r IH]; [reflexivity|]. intros H.
  change (chars (String a r)) with (a :: chars r) in H. simpl in H.
  apply andb_true_iff in H. destruct H as [Ha Hr].
  rewrite split_cons. apply negb_true_iff in Ha. rewrite Ha, (IH Hr). reflexivity.
Qed.

Lemma split_app (c : ascii) (s rest : string) :
  without c s ->
  JSString.split c (s ++ String c rest) = s :: JSString.split c rest.
Proof.
  induction s as [|a r IH]; intros H.
  - change (EmptyString ++ String c rest)%string with (String c rest).
    rewrite split_cons, Ascii.eqb_refl. reflexivity.
  - change (chars (String a r)) with (a :: chars r) in H. simpl in H.
    apply andb_true_iff in H. destruct H as [Ha Hr].
    change (String a r ++ String c rest)%string with (String a (r ++ String c rest)).
    rewrite split_cons. apply negb_true_iff in Ha. rewrite Ha, (IH Hr). reflexivity.
Qed.

(** [tags.join(', ').split(',')]: the first tag, then each other tag after a
    space. *)
Lemma split_join (tag : string) (tags : list string) :
  Forall (fun t => without "," t) (tag :: tags) ->
  JSString.split "," (JSString.join ", " (tag :: tags))
  = tag :: map (fun t => String " " t) tags.
Proof.
  revert tag. induction tags as [|next r IH]; intros tag H.
  - inversion H; subst. apply split_none. assumption.
  - inversion H as [|? ? Htag Hrest]; subst.
    change (JSString.join ", " (tag :: next :: r))
      with (tag ++ String "," (String " " (JSString.join ", " (next :: r))))%string.
    rewrite (split_app "," _ _ Htag).
    rewrite split_cons. change (Ascii.eqb " " ",") with false. cbv iota.
    rewrite (IH next Hrest). reflexivity.
Qed.

Lemma trim_after_space (s : string) : JSString.trim (String " " s) = JSString.trim s.
Proof. reflexivity. Qed.

Lemma map_trim_clean (tags : list string) :
  Forall (fun t => JSString.trim t = t) tags ->
  map JSString.trim (map (fun t => String " " t) tags) = tags.
Proof.
  induction 1 as [|t r Ht Hr IH]; [reflexivity|]. simpl map.
  rewrite trim_after_space, Ht, IH. reflexivity.
Qed.

Lemma filter_nonempty (tags : list string) :
  Forall (fun t => t <> "") tags ->
  filter (fun tag => (JSString.length tag >? 0)%Z) tags = tags.
Proof.
  induction 1 as [|t r Ht Hr IH]; [reflexivity|]. simpl.
  destruct t as [|a w]; [now elim Ht|]. rewrite word_counts, IH. reflexivity.
Qed.

(** X19 (PromptEditor.populateForm, parseTags). The tags of a record come
    back from the form as they went in: when a record has at most 20 tags,
    none of them empty, each without white space at either end and without a
    comma, [parseTags] applied to the text that [populateForm] puts in the
    tags input gives the record's tags again. *)
Theorem parseTags_tagsValue (p : Prompt.t) :
  (List.length (Prompt.tags p) <= 20)%nat ->
  Forall (fun tag => tag <> ""
                     /\ JSString.trim tag = tag
                     /\ forallb (fun x => negb (Ascii.eqb x ",")) (chars tag) = true)
         (Prompt.tags p) ->
  PromptEditor.parseTags (PromptEditor.tagsValue p) = Prompt.tags p.
Proof.
  intros Hlen Hclean. unfold PromptEditor.tagsValue, Prompt.getTagsString.
  destruct (Prompt.tags p) as [|tag tags]; [reflexivity|].
  assert (Hne : Forall (fun t => t <> "") (tag :: tags)).
  { eapply Forall_impl; [|exact Hclean]. simpl. tauto. }
  assert (Htrim : Forall (fun t => JSString.trim t = t) (tag :: tags)).
  { eapply Forall_impl; [|exact Hclean]. simpl. tauto. }
  assert (Hcomma : Forall (fun t => without "," t) (tag :: tags)).
  { eapply Forall_impl; [|exact Hclean]. simpl. tauto. }
  unfold PromptEditor.parseTags.
  assert (Htruthy : JSString.truthy (JSString.join ", " (tag :: tags)) = true).
  { apply truthy_true. inversion Hne as [|? ? Htag _]; subst.
    destruct tag as [|a w]; [now elim Htag|].
    destruct tags; discriminate. }
  rewrite Htruthy. cbn [negb].
  rewrite (split_join tag tags Hcomma). cbn [map].
  inversion Htrim as [|? ? Htag Htags]; subst.
  rewrite Htag, (map_trim_clean tags Htags), (filter_nonempty _ Hne).
  apply firstn_all2. exact Hlen.
Qed.

Lemma parseTags_tagsValue_witness :
  PromptEditor.parseTags (PromptEditor.tagsValue Sample.codeReview) = ["java"; "review"].
Proof.
  apply (parseTags_tagsValue Sample.codeReview).
  - simpl. lia.
  - repeat constructor; discriminate.
Defined.












(** ** Search history and suggestions *)

Lemma In_firstn {A : Type} (n : nat) (l : list A) (x : A) :
  In x (firstn n l) -> In x l.
Proof.
  revert l. induction n as [|n IH]; intros l H; [destruct H|].
  destruct l as [|y r]; [destruct H|]. simpl in H. destruct H as [H|H]; [now left|].
  right. apply IH. exact H.
Qed.

Lemma NoDup_firstn {A : Type} (n : nat) (l : list A) :
  NoDup l -> NoDup (firstn n l).
Proof.
  revert l. induction n as [|n IH]; intros l H; [constructor|].
  destruct H as [|x r Hx Hr]; [constructor|]. simpl. constructor.
  - intros Hin. apply Hx. apply (In_firstn n). exact Hin.
  - apply IH. exact Hr.
Qed.

Lemma slice0_firstn {A : Type} (n : Z) (l : list A) :
  exists k : nat, SearchController.slice0 n l = firstn k l
                  /\ (0 <= n -> k = Z.to_nat n)%Z.
Proof.
  unfold SearchController.slice0. destruct (n <? 0)%Z eqn:E.
  - eexists. split; [reflexivity|]. apply Z.ltb_lt in E. lia.
  - eexists. split; [reflexivity|]. reflexivity.
Qed.

Lemma existsb_In (x : string) (l : list string) :
  existsb (String.eqb x) l = true <-> In x l.
Proof.
  rewrite existsb_exists. split.
  - intros (y & Hy & E). apply String.eqb_eq in E. now subst.
  - intros H. exists x. split; [exact H|apply String.eqb_refl].
Qed.

(** X21 (SearchController.addToSearchHistory). With a limit that is not
    negative, an empty query or one that the history already holds leaves
    the history as it is (a repeated query is not moved to the front); any
    other query is put first and the history is cut to the limit from the
    end. The history stays free of repetitions, and within the limit once
    it is. *)
Theorem addToSearchHistory_bounded (maxHistoryItems : Z) (query : string)
        (searchHistory : list string) :
  (0 <= maxHistoryItems)%Z ->
  let after :=
    SearchController.addToSearchHistory maxHistoryItems query searchHistory in
  (query = "" \/ In query searchHistory -> after = searchHistory)
  /\ (query <> "" -> ~ In query searchHistory ->
      after = firstn (Z.to_nat maxHistoryItems) (query :: searchHistory))
  /\ (NoDup searchHistory -> NoDup after)
  /\ ((Z.of_nat (List.length searchHistory) <= maxHistoryItems)%Z ->
      (Z.of_nat (List.length after) <= maxHistoryItems)%Z).
Proof.
  intros Hmax. cbv zeta. unfold SearchController.addToSearchHistory.
  destruct (negb (JSString.truthy query) || existsb (String.eqb query) searchHistory)
    eqn:G.
  - split; [reflexivity|]. split; [|split; auto].
    intros Hq Hnotin. apply orb_true_iff in G. destruct G as [G|G].
    + apply negb_true_iff in G. apply truthy_true in Hq. congruence.
    + apply existsb_In in G. contradiction.
  - apply orb_false_iff in G. destruct G as [Gq Gin].
    apply negb_false_iff, truthy_true in Gq.
    assert (Hnotin : ~ In query searchHistory).
    { intros H. apply existsb_In in H. congruence. }
    assert (Hafter :
              (if (Z.of_nat (List.length (query :: searchHistory)) >? maxHistoryItems)%Z
               then SearchController.slice0 maxHistoryItems (query :: searchHistory)
               else query :: searchHistory)
              = firstn (Z.to_nat maxHistoryItems) (query :: searchHistory)).
    { destruct (Z.of_nat (List.length (query :: searchHistory)) >? maxHistoryItems)%Z
        eqn:E.
      - unfold SearchController.slice0.
        assert (Hneg : (maxHistoryItems <? 0)%Z = false) by (apply Z.ltb_ge; lia).
        rewrite Hneg. reflexivity.
      - symmetry. apply firstn_all2. rewrite Z.gtb_ltb in E. apply Z.ltb_ge in E. lia. }
    rewrite Hafter.
    split; [intros [E|Hin]; [congruence|contradiction]|].
    split; [reflexivity|].
    split.
    + intros Hnd. apply NoDup_firstn. constructor; assumption.
    + intros _. pose proof (firstn_le_length (Z.to_nat maxHistoryItems)
                              (query :: searchHistory)). lia.
Qed.

Lemma addToSearchHistory_bounded_witness :
  SearchController.addToSearchHistory 10 "java" ["yaml"; "java"; "review"]
  = ["yaml"; "java"; "review"]
  /\ SearchController.addToSearchHistory 2 "sql" ["yaml"; "java"] = ["sql"; "yaml"].
Proof.
  split.
  - apply (proj1 (addToSearchHistory_bounded 10 "java" ["yaml"; "java"; "review"]
                    ltac:(lia))).
    right. simpl. tauto.
  - rewrite (proj1 (proj2 (addToSearchHistory_bounded 2 "sql" ["yaml"; "java"]
                             ltac:(lia)))).
    + reflexivity.
    + discriminate.
    + simpl. intuition discriminate.
Defined.

Lemma add_nodup (x : string) (s : JSSet.t) : NoDup s -> NoDup (JSSet.add x s).
Proof.
  intros H. unfold JSSet.add. destruct (JSSet.has x s) eqn:E; [exact H|].
  apply NoDup_snoc; [exact H|]. apply set_has_false. exact E.
Qed.

Lemma fold_add_keeps_nodup {A : Type} (f : JSSet.t -> A -> JSSet.t) (l : list A) :
  (forall s a, NoDup s -> NoDup (f s a)) ->
  forall s, NoDup s -> NoDup (fold_left f l s).
Proof.
  intros Hf. induction l as [|a r IH]; intros s Hs; [exact Hs|].
  simpl. apply IH. apply Hf. exact Hs.
Qed.

Lemma Forall_app_both {A : Type} (P : A -> Prop) (l1 l2 : list A) :
  Forall P l1 -> Forall P l2 -> Forall P (l1 ++ l2).
Proof. intros H1 H2. apply Forall_app. split; assumption. Qed.

Lemma Forall_slice0 {A : Type} (P : A -> Prop) (n : Z) (l : list A) :
  Forall P l -> Forall P (SearchController.slice0 n l).
Proof.
  intros H. destruct (slice0_firstn n l) as (k & -> & _). apply Forall_firstn. exact H.
Qed.

Lemma NoDup_slice0 {A : Type} (n : Z) (l : list A) :
  NoDup l -> NoDup (SearchController.slice0 n l).
Proof.
  intros H. destruct (slice0_firstn n l) as (k & -> & _). apply NoDup_firstn. exact H.
Qed.

Lemma In_slice0 {A : Type} (n : Z) (l : list A) (x : A) :
  In x (SearchController.slice0 n l) -> In x l.
Proof.
  destruct (slice0_firstn n l) as (k & -> & _). apply In_firstn.
Qed.

Lemma filter_fresh (f : string -> bool) (seen l : list string) :
  forall x, In x seen ->
            ~ In x (filter (fun y => f y && negb (existsb (String.eqb y) seen)) l).
Proof.
  intros x Hseen Hin. apply filter_In in Hin. destruct Hin as [_ H].
  apply andb_true_iff in H. destruct H as [_ H]. apply negb_true_iff in H.
  apply existsb_In in Hseen. congruence.
Qed.

(** X22 (SearchController.getSearchSuggestions). There are never more
    than 8 suggestions. For an empty query they are the first five entries
    of the history; otherwise every suggestion contains the query, case
    aside, the matching history entries come first, in their order, and
    when the history has no repetition no suggestion is offered twice. *)
Theorem getSearchSuggestions_bounded (query : string) (searchHistory : list string)
        (storage : StorageManager.t) :
  let suggestions :=
    SearchController.getSearchSuggestions query searchHistory storage in
  (List.length suggestions <= 8)%nat
  /\ (query = "" -> suggestions = firstn 5 searchHistory)
  /\ (query <> "" ->
      Forall (fun s => SearchController.mentions query s = true) suggestions
      /\ firstn 8 (filter (SearchController.mentions query) searchHistory)
         = firstn (List.length (filter (SearchController.mentions query) searchHistory))
                  suggestions
      /\ (NoDup searchHistory -> NoDup suggestions)).
Proof.
  cbv zeta. unfold SearchController.getSearchSuggestions.
  destruct (JSString.truthy query) eqn:Hq; cbn [negb].
  - apply truthy_true in Hq.
    set (matching := filter (SearchController.mentions query) searchHistory).
    set (allTags := fold_left _ _ _).
    set (allModels := fold_left
                        (fun allModels prompt =>
                           if JSString.truthy (Prompt.model prompt)
                           then JSSet.add (Prompt.model prompt) allModels
                           else allModels) _ _).
    cbn [app].
    set (tags3 := SearchController.slice0 3 _).
    set (models2 := SearchController.slice0 2 _).
    split; [unfold SearchController.slice0 at 1; cbn [Z.ltb Z.compare];
            apply firstn_le_length|].
    split; [intros E; contradiction|]. intros _.
    split; [|split].
    + apply Forall_slice0. apply Forall_app_both; [apply Forall_app_both|].
      * apply Forall_forall. intros s Hs. apply filter_In in Hs. tauto.
      * apply Forall_slice0. apply Forall_forall. intros s Hs.
        apply filter_In in Hs. destruct Hs as [_ Hs]. apply andb_true_iff in Hs. tauto.
      * apply Forall_slice0. apply Forall_forall. intros s Hs.
        apply filter_In in Hs. destruct Hs as [_ Hs]. apply andb_true_iff in Hs. tauto.
    + unfold SearchController.slice0 at 1. cbn [Z.ltb Z.compare].
      change (Z.to_nat 8) with 8%nat. rewrite <- app_assoc.
      generalize (tags3 ++ models2). generalize matching. clear.
      intros l tail. rewrite firstn_firstn.
      destruct (Nat.le_gt_cases (List.length l) 8) as [Hle|Hgt].
      * rewrite Nat.min_l by exact Hle.
        rewrite (firstn_all2 l) by exact Hle.
        rewrite firstn_app. rewrite (firstn_all2 l) by lia.
        replace (List.length l - List.length l)%nat with 0%nat by lia.
        now rewrite app_nil_r.
      * rewrite Nat.min_r by lia. rewrite firstn_app.
        replace (8 - List.length l)%nat with 0%nat by lia.
        now rewrite app_nil_r.
    + intros Hnd. apply NoDup_slice0.
      assert (HndM : NoDup matching) by (apply NoDup_filter; exact Hnd).
      assert (HndT : NoDup tags3).
      { apply NoDup_slice0, NoDup_filter.
        apply fold_add_keeps_nodup; [|constructor].
        intros s p Hs. apply fold_add_keeps_nodup; [|exact Hs].
        intros s' tag Hs'. apply add_nodup. exact Hs'. }
      assert (HndMT : NoDup (matching ++ tags3)).
      { apply NoDup_app; [exact HndM|exact HndT|].
        intros x Hx Hin. apply In_slice0 in Hin.
        revert Hin. apply filter_fresh. exact Hx. }
      apply NoDup_app; [exact HndMT| |].
      * apply NoDup_slice0, NoDup_filter.
        apply fold_add_keeps_nodup; [|constructor].
        intros s p Hs. destruct (JSString.truthy (Prompt.model p)); [|exact Hs].
        apply add_nodup. exact Hs.
      * intros x Hx Hin. apply In_slice0 in Hin.
        revert Hin. apply filter_fresh. exact Hx.
  - assert (E : query = "").
    { destruct query; [reflexivity|discriminate Hq]. }
    split; [unfold SearchController.slice0; cbn [Z.ltb Z.compare];
            pose proof (firstn_le_length (Z.to_nat 5) searchHistory);
            change (Z.to_nat 5) with 5%nat in *; lia|].
    split; [reflexivity|]. intros H. contradiction.
Qed.

(** ** The tree: what it shows and how it nests *)

(** X23 (TreeView.buildTreeStructure). When the tree is built and which
    records it shows. [buildTreeStructure] returns a tree exactly when no
    stored path has a parent path, and no record a category key, for which
    the prototype chain of the tree's table answers; otherwise it throws a
    [TypeError]. In a tree that it returns, a record of the collection is
    in the favorites bucket exactly when it is flagged, and it appears
    somewhere (favorites bucket, uncategorized bucket or the items of an
    entry) exactly when it is flagged, or its category is empty or
    ['uncategorized'], or it is filed under a stored category other than
    ['favorites']. A record that is not flagged and is filed under a
    category that is not stored, or under ['favorites'], is in no bucket. *)
Theorem buildTreeStructure_shown (storage : StorageManager.t) :
  let stored := StorageManager.categories storage in
  ((exists tree, TreeView.buildTreeStructure storage = Return tree)
   <-> buildable storage)
  /\ (forall key,
         inheritedKey stored key = true
         <-> TreeView.lookup key (TreeView.initCategories stored) = TreeView.Alien)
  /\ forall tree p,
       TreeView.buildTreeStructure storage = Return tree ->
       In p (JSMap.values (StorageManager.prompts storage)) ->
       let key := TreeView.categoryKey p in
       (In p (TreeView.favorites tree) <-> Prompt.isFavorite p = true)
       /\ ((In p (TreeView.favorites tree)
            \/ In p (TreeView.uncategorized tree)
            \/ exists c entry,
                 TreeView.lookup c (TreeView.categories tree) = TreeView.Held entry
                 /\ In p (TreeView.items entry))
           <-> (Prompt.isFavorite p = true
                \/ key = "uncategorized"
                \/ (key <> "favorites" /\ JSMap.has key stored = true))).
Proof.
  cbv zeta. split; [apply buildTreeStructure_returns|]. split.
  { intros key. rewrite <- foreign_init. unfold foreign.
    destruct (TreeView.lookup key
                (TreeView.initCategories (StorageManager.categories storage)));
      split; congruence. }
  intros tree p Htree Hin.
  pose proof (buildTreeStructure_spec storage) as Hspec. cbv zeta in Hspec.
  rewrite Htree in Hspec. destruct Hspec as (_ & _ & Hfav & Hunc & Hheld).
  assert (Hflag : In p (TreeView.favorites tree) <-> Prompt.isFavorite p = true).
  { rewrite Hfav, filter_In. tauto. }
  assert (Hitems : forall c entry,
             TreeView.lookup c (TreeView.categories tree) = TreeView.Held entry ->
             isShown c && JSMap.has c (StorageManager.categories storage) = true
             /\ TreeView.items entry
                = filter (fun q => TreeView.categoryKey q =? c)
                         (JSMap.values (StorageManager.prompts storage))).
  { intros c entry Hentry. apply held_Some in Hentry. rewrite Hheld in Hentry.
    pose proof (initCategories_holds (StorageManager.categories storage) c) as Hc.
    pose proof (initCategories_fresh (StorageManager.categories storage) c) as Hfresh.
    destruct (held c (TreeView.initCategories (StorageManager.categories storage)))
      as [e0|]; [|discriminate Hentry].
    cbn [option_map] in Hentry. injection Hentry as <-.
    destruct (Hfresh e0 eq_refl) as (Hnone & _).
    cbn [addItems withChildren TreeView.items]. rewrite Hnone. split; [|reflexivity].
    symmetry. exact Hc. }
  assert (Hcat : TreeView.categoryKey p <> "favorites" ->
                 JSMap.has (TreeView.categoryKey p) (StorageManager.categories storage)
                 = true ->
                 exists c entry,
                   TreeView.lookup c (TreeView.categories tree) = TreeView.Held entry
                   /\ In p (TreeView.items entry)).
  { intros Hk Hhas.
    pose proof (initCategories_holds (StorageManager.categories storage)
                  (TreeView.categoryKey p)) as Hc.
    unfold isShown in Hc. apply String.eqb_neq in Hk. rewrite Hk, Hhas in Hc.
    cbn [negb andb] in Hc. specialize (Hheld (TreeView.categoryKey p)).
    destruct (held (TreeView.categoryKey p)
                (TreeView.initCategories (StorageManager.categories storage)))
      as [e0|]; [|discriminate Hc].
    cbn [option_map] in Hheld. apply held_Some in Hheld.
    eexists _, _. split; [exact Hheld|].
    cbn [addItems TreeView.items]. apply in_or_app. right.
    apply filter_In. split; [exact Hin|apply String.eqb_refl]. }
  split; [exact Hflag|]. split.
  - intros [H|[H|(c & entry & Hentry & H)]].
    + left. apply Hflag. exact H.
    + rewrite Hunc in H. apply filter_In in H. destruct H as [_ H].
      rewrite !andb_true_iff in H. destruct H as [[_ Hk] _].
      apply String.eqb_eq in Hk. right. left. exact Hk.
    + destruct (Hitems c entry Hentry) as [Hc Hlist]. rewrite Hlist in H.
      apply filter_In in H. destruct H as [_ H]. apply String.eqb_eq in H. subst c.
      apply andb_true_iff in Hc. destruct Hc as [Hc1 Hc2].
      right. right. split; [|exact Hc2].
      apply negb_true_iff, String.eqb_neq in Hc1. exact Hc1.
  - intros [H|[H|[Hk Hhas]]].
    + left. apply Hflag. exact H.
    + destruct (Prompt.isFavorite p) eqn:Hf; [left; apply Hflag; reflexivity|].
      destruct (JSMap.has (TreeView.categoryKey p) (StorageManager.categories storage))
        eqn:Hhas.
      * right. right. apply Hcat; [rewrite H; discriminate|reflexivity].
      * right. left. rewrite Hunc. apply filter_In. split; [exact Hin|].
        rewrite Hhas, Hf, H. reflexivity.
    + right. right. apply Hcat; assumption.
Qed.

(** The stray record of [Sample.strays] is in no bucket of the tree. *)
Example orphan_not_shown :
  exists tree,
    TreeView.buildTreeStructure Sample.strays = Return tree
    /\ ~ (In Sample.orphan (TreeView.favorites tree)
          \/ In Sample.orphan (TreeView.uncategorized tree)
          \/ exists c entry,
               TreeView.lookup c (TreeView.categories tree) = TreeView.Held entry
               /\ In Sample.orphan (TreeView.items entry)).
Proof.
  eexists. split; [vm_compute; reflexivity|].
  intros [H|[H|(c & entry & Hentry & H)]]; [exact H|exact H|].
  apply lookup_Held in Hentry. cbn [TreeView.own TreeView.installed] in Hentry.
  destruct Hentry as [Hentry|(_ & _ & Hentry)]; [|discriminate Hentry].
  apply get_In in Hentry. simpl in Hentry.
  destruct Hentry as [E|[E|[E|[]]]]; injection E as <- <-; simpl in H; tauto.
Qed.

(** *** The order of the keys *)

Lemma insertIndexed_keys {V W : Type} (n : N) (x : string * V) (y : string * W) :
  fst x = fst y ->
  forall (la : list (string * V)) (lb : list (string * W)),
    map fst la = map fst lb ->
    map fst (JSObject.insertIndexed n x la) = map fst (JSObject.insertIndexed n y lb).
Proof.
  intros Hxy. induction la as [|x' ra IH]; intros [|y' rb] H; try discriminate H.
  - cbn. now rewrite Hxy.
  - cbn [map] in H. injection H as Hhead Htail.
    cbn [JSObject.insertIndexed]. rewrite Hhead.
    destruct (JSObject.arrayIndex (fst y')).
    + destruct (n <=? n0)%N; cbn [map]; [now rewrite Hxy, Hhead, Htail|].
      rewrite Hhead. f_equal. apply IH. exact Htail.
    + cbn [map]. now rewrite Hxy, Hhead, Htail.
Qed.

Lemma sortIndexed_keys {V W : Type} (a : JSMap.t V) :
  forall b : JSMap.t W,
    map fst a = map fst b ->
    map fst (JSObject.sortIndexed a) = map fst (JSObject.sortIndexed b).
Proof.
  induction a as [|x ra IH]; intros [|y rb] H; try discriminate H; [reflexivity|].
  cbn [map] in H. injection H as Hhead Htail.
  cbn [JSObject.sortIndexed fold_right].
  fold (JSObject.sortIndexed ra). fold (JSObject.sortIndexed rb).
  rewrite Hhead. destruct (JSObject.arrayIndex (fst y)).
  - apply insertIndexed_keys; [exact Hhead|apply IH; exact Htail].
  - apply IH. exact Htail.
Qed.

Lemma unindexed_keys {V W : Type} (a : JSMap.t V) :
  forall b : JSMap.t W,
    map fst a = map fst b ->
    map fst (filter (fun kv => negb (JSObject.isIndexed kv)) a)
    = map fst (filter (fun kv => negb (JSObject.isIndexed kv)) b).
Proof.
  induction a as [|x ra IH]; intros [|y rb] H; try discriminate H; [reflexivity|].
  cbn [map] in H. injection H as Hhead Htail. cbn [filter].
  assert (Hsame : JSObject.isIndexed x = JSObject.isIndexed y).
  { unfold JSObject.isIndexed. now rewrite Hhead. }
  rewrite Hsame. destruct (JSObject.isIndexed y); cbn [negb map].
  - apply IH. exact Htail.
  - rewrite Hhead. f_equal. apply IH. exact Htail.
Qed.

(** [Object.keys] sees the keys of the properties only. *)
Lemma object_keys_same {V W : Type} (a : JSMap.t V) (b : JSMap.t W) :
  JSMap.keys a = JSMap.keys b -> JSObject.keys a = JSObject.keys b.
Proof.
  intros H. unfold JSObject.keys, JSObject.entries. rewrite !map_app.
  f_equal; [apply sortIndexed_keys|apply unindexed_keys]; exact H.
Qed.

Lemma keys_filter {V : Type} (f : string -> bool) (m : JSMap.t V) :
  JSMap.keys (filter (fun kv => f (fst kv)) m) = filter f (JSMap.keys m).
Proof.
  unfold JSMap.keys. induction m as [|[k v] r IH]; [reflexivity|].
  cbn [filter fst map]. destruct (f k); cbn [map fst]; now rewrite IH.
Qed.

(** The first loop on paths that are stored once. *)
Lemma initCategories_once (stored : JSMap.t CategoryInfo) :
  forall acc : TreeView.Categories,
    proper acc ->
    NoDup (JSMap.keys (TreeView.own acc) ++ JSMap.keys stored) ->
    let cats :=
      fold_left
        (fun cats kv =>
           let '(path, info) := kv in
           if negb (path =? "favorites")
           then TreeView.assign path
                  (TreeView.mkEntry info [] (TreeView.parentOf path) []) cats
           else cats)
        stored acc in
    JSMap.keys (TreeView.own cats)
    = JSMap.keys (TreeView.own acc) ++ filter isOwn (JSMap.keys stored)
    /\ forall c,
         held c cats
         = if isShown c
           then match JSMap.get c stored with
                | Some info => Some (TreeView.mkEntry info [] (TreeView.parentOf c) [])
                | None => held c acc
                end
           else held c acc.
Proof.
  induction stored as [|[path info] r IH]; intros acc Hproper Hnd; cbn [fold_left].
  - cbv zeta. cbn [JSMap.keys map filter]. rewrite app_nil_r. split; [reflexivity|].
    intros c. now destruct (isShown c).
  - cbv zeta. cbn [JSMap.keys map fst] in Hnd. fold (JSMap.keys r) in Hnd.
    assert (Hrest : NoDup (JSMap.keys (TreeView.own acc) ++ JSMap.keys r)).
    { apply NoDup_remove_1 in Hnd. exact Hnd. }
    assert (Hnew : ~ In path (JSMap.keys (TreeView.own acc))
                   /\ ~ In path (JSMap.keys r)).
    { apply NoDup_remove_2 in Hnd. rewrite in_app_iff in Hnd. tauto. }
    destruct Hnew as [Hnew Hlater].
    set (acc' := if negb (path =? "favorites")
                 then TreeView.assign path
                        (TreeView.mkEntry info [] (TreeView.parentOf path) []) acc
                 else acc).
    assert (Hproper' : proper acc').
    { unfold acc'. destruct (negb (path =? "favorites")); [|exact Hproper].
      apply proper_assign. exact Hproper. }
    assert (Hkeys' : JSMap.keys (TreeView.own acc')
                     = JSMap.keys (TreeView.own acc)
                       ++ (if isOwn path then [path] else [])).
    { unfold acc', isOwn, isShown, TreeView.assign.
      destruct (negb (path =? "favorites")); cbn [andb]; [|now rewrite app_nil_r].
      destruct (path =? "__proto__"); cbn [negb TreeView.own]; [now rewrite app_nil_r|].
      rewrite keys_set.
      assert (Hhas : JSMap.has path (TreeView.own acc) = false).
      { apply has_false_iff. apply get_not_In_keys. exact Hnew. }
      now rewrite Hhas. }
    assert (Hnd' : NoDup (JSMap.keys (TreeView.own acc') ++ JSMap.keys r)).
    { rewrite Hkeys'. destruct (isOwn path); [|rewrite app_nil_r; exact Hrest].
      rewrite <- app_assoc. exact Hnd. }
    destruct (IH acc' Hproper' Hnd') as [Hkeys Hheld]. cbv zeta in Hkeys, Hheld.
    split.
    + rewrite Hkeys, Hkeys', <- app_assoc. cbn [JSMap.keys map fst filter].
      fold (JSMap.keys r). now destruct (isOwn path).
    + intros c. rewrite Hheld. simpl JSMap.get.
      destruct (String.eqb_spec c path) as [->|Hc].
      * rewrite (get_not_In_keys _ _ Hlater). unfold acc', isShown.
        destruct (negb (path =? "favorites")); [|reflexivity].
        rewrite held_assign by exact Hproper. now rewrite String.eqb_refl.
      * assert (Hsame : held c acc' = held c acc).
        { unfold acc'. destruct (negb (path =? "favorites")); [|reflexivity].
          rewrite held_assign by exact Hproper.
          apply String.eqb_neq in Hc. now rewrite Hc. }
        now rewrite Hsame.
Qed.

Lemma held_empty (c : string) : held c (TreeView.mkCategories [] None) = None.
Proof.
  unfold held, TreeView.lookup. cbn [JSMap.get TreeView.own TreeView.installed].
  now destruct (JSObject.inherits c).
Qed.

(** X24 (TreeView.buildTreeStructure, the first two loops). How a tree that
    is built nests. When no category path is stored twice, the own keys of
    the tree's table, as [Object.keys] and [Object.entries] list them, are
    the stored paths other than ['favorites'] and ['__proto__'], with those
    that are array indices first, in ascending order, and the others after
    them in the stored order. Every entry carries the stored info of its
    path, has as parent the path up to its last slash (none when it has no
    slash), and has as children exactly the own keys whose parent it is, in
    that same order. An entry under the empty path never gets a child. *)
Theorem buildTreeStructure_nesting (storage : StorageManager.t) (tree : TreeView.Tree) :
  JSMap.wf (StorageManager.categories storage) ->
  TreeView.buildTreeStructure storage = Return tree ->
  let stored := StorageManager.categories storage in
  let paths := JSObject.keys (filter (fun kv => isOwn (fst kv)) stored) in
  JSObject.keys (TreeView.own (TreeView.categories tree)) = paths
  /\ forall c entry,
       TreeView.lookup c (TreeView.categories tree) = TreeView.Held entry ->
       JSMap.get c stored = Some (TreeView.info entry)
       /\ TreeView.parent entry = TreeView.parentOf c
       /\ TreeView.children entry
          = (if JSString.truthy c then filter (isChildOf c) paths else []).
Proof.
  intros Hwf Htree. cbv zeta.
  pose proof (buildTreeStructure_spec storage) as Hspec. cbv zeta in Hspec.
  rewrite Htree in Hspec. destruct Hspec as (_ & [Hshape _] & _ & _ & Hheld).
  destruct (initCategories_once (StorageManager.categories storage)
              (TreeView.mkCategories [] None) proper_empty Hwf) as [Hkeys0 Hheld0].
  cbv zeta in Hkeys0, Hheld0. cbn [TreeView.own JSMap.keys map app] in Hkeys0.
  fold (TreeView.initCategories (StorageManager.categories storage)) in Hkeys0, Hheld0.
  assert (Hpaths : JSObject.keys
                     (TreeView.own
                        (TreeView.initCategories (StorageManager.categories storage)))
                   = JSObject.keys
                       (filter (fun kv => isOwn (fst kv))
                               (StorageManager.categories storage))).
  { apply object_keys_same. rewrite Hkeys0. symmetry. apply keys_filter. }
  split.
  - rewrite <- Hpaths. apply object_keys_same. symmetry. exact Hshape.
  - intros c entry Hentry. apply held_Some in Hentry.
    rewrite Hheld, Hheld0, held_empty in Hentry.
    destruct (isShown c); [|discriminate Hentry].
    destruct (JSMap.get c (StorageManager.categories storage)) as [info|];
      [|discriminate Hentry].
    cbn [option_map] in Hentry. injection Hentry as <-.
    cbn [addItems withChildren TreeView.info TreeView.parent TreeView.children].
    rewrite Hpaths. unfold childrenAmong. repeat split; reflexivity.
Qed.

Lemma buildTreeStructure_nesting_witness :
  exists tree,
    TreeView.buildTreeStructure Sample.dated = Return tree
    /\ JSObject.keys (TreeView.own (TreeView.categories tree))
       = ["10"; "2024"; "productivity"; "2024/q1"; "archive"]
    /\ forall entry,
         TreeView.lookup "2024" (TreeView.categories tree) = TreeView.Held entry ->
         TreeView.children entry = ["2024/q1"].
Proof.
  assert (Hwf : JSMap.wf (StorageManager.categories Sample.dated)).
  { repeat constructor; simpl; intuition discriminate. }
  eexists. split; [vm_compute; reflexivity|].
  destruct (buildTreeStructure_nesting Sample.dated _ Hwf eq_refl) as [Hkeys Hentries].
  split; [exact Hkeys|].
  intros entry Hentry. destruct (Hentries "2024" entry Hentry) as (_ & _ & Hchildren).
  rewrite Hchildren. reflexivity.
Defined.


(** ** New folders *)

Lemma lastIndexOf_without (c : ascii) (s : string) :
  forallb (fun x => negb (Ascii.eqb x c)) (chars s) = true ->
  JSString.lastIndexOf c s = None.
Proof.
  induction s as [|a r IH]; [reflexivity|]. intros H.
  change (chars (String a r)) with (a :: chars r) in H. simpl in H.
  apply andb_true_iff in H. destruct H as [Ha Hr].
  simpl. rewrite (IH Hr). apply negb_true_iff in Ha. now rewrite Ha.
Qed.

Lemma fileChar_no_slash (c : ascii) :
  JSString.isLowerAlnum c || JSString.isHyphen c = true ->
  negb (Ascii.eqb c "/") = true.
Proof.
  destruct c as [[] [] [] [] [] [] [] []]; intros H;
    first [reflexivity | discriminate H].
Qed.

Lemma safeName_chars (folderName : string) :
  forallb (fun c => JSString.isLowerAlnum c || JSString.isHyphen c)
          (chars (AppController.safeName folderName)) = true.
Proof.
  unfold AppController.safeName.
  set (K := fun c => JSString.isLowerAlnum c || JSString.isWhiteSpace c
                     || JSString.isHyphen c).
  pose proof (keepChars_forall K (JSString.toLowerCase (JSString.trim folderName))) as H.
  apply (replaceRuns_forall JSString.isWhiteSpace K) in H.
  revert H. apply forallb_weaken. intros c. unfold K.
  destruct (JSString.isHyphen c), (JSString.isLowerAlnum c),
    (JSString.isWhiteSpace c); simpl; congruence.
Qed.

(** X25 (AppController.createNewFolder). A folder that [createNewFolder]
    creates is always a new top-level category: its key is not empty, is
    made of lower-case letters a-z, digits and hyphens only, so it has no
    slash and no parent, and it was not stored before; the entry goes after
    the stored ones, which are left as they are, with the name as typed. In
    every other case nothing changes. *)
Theorem createNewFolder_top_level (answer : option string)
        (storage : StorageManager.t) (ls : LocalStorage.t) :
  let out := AppController.createNewFolder answer storage ls in
  let after := fst (fst out) in
  match snd out with
  | AppController.Created =>
      exists folderName : string,
        answer = Some folderName
        /\ let key := AppController.safeName folderName in
           key <> ""
           /\ forallb (fun c => JSString.isLowerAlnum c || JSString.isHyphen c)
                      (chars key) = true
           /\ TreeView.parentOf key = None
           /\ JSMap.has key (StorageManager.categories storage) = false
           /\ StorageManager.categories after
              = StorageManager.categories storage
                ++ [(key, mkCategoryInfo folderName "folder" "#6b7280")]
           /\ StorageManager.prompts after = StorageManager.prompts storage
           /\ StorageManager.favorites after = StorageManager.favorites storage
           /\ StorageManager.settings after = StorageManager.settings storage
           /\ snd (fst out) = StorageManager.saveCategories after ls
  | _ => fst out = (storage, ls)
  end.
Proof.
  cbv zeta. unfold AppController.createNewFolder.
  destruct answer as [folderName|]; [|reflexivity].
  destruct (JSString.truthy folderName); cbn [negb]; [|reflexivity].
  destruct (JSString.truthy (AppController.safeName folderName)) eqn:Hsafe;
    cbn [negb]; [|reflexivity].
  destruct (JSMap.has (AppController.safeName folderName)
              (StorageManager.categories storage)) eqn:Hhas; [reflexivity|].
  cbn [fst snd]. exists folderName. split; [reflexivity|].
  split; [apply truthy_true; exact Hsafe|].
  split; [apply safeName_chars|].
  split.
  { unfold TreeView.parentOf. rewrite lastIndexOf_without; [reflexivity|].
    generalize (safeName_chars folderName). apply forallb_weaken.
    apply fileChar_no_slash. }
  split; [exact Hhas|].
  split.
  { cbn [StorageManager.categories]. apply set_absent.
    apply has_false_iff. exact Hhas. }
  repeat split; reflexivity.
Qed.

Example createNewFolder_sample :
  snd (AppController.createNewFolder (Some "  My Prompts / 2024 ")
         Sample.manager Sample.emptyStore)
  = AppController.Created
  /\ JSMap.keys
       (StorageManager.categories
          (fst (fst (AppController.createNewFolder (Some "  My Prompts / 2024 ")
                       Sample.manager Sample.emptyStore))))
     = ["favorites"; "productivity"; "linguaggi"; "linguaggi/java"; "my-prompts-2024"].
Proof. split; vm_compute; reflexivity. Qed.

(** ** Sharing one record *)

(** X26 (Prompt.export, Prompt.import). The JSON export of a record is
    lossless: for a record that passes [validate] and has an id, a version
    and both dates, and for every spelling of the format that lower-cases
    to ['json'], [export] returns a text from which [Prompt.import] gives
    the record back, id, category and favorite flag included, both with the
    format ['json'] and with ['auto']. The two sides do not agree on the
    spelling: [export] lower-cases the format, [import] does not, so a
    format that [export] accepts is refused by [import] unless it is in
    lower case already. *)
Theorem import_export_json {dates : DateParser} {yaml : JsYaml} {json : Json}
        (fresh today format : string) (p : Prompt.t) :
  Prompt.validate p = Return tt ->
  complete p = true ->
  JSString.toLowerCase format = "json" ->
  exists text : YamlText,
    Prompt.export format p = Return text
    /\ Prompt.import fresh today text "json" = Return p
    /\ Prompt.import fresh today text "auto" = Return p
    /\ (format <> "json" ->
        Prompt.import fresh today text format
        = Throw ("Failed to import prompt: Unsupported import format: " ++ format)).
Proof.
  intros Hvalid Hcomplete Hformat.
  exists (stringify (Prompt.toObject p)).
  unfold Prompt.export, Prompt.import. cbv zeta. rewrite Hformat.
  cbn [String.eqb Ascii.eqb Bool.eqb andb].
  rewrite parse_stringify. cbn [bindC].
  rewrite (new_stored fresh today p Hvalid Hcomplete).
  split; [reflexivity|]. split; [reflexivity|]. split; [reflexivity|].
  intros Hne.
  assert (Hauto : (format =? "auto") = false).
  { apply String.eqb_neq. intros E. rewrite E in Hformat. discriminate Hformat. }
  assert (Hjson : (format =? "json") = false) by (apply String.eqb_neq; exact Hne).
  assert (Hyaml : (format =? "yaml") = false).
  { apply String.eqb_neq. intros E. rewrite E in Hformat. discriminate Hformat. }
  rewrite Hauto, Hjson, Hyaml. reflexivity.
Qed.

Lemma import_export_json_witness :
  @Prompt.import Sample.isoDates Sample.structuralYaml Sample.structuralJson
    "prompt-9-z" "2024-03-03" (Prompt.toObject Sample.codeReview) "JSON"
  = Throw "Failed to import prompt: Unsupported import format: JSON".
Proof.
  destruct (@import_export_json Sample.isoDates Sample.structuralYaml Sample.structuralJson
              "prompt-9-z" "2024-03-03" "JSON" Sample.codeReview
              eq_refl eq_refl eq_refl)
    as (text & Hexport & _ & _ & Hcase).
  injection Hexport as <-. apply Hcase. discriminate.
Defined.

(** ** Exporting and importing the collection *)

Lemma set_same {V : Type} (k : string) (v : V) (m : JSMap.t V) :
  JSMap.get k m = Some v -> JSMap.set k v m = m.
Proof.
  induction m as [|[k' v'] r IH]; simpl; [discriminate|].
  destruct (String.eqb_spec k k') as [->|Hne].
  - intros H. injection H as ->. reflexivity.
  - intros H. now rewrite IH.
Qed.

Lemma assign_same {V : Type} (b a : JSMap.t V) :
  (forall k v, In (k, v) b -> JSMap.get k a = Some v) -> JSMap.assign a b = a.
Proof.
  unfold JSMap.assign. induction b as [|[k v] r IH]; intros H; [reflexivity|].
  cbn [fold_left fst snd]. rewrite (set_same k v a) by (apply H; now left).
  apply IH. intros k' v' Hin. apply H. now right.
Qed.

Lemma assign_self {V : Type} (m : JSMap.t V) : JSMap.wf m -> JSMap.assign m m = m.
Proof. intros Hwf. apply assign_same. intros k v Hin. apply In_get; assumption. Qed.

Lemma fold_add_same (l : list string) (s : JSSet.t) :
  (forall x, In x l -> In x s) ->
  fold_left (fun s x => JSSet.add x s) l s = s.
Proof.
  induction l as [|x r IH]; intros H; [reflexivity|]. cbn [fold_left].
  assert (Hx : JSSet.has x s = true).
  { apply existsb_In. apply H. now left. }
  unfold JSSet.add at 2. rewrite Hx. apply IH. intros y Hy. apply H. now right.
Qed.

Section Reimport.
Context {dates : DateParser}.

(** The loop of a merging import over records whose ids are all taken:
    every one is skipped. *)
Lemma merge_loop_skips (ps : list Prompt.t) :
  forall st : JSMap.t Prompt.t * StorageManager.ImportResult,
    (forall p, In p ps -> JSMap.has (Prompt.id p) (fst st) = true) ->
    fold_left (StorageManager.absorb true) (map Return ps) st
    = (fst st,
       StorageManager.mkResult
         (StorageManager.imported (snd st))
         (StorageManager.skipped (snd st) + Z.of_nat (List.length ps))
         (StorageManager.errors (snd st))).
Proof.
  induction ps as [|p r IH]; intros [m [i s e]] H; cbn [map fold_left].
  - cbn [fst snd StorageManager.imported StorageManager.skipped StorageManager.errors
         List.length]. f_equal. f_equal. lia.
  - rewrite (absorb_collision _ p) by (apply H; now left).
    rewrite IH by (intros q Hq; apply H; now right).
    cbn [fst snd StorageManager.imported StorageManager.skipped StorageManager.errors
         List.length]. f_equal. f_equal. lia.
Qed.

Lemma filed_has (m : JSMap.t Prompt.t) :
  filed m -> forall p, In p (JSMap.values m) -> JSMap.has (Prompt.id p) m = true.
Proof.
  intros [_ Hin] p Hp. unfold JSMap.values in Hp. apply in_map_iff in Hp.
  destruct Hp as ([k q] & <- & Hq). cbn [snd].
  destruct (Hin k q Hq) as [<- _].
  apply has_true_iff. apply In_keys_get.
  change k with (fst (k, q)). apply in_map. exact Hq.
Qed.

End Reimport.

(** X27 (StorageManager.exportData, importData). An export carries the
    whole state. When the collection holds valid records filed under their
    ids, each with an id, a version and both dates, and no key is stored
    twice, then importing the JSON export with [merge=false] gives any
    manager the exported records in the same order, the same categories
    and favorites and every setting that was set, with every record
    counted as imported; and importing it with [merge=true] into the
    manager it came from changes nothing and reports every record as
    skipped. *)
Theorem exportData_importData {dates : DateParser} {codec : ExportCodec}
        (ids : nat -> string) (today now typeError : string)
        (this other : StorageManager.t) (ls : LocalStorage.t) :
  filed (StorageManager.prompts this) ->
  forallb complete (JSMap.values (StorageManager.prompts this)) = true ->
  JSMap.wf (StorageManager.categories this) ->
  JSSet.wf (StorageManager.favorites this) ->
  JSMap.wf (StorageManager.settings this) ->
  let text := StorageManager.exportData now "json" this in
  let replaced :=
    StorageManager.importDataText ids today typeError text "json" false other ls in
  let merged :=
    StorageManager.importDataText ids today typeError text "json" true this ls in
  let n := Z.of_nat (List.length (StorageManager.prompts this)) in
  (snd replaced = Return (StorageManager.mkResult n 0 [])
   /\ StorageManager.prompts (fst (fst replaced)) = StorageManager.prompts this
   /\ (forall k, JSMap.get k (StorageManager.categories (fst (fst replaced)))
                 = JSMap.get k (StorageManager.categories this))
   /\ StorageManager.favorites (fst (fst replaced)) = StorageManager.favorites this
   /\ (forall k, JSMap.get k (StorageManager.settings (fst (fst replaced)))
                 = match JSMap.get k (StorageManager.settings this) with
                   | Some v => Some v
                   | None => JSMap.get k StorageManager.getDefaultSettings
                   end))
  /\ (snd merged = Return (StorageManager.mkResult 0 n [])
      /\ fst (fst merged) = this
      /\ snd (fst merged) = StorageManager.saveAll this ls).
Proof.
  intros Hfiled Hcomplete Hcats Hfav Hset. cbv zeta.
  unfold StorageManager.exportData, StorageManager.importDataText.
  cbn [String.eqb Ascii.eqb Bool.eqb andb]. rewrite parse_stringifyExport.
  cbn [content].
  set (parsedData :=
         {| Snapshot.prompts :=
              Some (map Prompt.toObject (JSMap.values (StorageManager.prompts this)));
            Snapshot.categories := Some (JSObject.entries (StorageManager.categories this));
            Snapshot.favorites := Some (StorageManager.favorites this);
            Snapshot.settings := Some (StorageManager.settings this) |}).
  assert (Hcs : StorageManager.constructAll ids today 0 (StorageManager.incoming parsedData)
                = map Return (JSMap.values (StorageManager.prompts this))).
  { apply constructAll_stored. apply stored_records; assumption. }
  assert (Hn : List.length (JSMap.values (StorageManager.prompts this))
               = List.length (StorageManager.prompts this)).
  { unfold JSMap.values. apply length_map. }
  split.
  - unfold StorageManager.importData, StorageManager.clearAll.
    cbn [negb]. cbv beta iota zeta.
    cbn [StorageManager.prompts StorageManager.categories StorageManager.favorites
         StorageManager.settings parsedData Snapshot.prompts Snapshot.categories
         Snapshot.favorites Snapshot.settings].
    rewrite importPrompts_fold, replace_loop.
    change (StorageManager.constructAll ids today 0
              (map Prompt.toObject (JSMap.values (StorageManager.prompts this))))
      with (StorageManager.constructAll ids today 0 (StorageManager.incoming parsedData)).
    rewrite Hcs, returned_map_Return, thrown_map_Return, Hn.
    cbn [fst snd StorageManager.imported StorageManager.skipped StorageManager.errors
         StorageManager.prompts StorageManager.categories StorageManager.favorites
         StorageManager.settings app map Z.add].
    split; [reflexivity|].
    split; [apply (setAll_values (StorageManager.prompts this) []
                     (filed_keyed _ Hfiled) (proj1 Hfiled))|].
    split; [intros k; rewrite (get_assign k [] _ (wf_entries _ Hcats)), get_entries;
            now destruct (JSMap.get k (StorageManager.categories this))|].
    split; [apply (fold_add_nodup (StorageManager.favorites this) []); exact Hfav|].
    intros k. apply get_assign. exact Hset.
  - destruct (importData_loop_merging ids today parsedData this ls) as [Hmap Hres].
    cbv zeta in Hmap, Hres. rewrite Hcs in Hmap, Hres.
    rewrite (merge_loop_skips (JSMap.values (StorageManager.prompts this))
               (StorageManager.prompts this, StorageManager.mkResult 0 0 [])
               (filed_has _ Hfiled)) in Hmap, Hres.
    cbn [fst snd StorageManager.imported StorageManager.skipped StorageManager.errors]
      in Hmap, Hres.
    rewrite Hn in Hres. split; [exact Hres|].
    assert (Hstate :
              fst (fst (StorageManager.importData ids today (Return parsedData) true
                          this ls))
              = StorageManager.mk
                  (StorageManager.prompts
                     (fst (fst (StorageManager.importData ids today (Return parsedData)
                                  true this ls))))
                  (JSMap.assign (StorageManager.categories this)
                                (JSObject.entries (StorageManager.categories this)))
                  (fold_left (fun s id => JSSet.add id s) (StorageManager.favorites this)
                             (StorageManager.favorites this))
                  (JSMap.assign (StorageManager.settings this)
                                (StorageManager.settings this))
              /\ snd (fst (StorageManager.importData ids today (Return parsedData) true
                             this ls))
                 = StorageManager.saveAll
                     (fst (fst (StorageManager.importData ids today (Return parsedData)
                                  true this ls)))
                     ls).
    { unfold StorageManager.importData. cbn [negb]. cbv beta iota zeta.
      cbn [parsedData Snapshot.prompts Snapshot.categories Snapshot.favorites
           Snapshot.settings].
      destruct (StorageManager.importPrompts true ids today 0
                  (map Prompt.toObject (JSMap.values (StorageManager.prompts this)))
                  (StorageManager.prompts this, StorageManager.mkResult 0 0 []))
        as [m r].
      split; reflexivity. }
    destruct Hstate as [Hstate Hstore].
    rewrite Hmap, (assign_self _ Hset) in Hstate.
    rewrite (assign_same (JSObject.entries (StorageManager.categories this)))
      in Hstate
      by (intros k v Hin; apply In_get; [exact Hcats|apply In_entries; exact Hin]).
    rewrite (fold_add_same _ _ (fun x H => H)) in Hstate.
    assert (Hthis : fst (fst (StorageManager.importData ids today (Return parsedData)
                                true this ls)) = this).
    { rewrite Hstate. destruct this; reflexivity. }
    split; [exact Hthis|]. rewrite Hstore, Hthis. reflexivity.
Qed.

Lemma exportData_importData_witness :
  snd (@StorageManager.importDataText Sample.isoDates Sample.structuralCodec
         Sample.ids "2024-03-03" "parsedData is undefined"
         (@StorageManager.exportData Sample.structuralCodec
            "2024-03-03T10:00:00.000Z" "json" Sample.manager)
         "json" true Sample.manager Sample.emptyStore)
  = Return (StorageManager.mkResult 0 2 []).
Proof.
  refine (proj1 (proj2
            (@exportData_importData Sample.isoDates Sample.structuralCodec Sample.ids
               "2024-03-03" "2024-03-03T10:00:00.000Z" "parsedData is undefined"
               Sample.manager Sample.fresh Sample.emptyStore
               sample_manager_filed eq_refl _ _ _)));
    repeat constructor; simpl; intuition discriminate.
Defined.

(** ** The theme *)

Lemma setTheme_current (accepted : bool) (theme : string) (page : ThemeUtils.t) :
  In theme ThemeUtils.THEMES ->
  ThemeUtils.getCurrentTheme (ThemeUtils.setTheme accepted theme page) = theme.
Proof.
  intros [<-|[<-|[]]]; destruct accepted; reflexivity.
Qed.

(** X28 (ThemeUtils.setTheme, toggleTheme, loadTheme). The page is always
    left in one of the two themes. [setTheme] with any other name changes
    nothing; [toggleTheme] switches between light and dark, so two toggles
    restore the theme, and it turns any other value of the attribute into
    light; [loadTheme] ends in the stored theme when that is one of the
    two, and otherwise in the system's, or in light when the store cannot
    be read. This holds whether or not the store accepts the write. *)
Theorem theme_two_valued (accepted accepted' readable prefersDark : bool)
        (theme : string) (page : ThemeUtils.t) :
  (~ In theme ThemeUtils.THEMES -> ThemeUtils.setTheme accepted theme page = page)
  /\ In (ThemeUtils.getCurrentTheme (ThemeUtils.toggleTheme accepted page))
        ThemeUtils.THEMES
  /\ (In (ThemeUtils.getCurrentTheme page) ThemeUtils.THEMES ->
      ThemeUtils.getCurrentTheme (ThemeUtils.toggleTheme accepted page)
      <> ThemeUtils.getCurrentTheme page
      /\ ThemeUtils.getCurrentTheme
           (ThemeUtils.toggleTheme accepted' (ThemeUtils.toggleTheme accepted page))
         = ThemeUtils.getCurrentTheme page)
  /\ (~ In (ThemeUtils.getCurrentTheme page) ThemeUtils.THEMES ->
      ThemeUtils.getCurrentTheme (ThemeUtils.toggleTheme accepted page)
      = ThemeUtils.LIGHT)
  /\ In (ThemeUtils.getCurrentTheme
           (ThemeUtils.loadTheme readable prefersDark accepted page))
        ThemeUtils.THEMES
  /\ (forall saved,
         ThemeUtils.savedTheme page = Some saved -> In saved ThemeUtils.THEMES ->
         ThemeUtils.getCurrentTheme (ThemeUtils.loadTheme true prefersDark accepted page)
         = saved)
  /\ ((forall saved,
          ThemeUtils.savedTheme page = Some saved -> ~ In saved ThemeUtils.THEMES) ->
      ThemeUtils.getCurrentTheme (ThemeUtils.loadTheme true prefersDark accepted page)
      = (if prefersDark then ThemeUtils.DARK else ThemeUtils.LIGHT))
  /\ ThemeUtils.getCurrentTheme (ThemeUtils.loadTheme false prefersDark accepted page)
     = ThemeUtils.LIGHT.
Proof.
  assert (Htoggle : forall a pg,
             ThemeUtils.getCurrentTheme (ThemeUtils.toggleTheme a pg)
             = if ThemeUtils.getCurrentTheme pg =? ThemeUtils.LIGHT
               then ThemeUtils.DARK else ThemeUtils.LIGHT).
  { intros a pg. unfold ThemeUtils.toggleTheme. cbv zeta.
    apply setTheme_current.
    destruct (ThemeUtils.getCurrentTheme pg =? ThemeUtils.LIGHT); simpl; tauto. }
  split; [|split; [|split; [|split; [|split; [|split; [|split]]]]]].
  - intros Hnot. unfold ThemeUtils.setTheme.
    destruct (existsb (String.eqb theme) ThemeUtils.THEMES) eqn:E; [|reflexivity].
    apply existsb_In in E. contradiction.
  - rewrite Htoggle.
    destruct (ThemeUtils.getCurrentTheme page =? ThemeUtils.LIGHT); simpl; tauto.
  - intros Hin. rewrite !Htoggle.
    destruct Hin as [E|[E|[]]]; rewrite <- E; (split; [discriminate|reflexivity]).
  - intros Hnot. rewrite Htoggle.
    destruct (String.eqb_spec (ThemeUtils.getCurrentTheme page) ThemeUtils.LIGHT)
      as [E|E]; [|reflexivity].
    exfalso. apply Hnot. left. symmetry. exact E.
  - unfold ThemeUtils.loadTheme.
    assert (Hsys : In (ThemeUtils.getSystemTheme prefersDark) ThemeUtils.THEMES).
    { destruct prefersDark; simpl; tauto. }
    destruct readable.
    + destruct (ThemeUtils.savedTheme page) as [saved|].
      * destruct (JSString.truthy saved
                  && existsb (String.eqb saved) ThemeUtils.THEMES) eqn:E.
        -- apply andb_true_iff in E. destruct E as [_ E]. apply existsb_In in E.
           rewrite setTheme_current; assumption.
        -- rewrite setTheme_current; assumption.
      * rewrite setTheme_current; assumption.
    + rewrite setTheme_current; simpl; tauto.
  - intros saved Hsaved Hin. unfold ThemeUtils.loadTheme. rewrite Hsaved.
    assert (E : JSString.truthy saved
                && existsb (String.eqb saved) ThemeUtils.THEMES = true).
    { destruct Hin as [<-|[<-|[]]]; reflexivity. }
    rewrite E. apply setTheme_current. exact Hin.
  - intros Hnone. unfold ThemeUtils.loadTheme.
    assert (Hsys : ThemeUtils.getCurrentTheme
                     (ThemeUtils.setTheme accepted (ThemeUtils.getSystemTheme prefersDark)
                                          page)
                   = (if prefersDark then ThemeUtils.DARK else ThemeUtils.LIGHT)).
    { rewrite setTheme_current; destruct prefersDark; simpl; tauto. }
    destruct (ThemeUtils.savedTheme page) as [saved|]; [|exact Hsys].
    destruct (JSString.truthy saved
              && existsb (String.eqb saved) ThemeUtils.THEMES) eqn:E; [|exact Hsys].
    apply andb_true_iff in E. destruct E as [_ E]. apply existsb_In in E.
    exfalso. exact (Hnone saved eq_refl E).
  - unfold ThemeUtils.loadTheme. apply setTheme_current. simpl. tauto.
Qed.
